(** * Task assistant backend: the agent pipeline and its task store

    A shallow embedding of the agent ([process], [classify], [handleTask],
    [handleConversation], [formatDate]), of its tools ([extractTaskInfo],
    [saveTask], [getTasks], [generateAdvice], [updateTask], [deleteTask]),
    of the prompt templates and of the [Task] schema, followed by the
    properties of the specification that concern them.

    Asynchronous calls are awaited one after the other in the source, so a
    call is a state transformer over a [World]: the tasks collection, the
    clock, and the answers the completion service is going to give.

    What the model leaves out: a number is the rational it denotes, without
    the rounding of floating point; the persistence library is described
    by what it does with this schema and with the values these tools pass
    to it.  A text is held by the bytes of its UTF-8 encoding; the time
    zone of the process is a parameter, with its changes of offset. *)

From Stdlib Require Import ZArith QArith Qabs List String Ascii Bool Lia.
From Stdlib Require Import DecimalString.
From Stdlib Require Import Sorting.Sorted Sorting.Permutation.
Import ListNotations.

Local Open Scope string_scope.
Local Open Scope Z_scope.

(* ===================================================================== *)
(** ** JavaScript values *)
(* ===================================================================== *)

(** The double quote, which a literal cannot hold. *)
Definition dq : string := String "034"%char EmptyString.

(** A line feed. *)
Definition nl : string := String "010"%char EmptyString.

(** A [Date] object: a time value in milliseconds since the epoch, or the
    Invalid Date (time value NaN). *)
Inductive JSDate : Type :=
| ValidDate (ms : Z)
| InvalidDate.

(** What [JSON.parse] produces.  A number is a rational: every finite
    floating-point number is one. *)
#[warnings="-register-all"]
Inductive JSON : Type :=
| JNull
| JBool (b : bool)
| JNum (n : Q)
| JStr (s : string)
| JArr (items : list JSON)
| JObj (members : list (string * JSON)).

(** What [Number(text)] gives: a number, an infinity or NaN. *)
Inductive JSNumber : Type :=
| Finite (n : Q)
| PosInfinity
| NegInfinity
| NaN.

(** The values a property of the objects of this program can hold. *)
Inductive JSValue : Type :=
| VUndefined
| VJson (j : JSON)
| VDate (d : JSDate).

(** An object with its own properties, most recent definition first found. *)
Definition JSObject : Type := list (string * JSValue).

Fixpoint assoc {A : Type} (k : string) (l : list (string * A)) : option A :=
  match l with
  | [] => None
  | (k', v) :: rest => if String.eqb k k' then Some v else assoc k rest
  end.

(** [o.k] on an object. *)
Definition get_prop (k : string) (o : JSObject) : JSValue :=
  match assoc k o with
  | Some v => v
  | None => VUndefined
  end.

(** [o.k = v] on an object: the property is replaced where it stands, or
    added last. *)
Fixpoint set_prop (k : string) (v : JSValue) (o : JSObject) : JSObject :=
  match o with
  | [] => [(k, v)]
  | (k', v') :: rest =>
      if String.eqb k k' then (k, v) :: rest else (k', v') :: set_prop k v rest
  end.

(** Decimal rendering of an integer. *)
Definition Z_to_string (n : Z) : string := NilZero.string_of_int (Z.to_int n).

(** The property names of an array: its indices. *)
Fixpoint indexed (i : nat) (items : list JSON) : list (string * JSValue) :=
  match items with
  | [] => []
  | x :: rest => (Z_to_string (Z.of_nat i), VJson x) :: indexed (S i) rest
  end.

(** The own properties of a parsed value that is an object (arrays
    included); [None] for [null] and for the primitives. *)
Definition as_object (j : JSON) : option JSObject :=
  match j with
  | JObj members => Some (map (fun kv => (fst kv, VJson (snd kv))) members)
  | JArr items => Some (indexed 0 items)
  | _ => None
  end.

(** ToBoolean. *)
Definition truthy (v : JSValue) : bool :=
  match v with
  | VUndefined => false
  | VJson JNull => false
  | VJson (JBool b) => b
  | VJson (JNum n) => negb (Qeq_bool n 0)
  | VJson (JStr s) => negb (String.eqb s "")
  | VJson (JArr _) => true
  | VJson (JObj _) => true
  | VDate _ => true
  end.

(** [a || b]. *)
Definition js_or (a b : JSValue) : JSValue := if truthy a then a else b.

Fixpoint join (sep : string) (l : list string) : string :=
  match l with
  | [] => ""
  | [x] => x
  | x :: rest => x ++ sep ++ join sep rest
  end.

Definition digit (c : ascii) : option Z :=
  let n := nat_of_ascii c in
  if (Nat.leb 48 n && Nat.leb n 57)%bool then Some (Z.of_nat (n - 48)) else None.

Fixpoint number (acc : Z) (s : string) : option Z :=
  match s with
  | EmptyString => Some acc
  | String c rest =>
      match digit c with
      | Some d => number (10 * acc + d) rest
      | None => None
      end
  end.

(** A text is held by the bytes of its UTF-8 encoding (a lone surrogate
    by the three bytes this encoding gives its code). *)
Definition byte_is (n : N) (c : ascii) : bool := N.eqb (N_of_ascii c) n.

(** The white space and the line terminators that [String.prototype.trim]
    removes, by the bytes of their encoding.  On one byte: U+0009 to
    U+000D and U+0020. *)
Definition is_space (c : ascii) : bool :=
  let n := N_of_ascii c in
  ((n =? 32) || ((9 <=? n) && (n <=? 13)))%N%bool.

(** On two bytes: U+00A0 (C2 A0). *)
Definition is_space2 (c1 c2 : ascii) : bool :=
  (byte_is 194 c1 && byte_is 160 c2)%bool.

(** On three bytes: U+1680 (E1 9A 80); U+2000 to U+200A, U+2028, U+2029
    and U+202F (E2 80 80 to 8A, A8, A9, AF); U+205F (E2 81 9F); U+3000
    (E3 80 80); U+FEFF (EF BB BF). *)
Definition is_space3 (c1 c2 c3 : ascii) : bool :=
  let n := N_of_ascii c3 in
  ((byte_is 225 c1 && byte_is 154 c2 && byte_is 128 c3)
   || (byte_is 226 c1 && byte_is 128 c2
       && (((128 <=? n) && (n <=? 138)) || (n =? 168) || (n =? 169)
           || (n =? 175))%N)
   || (byte_is 226 c1 && byte_is 129 c2 && byte_is 159 c3)
   || (byte_is 227 c1 && byte_is 128 c2 && byte_is 128 c3)
   || (byte_is 239 c1 && byte_is 187 c2 && byte_is 191 c3))%bool.

Fixpoint trimStart (s : string) : string :=
  match s with
  | EmptyString => EmptyString
  | String c1 rest1 =>
      if is_space c1 then trimStart rest1
      else match rest1 with
           | EmptyString => s
           | String c2 rest2 =>
               if is_space2 c1 c2 then trimStart rest2
               else match rest2 with
                    | EmptyString => s
                    | String c3 rest3 =>
                        if is_space3 c1 c2 c3 then trimStart rest3 else s
                    end
           end
  end.

(** The text starts with white space. *)
Definition starts_space (s : string) : bool :=
  match s with
  | String c1 rest1 =>
      (is_space c1
       || match rest1 with
          | String c2 rest2 =>
              is_space2 c1 c2
              || match rest2 with
                 | String c3 _ => is_space3 c1 c2 c3
                 | EmptyString => false
                 end
          | EmptyString => false
          end)%bool
  | EmptyString => false
  end.

(** The text is white space from end to end. *)
Fixpoint all_space (s : string) : bool :=
  match s with
  | EmptyString => true
  | String c1 rest1 =>
      if is_space c1 then all_space rest1
      else match rest1 with
           | EmptyString => false
           | String c2 rest2 =>
               if is_space2 c1 c2 then all_space rest2
               else match rest2 with
                    | EmptyString => false
                    | String c3 rest3 =>
                        (is_space3 c1 c2 c3 && all_space rest3)%bool
                    end
           end
  end.

Fixpoint trimEnd (s : string) : string :=
  match s with
  | EmptyString => EmptyString
  | String c rest => if all_space s then EmptyString else String c (trimEnd rest)
  end.

Definition trim (s : string) : string := trimEnd (trimStart s).

(** [s.length]: the number of UTF-16 code units of the text, one for a
    code of up to three bytes, two for a code of four. *)
Fixpoint js_length (s : string) : nat :=
  match s with
  | EmptyString => O
  | String c rest =>
      let n := N_of_ascii c in
      if (n <? 192)%N then S (js_length rest)
      else if (n <? 224)%N
      then match rest with
           | String _ r => S (js_length r)
           | _ => 1%nat
           end
      else if (n <? 240)%N
      then match rest with
           | String _ (String _ r) => S (js_length r)
           | _ => 1%nat
           end
      else match rest with
           | String _ (String _ (String _ r)) => S (S (js_length r))
           | _ => 2%nat
           end
  end.

(* ===================================================================== *)
(** ** Calendar arithmetic of [Date] *)
(* ===================================================================== *)

Definition msPerDay : Z := 86400000.

(** The largest time value of a [Date]. *)
Definition maxTime : Z := 8640000000000000.

(** TimeClip. *)
Definition TimeClip (t : Z) : JSDate :=
  if (Z.abs t <=? maxTime) then ValidDate t else InvalidDate.

(** TimeClip of a number: out of range it is NaN, within range its
    fraction is dropped. *)
Definition TimeClip_number (n : Q) : JSDate :=
  if Qle_bool (Qabs n) (inject_Z maxTime)
  then ValidDate (Z.quot (Qnum n) (Z.pos (Qden n)))
  else InvalidDate.

(** Day number of a time value: days since 1970-01-01. *)
Definition Day (t : Z) : Z := t / msPerDay.

(** Year, month (1..12) and day of the month of a day number, in the
    proleptic Gregorian calendar. *)
Definition civil_from_days (z : Z) : Z * Z * Z :=
  let z := z + 719468 in
  let era := z / 146097 in
  let doe := z - era * 146097 in
  let yoe := (doe - doe / 1460 + doe / 36524 - doe / 146096) / 365 in
  let y := yoe + era * 400 in
  let doy := doe - (365 * yoe + yoe / 4 - yoe / 100) in
  let mp := (5 * doy + 2) / 153 in
  let d := doy - (153 * mp + 2) / 5 + 1 in
  let m := if mp <? 10 then mp + 3 else mp - 9 in
  (if m <=? 2 then y + 1 else y, m, d).

(** The day number of a calendar date. *)
Definition days_from_civil (y m d : Z) : Z :=
  let y := if m <=? 2 then y - 1 else y in
  let era := y / 400 in
  let yoe := y - era * 400 in
  let doy := (153 * (if 2 <? m then m - 3 else m + 9) + 2) / 5 + d - 1 in
  let doe := yoe * 365 + yoe / 4 - yoe / 100 + doy in
  era * 146097 + doe - 719468.

(** WeekDay: 0 is Sunday; 1970-01-01 was a Thursday. *)
Definition WeekDay (day : Z) : Z := (day + 4) mod 7.

Definition weekdayName (w : Z) : string :=
  match w with
  | 0 => "Sunday" | 1 => "Monday" | 2 => "Tuesday" | 3 => "Wednesday"
  | 4 => "Thursday" | 5 => "Friday" | _ => "Saturday"
  end.

Definition monthName (m : Z) : string :=
  match m with
  | 1 => "January" | 2 => "February" | 3 => "March" | 4 => "April"
  | 5 => "May" | 6 => "June" | 7 => "July" | 8 => "August"
  | 9 => "September" | 10 => "October" | 11 => "November" | _ => "December"
  end.

(** A non-negative number on at least [width] digits. *)
Fixpoint zeros (n : nat) : string :=
  match n with
  | O => ""
  | S k => "0" ++ zeros k
  end.

Definition pad (width : nat) (n : Z) : string :=
  let s := Z_to_string n in
  zeros (width - String.length s) ++ s.

(** [toLocaleDateString('en-US', {weekday: 'long', year: 'numeric',
    month: 'long', day: 'numeric'})] of a local day number.  The year is
    the year of the era: 1 for the year 0, 2 for the year -1. *)
Definition longDate (day : Z) : string :=
  let '(y, m, d) := civil_from_days day in
  weekdayName (WeekDay day) ++ ", " ++ monthName m ++ " "
    ++ Z_to_string d ++ ", " ++ Z_to_string (if 0 <? y then y else 1 - y).

(** YearFromTime, MonthFromTime (0 is January) and DateFromTime. *)
Definition YearFromTime (t : Z) : Z :=
  let '(y, _, _) := civil_from_days (Day t) in y.

Definition MonthFromTime (t : Z) : Z :=
  let '(_, m, _) := civil_from_days (Day t) in m - 1.

Definition DateFromTime (t : Z) : Z :=
  let '(_, _, d) := civil_from_days (Day t) in d.

Definition TimeWithinDay (t : Z) : Z := t mod msPerDay.

(** MakeDay: the day number of the first day of the month, plus the date
    less one; a month outside 0..11 carries into the year. *)
Definition MakeDay (year month date : Z) : Z :=
  days_from_civil (year + month / 12) (month mod 12 + 1) 1 + date - 1.

Definition MakeDate (day time : Z) : Z := day * msPerDay + time.

(** [toISOString] of a valid time value (always in UTC). *)
Definition toISOString (t : Z) : string :=
  let '(y, m, d) := civil_from_days (Day t) in
  let r := t mod msPerDay in
  let year := if ((0 <=? y) && (y <=? 9999))%bool then pad 4 y
              else (if y <? 0 then "-" else "+") ++ pad 6 (Z.abs y) in
  year ++ "-" ++ pad 2 m ++ "-" ++ pad 2 d ++ "T"
    ++ pad 2 (r / 3600000) ++ ":" ++ pad 2 (r / 60000 mod 60) ++ ":"
    ++ pad 2 (r / 1000 mod 60) ++ "." ++ pad 3 (r mod 1000) ++ "Z".

(* ===================================================================== *)
(** ** Effects: exceptions, the world, and the monad of awaited calls *)
(* ===================================================================== *)

(** A thrown value: an [Error] object with its message, by constructor. *)
Inductive Exn : Type :=
| Error (msg : string)
| TypeError (msg : string)
| SyntaxError (msg : string)
| ValidationError (msg : string)
| CastError (msg : string)
| MongoError (msg : string).

Definition exn_message (e : Exn) : string :=
  match e with
  | Error m | TypeError m | SyntaxError m | ValidationError m | CastError m
  | MongoError m => m
  end.

(** How a call ends: it returns a value or throws. *)
Inductive Outcome (A : Type) : Type :=
| Returned (a : A)
| Thrown (e : Exn).
Arguments Returned {A} a.
Arguments Thrown {A} e.

(** A stored task document, as [taskSchema] shapes it.  An ObjectId is a
    number here, and a date its time value. *)
Record TaskDoc : Type := mkTaskDoc {
  _id : nat;
  title : string;
  date : Z;
  advice : string;
  notes : string;
  completed : bool;
  createdAt : Z
}.

(** The calls a run makes, in order (a ghost history: the program never
    reads it). *)
Inductive Call : Type :=
| Call_sendMessage (systemPrompt userMessage : string) (jsonMode : bool)
| Call_extractTaskInfo (userMessage : string)
| Call_generateAdvice (taskTitle : JSValue)
| Call_saveTask (taskInfo : JSObject)
| Call_save
| Call_find
| Call_findByIdAndUpdate (taskId : nat)
| Call_findByIdAndDelete (taskId : nat).

(** Everything outside the program that a call reads or changes. *)
Record World : Type := mkWorld {
  db : list TaskDoc;                  (* the tasks collection, oldest first *)
  next_id : nat;                      (* the next ObjectId *)
  connected : bool;                   (* the store answers *)
  clock : Z;                          (* the current instant, in ms *)
  aiClient : bool;                    (* initializeAI() has run *)
  completions : list (Outcome string);(* the service's coming answers *)
  calls : list Call                   (* ghost history, oldest first *)
}.

Definition set_db (l : list TaskDoc) (w : World) : World :=
  mkWorld l (next_id w) (connected w) (clock w) (aiClient w) (completions w)
          (calls w).

Definition set_next_id (n : nat) (w : World) : World :=
  mkWorld (db w) n (connected w) (clock w) (aiClient w) (completions w)
          (calls w).

Definition set_completions (l : list (Outcome string)) (w : World) : World :=
  mkWorld (db w) (next_id w) (connected w) (clock w) (aiClient w) l (calls w).

Definition set_calls (l : list Call) (w : World) : World :=
  mkWorld (db w) (next_id w) (connected w) (clock w) (aiClient w)
          (completions w) l.

Definition M (A : Type) : Type := World -> Outcome A * World.

Definition ret {A : Type} (a : A) : M A := fun w => (Returned a, w).

Definition throw {A : Type} (e : Exn) : M A := fun w => (Thrown e, w).

Definition bind {A B : Type} (c : M A) (k : A -> M B) : M B :=
  fun w =>
    match c w with
    | (Returned a, w') => k a w'
    | (Thrown e, w') => (Thrown e, w')
    end.

(** [try { c } catch (error) { h error }]. *)
Definition try_catch {A : Type} (c : M A) (h : Exn -> M A) : M A :=
  fun w =>
    match c w with
    | (Returned a, w') => (Returned a, w')
    | (Thrown e, w') => h e w'
    end.

Declare Scope js_scope.
Delimit Scope js_scope with js.
Notation "x <- c ;; k" := (bind c (fun x => k))
  (at level 61, c at next level, right associativity) : js_scope.
Notation "c ;; k" := (bind c (fun _ => k))
  (at level 61, right associativity) : js_scope.
Local Open Scope js_scope.

Definition log (c : Call) : M unit :=
  fun w => (Returned tt, set_calls (calls w ++ [c]) w).

(** [new Date().getTime()]. *)
Definition Date_now : M Z := fun w => (Returned (clock w), w).

(* ===================================================================== *)
(** ** config/ai.js: the completion service *)
(* ===================================================================== *)

(** [aiClient.chat.completions.create(params)] followed by
    [response.choices[0].message.content]: the next answer of the service.
    A service with no answer left is a service that fails. *)
Definition completions_create : M string :=
  fun w =>
    match completions w with
    | [] => (Thrown (Error "Connection error."), w)
    | r :: rest => (r, set_completions rest w)
    end.

Definition sendMessage (systemPrompt userMessage : string) (jsonMode : bool)
  : M string :=
  log (Call_sendMessage systemPrompt userMessage jsonMode) ;;
  (fun w =>
     if aiClient w
     then try_catch completions_create
            (fun error =>
               throw (Error ("AI request failed: " ++ exn_message error))) w
     else throw (Error "AI client not initialized. Call initializeAI() first.") w).

(* ===================================================================== *)
(** ** agent/prompts.js *)
(* ===================================================================== *)

Definition quoted (s : string) : string := dq ++ s ++ dq.

Definition unlines (l : list string) : string := join nl l.

Definition getClassificationPrompt : string :=
  unlines
    [ "You are a task classification AI. Analyze the user's message and determine if it contains a task.";
      "";
      "A task is something the user wants to:";
      "- Remember to do";
      "- Be reminded about";
      "- Schedule";
      "- Track";
      "- Complete in the future";
      "";
      "Examples of TASKS:";
      "- " ++ quoted "Remind me to study networking tomorrow";
      "- " ++ quoted "I need to call mom next week";
      "- " ++ quoted "Add buy groceries to my list";
      "- " ++ quoted "Schedule a meeting for Friday";
      "";
      "Examples of NOT TASKS:";
      "- " ++ quoted "What's the weather like?";
      "- " ++ quoted "How are you?";
      "- " ++ quoted "Tell me a joke";
      "- " ++ quoted "What can you do?";
      "";
      "Respond with ONLY a JSON object in this exact format:";
      "{";
      "  " ++ quoted "isTask" ++ ": true or false,";
      "  " ++ quoted "confidence" ++ ": 0.0 to 1.0";
      "}" ].

Definition getExtractionPrompt (currentDate : string) : string :=
  unlines
    [ "Extract task information from the user's message.";
      "";
      "Current date and time: " ++ currentDate;
      "";
      "Respond with ONLY a JSON object in this exact format:";
      "{";
      "  " ++ quoted "title" ++ ": " ++ quoted "brief task description" ++ ",";
      "  " ++ quoted "date" ++ ": " ++ quoted "YYYY-MM-DD format" ++ ",";
      "  " ++ quoted "notes" ++ ": " ++ quoted "any additional context from the message";
      "}";
      "";
      "Rules for date parsing:";
      "- If no date mentioned, use today's date";
      "- " ++ quoted "tomorrow" ++ " = today + 1 day";
      "- " ++ quoted "next week" ++ " = today + 7 days";
      "- " ++ quoted "Monday" ++ ", " ++ quoted "Tuesday" ++ ", etc. = next occurrence of that day";
      "- Specific dates should be converted to YYYY-MM-DD format";
      "";
      "Rules for title:";
      "- Keep it concise (max 50 characters)";
      "- Remove phrases like " ++ quoted "remind me to" ++ ", " ++ quoted "I need to" ++ ", etc.";
      "- Just the core action";
      "";
      "Example:";
      "User: " ++ quoted "Remind me to study networking tomorrow and give me tips";
      "Response: {";
      "  " ++ quoted "title" ++ ": " ++ quoted "Study networking" ++ ",";
      "  " ++ quoted "date" ++ ": " ++ quoted "2026-01-14" ++ ",";
      "  " ++ quoted "notes" ++ ": " ++ quoted "User wants tips for studying networking";
      "}" ].

Definition getAdvicePrompt (taskTitle : string) : string :=
  unlines
    [ "Generate helpful, actionable advice for the following task:";
      "";
      "Task: " ++ quoted taskTitle;
      "";
      "Provide 3-5 specific tips that would help someone accomplish this task effectively.";
      "Be concise, practical, and encouraging.";
      "Format as a numbered list.";
      "";
      "Example format:";
      "1. First tip here";
      "2. Second tip here";
      "3. Third tip here" ].

Definition getConversationalPrompt : string :=
  unlines
    [ "You are a friendly and helpful task assistant AI. ";
      "";
      "Your primary purpose is to help users manage their tasks and reminders.";
      "";
      "The user's message is not a task. Respond naturally and helpfully.";
      "";
      "If appropriate, offer to help them create a task or reminder.";
      "";
      "Keep your response concise, friendly, and helpful." ].

(* ===================================================================== *)
(** ** config/ai.js: the client and its provider *)
(* ===================================================================== *)

Module AIConfig.

(** [new OpenAI({apiKey, baseURL})]. *)
Record Client : Type := mkClient {
  apiKey : string;
  baseURL : option string
}.

(** The two variables of the module; both start as [null]. *)
Record State : Type := mkState {
  aiClient : option Client;
  currentProvider : option string
}.

Definition initial : State := mkState None None.

(** [process.env]: a variable is absent or a text. *)
Definition Env : Type := string -> option string.

(** [value || fallback] on a variable of the environment: the empty text
    is falsy. *)
Definition or_default (value : option string) (fallback : string) : string :=
  match value with
  | Some s => if String.eqb s "" then fallback else s
  | None => fallback
  end.

(** [!value] is false. *)
Definition is_set (value : option string) : bool :=
  match value with
  | Some s => negb (String.eqb s "")
  | None => false
  end.

(** Initialize the client from the environment. *)
Definition initializeAI (env : Env) (st : State) : Outcome unit * State :=
  let provider := or_default (env "AI_PROVIDER") "openai" in
  let st := mkState (aiClient st) (Some provider) in
  if String.eqb provider "openai" then
    if negb (is_set (env "OPENAI_API_KEY"))
    then (Thrown (Error "OPENAI_API_KEY is required when using OpenAI provider"),
          st)
    else (Returned tt,
          mkState (Some (mkClient (or_default (env "OPENAI_API_KEY") "") None))
                  (currentProvider st))
  else if String.eqb provider "groq" then
    if negb (is_set (env "GROQ_API_KEY"))
    then (Thrown (Error "GROQ_API_KEY is required when using Groq provider"), st)
    else (Returned tt,
          mkState (Some (mkClient (or_default (env "GROQ_API_KEY") "")
                                  (Some "https://api.groq.com/openai/v1")))
                  (currentProvider st))
  else (Thrown (Error ("Unsupported AI provider: " ++ provider)), st).

(** The model [sendMessage] asks for. *)
Definition model (env : Env) (st : State) : string :=
  match currentProvider st with
  | Some "groq" => or_default (env "GROQ_MODEL") "llama-3.3-70b-versatile"
  | _ => or_default (env "OPENAI_MODEL") "gpt-3.5-turbo"
  end.

(** The name of the current provider. *)
Definition getProvider (env : Env) (st : State) : string :=
  or_default (currentProvider st) (or_default (env "AI_PROVIDER") "openai").

End AIConfig.

(* ===================================================================== *)
(** ** What the platform supplies *)
(* ===================================================================== *)

Class Platform : Type := {
  (** [JSON.parse]: the parsed value, or [None] where it throws a
      SyntaxError. *)
  JSON_parse : string -> option JSON;
  (** [Date.parse]: the time value, or [None] for NaN.  Outside the ISO
      formats the result is left to the implementation. *)
  Date_parse : string -> option Z;
  (** [Date.prototype.toString]. *)
  Date_toString : JSDate -> string;
  (** [Number.prototype.toString]. *)
  Number_toString : Q -> string;
  (** [Number(text)]. *)
  String_toNumber : string -> JSNumber;
  (** LocalTZA(t, isUTC): the offset of local time from UTC, in
      milliseconds, at the instant [t] when [isUTC] is true, at the local
      time [t] when it is false; a local time that a change of the clocks
      skips or repeats is read with the offset before the change. *)
  LocalTZA : Z -> bool -> Z
}.

(** The result of casting a value to the type of a path: a value, [null]
    or nothing ([None]), or a failure (a CastError of the library). *)
Inductive Cast (A : Type) : Type :=
| CastTo (v : option A)
| CastFails.
Arguments CastTo {A} v.
Arguments CastFails {A}.

Section Program.

Context {P : Platform}.

(** ToString on parsed values, where it returns: [Array.prototype.join]
    skips [null]. *)
Fixpoint JSON_toString (j : JSON) : string :=
  match j with
  | JNull => "null"
  | JBool true => "true"
  | JBool false => "false"
  | JNum n => Number_toString n
  | JStr s => s
  | JArr items =>
      join "," (map (fun x => match x with
                              | JNull => ""
                              | _ => JSON_toString x
                              end) items)
  | JObj _ => "[object Object]"
  end.

(** The conversion of a parsed value to a primitive throws a TypeError.
    An object with a member named toString has no [toString] to call (a
    member is never a function), and its [valueOf], its own or the one it
    inherits, gives no primitive; an array is joined, which converts each
    of its elements but [null]. *)
Fixpoint ToPrimitive_throws (j : JSON) : bool :=
  match j with
  | JObj members =>
      match assoc "toString" members with
      | Some _ => true
      | None => false
      end
  | JArr items => existsb ToPrimitive_throws items
  | _ => false
  end.

Definition ToString_throws (v : JSValue) : bool :=
  match v with
  | VJson j => ToPrimitive_throws j
  | _ => false
  end.

(** ToString, where it returns. *)
Definition JS_toString (v : JSValue) : string :=
  match v with
  | VUndefined => "undefined"
  | VJson j => JSON_toString j
  | VDate d => Date_toString d
  end.

(** ToString, as in a template literal. *)
Definition ToString (v : JSValue) : M string :=
  if ToString_throws v
  then throw (TypeError "Cannot convert object to primitive value")
  else ret (JS_toString v).

Definition Date_of_string (s : string) : JSDate :=
  match Date_parse s with
  | Some t => TimeClip t
  | None => InvalidDate
  end.

(** The [Date] that [new Date(value)] makes; its time value is always
    within [maxTime].  Where the conversion of the value throws, no [Date]
    is made, and the Invalid Date stands for none. *)
Definition Date_new (v : JSValue) : JSDate :=
  match v with
  | VUndefined => InvalidDate
  | VJson JNull => ValidDate 0
  | VJson (JBool b) => ValidDate (if b then 1 else 0)
  | VJson (JNum n) => TimeClip_number n
  | VJson (JStr s) => Date_of_string s
  | VJson j => if ToPrimitive_throws j then InvalidDate
               else Date_of_string (JSON_toString j)
  | VDate (ValidDate t) => TimeClip t
  | VDate InvalidDate => InvalidDate
  end.

(** [new Date(value)], as a call: it throws where the conversion of the
    value does. *)
Definition new_Date (v : JSValue) : M JSDate :=
  if ToString_throws v
  then throw (TypeError "Cannot convert object to primitive value")
  else ret (Date_new v).

(** LocalTime and UTC. *)
Definition LocalTime (t : Z) : Z := t + LocalTZA t true.

Definition UTC (t : Z) : Z := t - LocalTZA t false.

(** [JSON.parse(text)] as a call. *)
Definition JSON_parse_call (text : string) : M JSON :=
  match JSON_parse text with
  | Some j => ret j
  | None => throw (SyntaxError "Unexpected token in JSON")
  end.

(** The property [k] of a parsed value other than [null]: a primitive has
    none of the properties this program reads. *)
Definition member (k : string) (j : JSON) : JSValue :=
  match as_object j with
  | Some o => get_prop k o
  | None => VUndefined
  end.

(** [value.k]: reading a property of [null] throws. *)
Definition read_prop (k : string) (j : JSON) : M JSValue :=
  match j with
  | JNull => throw (TypeError "Cannot read properties of null")
  | _ => ret (member k j)
  end.

(** [value.k = v] in strict mode (modules are strict): assigning to a
    property of [null] or of a primitive throws. *)
Definition assign_prop (k : string) (v : JSValue) (j : JSON) : M JSObject :=
  match as_object j with
  | Some o => ret (set_prop k v o)
  | None => throw (TypeError "Cannot create property")
  end.

(* ===================================================================== *)
(** ** models/Task.js: the schema, and the model operations the tools call *)
(* ===================================================================== *)

(** Casting to [String]: [null] and [undefined] stay; an object with a
    non-empty text as [_id] is cast to it; a value whose [toString] is not
    the one of plain objects, arrays apart, is cast by it. *)
Definition castString (v : JSValue) : Cast string :=
  match v with
  | VUndefined => CastTo None
  | VJson JNull => CastTo None
  | VJson (JArr _) => CastFails
  | VJson (JObj members) =>
      match assoc "_id" members with
      | Some (JStr s) => if String.eqb s "" then CastFails else CastTo (Some s)
      | _ => CastFails
      end
  | _ => CastTo (Some (JS_toString v))
  end.

(** Casting to [Date]: [null], [undefined] and the empty text give [null];
    a boolean fails; a text that [Number] reads as a number too large for
    a year is the time value of this number; anything else goes through
    [new Date], and fails on the Invalid Date or when [new Date] throws. *)
Definition castDate (v : JSValue) : Cast Z :=
  let of_date := fun d => match d with
                          | ValidDate t => CastTo (Some t)
                          | InvalidDate => CastFails
                          end in
  match v with
  | VUndefined => CastTo None
  | VJson JNull => CastTo None
  | VJson (JBool _) => CastFails
  | VJson (JStr s) =>
      if String.eqb s "" then CastTo None
      else match String_toNumber s with
           | Finite n =>
               if (Qle_bool (inject_Z 275761) n
                   || negb (Qle_bool (inject_Z (-271820)) n))%bool
               then of_date (TimeClip_number n)
               else of_date (Date_of_string s)
           | PosInfinity | NegInfinity => CastFails
           | NaN => of_date (Date_of_string s)
           end
  | _ => of_date (Date_new v)
  end.

(** Casting to [Boolean]. *)
Definition castBoolean (v : JSValue) : Cast bool :=
  match v with
  | VUndefined => CastTo None
  | VJson JNull => CastTo None
  | VJson (JBool b) => CastTo (Some b)
  | VJson (JNum n) =>
      if Qeq_bool n 1 then CastTo (Some true)
      else if Qeq_bool n 0 then CastTo (Some false)
      else CastFails
  | VJson (JStr s) =>
      if (String.eqb s "true" || String.eqb s "1" || String.eqb s "yes")%bool
      then CastTo (Some true)
      else if (String.eqb s "false" || String.eqb s "0" || String.eqb s "no")%bool
      then CastTo (Some false)
      else CastFails
  | _ => CastFails
  end.

(** [title: {type: String, required: true, trim: true, maxLength: 200}]:
    the setter trims, then the text must not be empty and must have at
    most 200 code units. *)
Definition valid_title (v : JSValue) : option string :=
  match castString v with
  | CastTo (Some s) =>
      let s := trim s in
      if String.eqb s "" then None
      else if (Nat.leb (js_length s) 200) then Some s
      else None
  | _ => None
  end.

(** [date: {type: Date, required: true}]. *)
Definition valid_date (v : JSValue) : option Z :=
  match castDate v with
  | CastTo (Some t) => Some t
  | _ => None
  end.

(** [advice] and [notes]: [{type: String, default: ''}]. *)
Definition valid_text (v : JSValue) : option string :=
  match castString v with
  | CastTo (Some s) => Some s
  | CastTo None => Some ""
  | CastFails => None
  end.

(** The argument of [new Task({title, date, notes, advice})]. *)
Record TaskInput : Type := mkTaskInput {
  in_title : JSValue;
  in_date : JSValue;
  in_notes : JSValue;
  in_advice : JSValue
}.

(** [new Task(input).save()]: validation first, then the insertion.
    [completed] and [createdAt] take their defaults. *)
Definition Task_save (input : TaskInput) : M TaskDoc :=
  log Call_save ;;
  match valid_title (in_title input), valid_date (in_date input),
        valid_text (in_advice input), valid_text (in_notes input) with
  | Some t, Some d, Some a, Some n =>
      fun w =>
        if connected w
        then let doc := mkTaskDoc (next_id w) t d a n false (clock w) in
             (Returned doc, set_next_id (S (next_id w)) (set_db (db w ++ [doc]) w))
        else (Thrown (MongoError "Operation buffering timed out"), w)
  | _, _, _, _ => throw (ValidationError "Task validation failed")
  end.

(** The conditions of a [find]. *)
Record Query : Type := mkQuery {
  q_completed : JSValue;              (* [VUndefined]: no condition *)
  q_date_gte : option JSDate;
  q_date_lte : option JSDate
}.

(** The conditions once cast. *)
Record Conditions : Type := mkConditions {
  c_completed : option (option bool); (* [Some None]: [completed: null] *)
  c_gte : option Z;
  c_lte : option Z
}.

Definition cast_bound (b : option JSDate) : option (option Z) :=
  match b with
  | None => Some None
  | Some (ValidDate t) => Some (Some t)
  | Some InvalidDate => None
  end.

Definition cast_query (q : Query) : option Conditions :=
  match (match q_completed q with
         | VUndefined => Some None
         | v => match castBoolean v with
                | CastTo b => Some (Some b)
                | CastFails => None
                end
         end),
        cast_bound (q_date_gte q), cast_bound (q_date_lte q) with
  | Some c, Some lo, Some hi => Some (mkConditions c lo hi)
  | _, _, _ => None
  end.

Definition matches (c : Conditions) (t : TaskDoc) : bool :=
  (match c_completed c with
   | None => true
   | Some (Some b) => Bool.eqb (completed t) b
   | Some None => false
   end
   && match c_gte c with Some lo => lo <=? date t | None => true end
   && match c_lte c with Some hi => date t <=? hi | None => true end)%bool.

(** The order of [{date: 1, createdAt: -1}]. *)
Definition sort_leb (a b : TaskDoc) : bool :=
  ((date a <? date b)
   || ((date a =? date b) && (createdAt b <=? createdAt a)))%bool.

Fixpoint insert_sorted (t : TaskDoc) (l : list TaskDoc) : list TaskDoc :=
  match l with
  | [] => [t]
  | x :: rest => if sort_leb t x then t :: l else x :: insert_sorted t rest
  end.

Fixpoint sort_tasks (l : list TaskDoc) : list TaskDoc :=
  match l with
  | [] => []
  | x :: rest => insert_sorted x (sort_tasks rest)
  end.

(** [Task.find(query).sort({date: 1, createdAt: -1}).lean()]. *)
Definition Task_find_sort (q : Query) : M (list TaskDoc) :=
  log Call_find ;;
  match cast_query q with
  | None => throw (CastError "Cast failed for the query")
  | Some c =>
      fun w =>
        if connected w
        then (Returned (sort_tasks (filter (matches c) (db w))), w)
        else (Thrown (MongoError "Operation buffering timed out"), w)
  end.

(** The fields an update may set: a subset of completed, title, date and
    notes, each of the type of its path in the schema (a boolean, and
    three texts).  An update that gives one of them a value of another
    type ([null], a number, an object) is outside this model. *)
Record Updates : Type := mkUpdates {
  set_completed : option bool;
  set_title : option string;
  set_date : option string;
  set_notes : option string
}.

(** The update once its paths are cast, their setters applied and their
    validators run ([runValidators: true]); [None] where one fails. *)
Definition cast_updates (u : Updates)
  : option (option bool * option string * option Z * option string) :=
  match (match set_title u with
         | None => Some None
         | Some s => option_map Some (valid_title (VJson (JStr s)))
         end),
        (match set_date u with
         | None => Some None
         | Some s => option_map Some (valid_date (VJson (JStr s)))
         end) with
  | Some t, Some d => Some (set_completed u, t, d, set_notes u)
  | _, _ => None
  end.

Definition or_else {A : Type} (o : option A) (a : A) : A :=
  match o with
  | Some x => x
  | None => a
  end.

Definition apply_updates
  (u : option bool * option string * option Z * option string) (t : TaskDoc)
  : TaskDoc :=
  let '(c, ti, d, n) := u in
  mkTaskDoc (_id t) (or_else ti (title t)) (or_else d (date t)) (advice t)
            (or_else n (notes t)) (or_else c (completed t)) (createdAt t).

Definition findById (taskId : nat) (l : list TaskDoc) : option TaskDoc :=
  find (fun t => Nat.eqb (_id t) taskId) l.

(** The collection with the first document of the id of [t'] replaced by
    [t']. *)
Fixpoint replace_doc (t' : TaskDoc) (l : list TaskDoc) : list TaskDoc :=
  match l with
  | [] => []
  | t :: rest =>
      if Nat.eqb (_id t) (_id t') then t' :: rest else t :: replace_doc t' rest
  end.

(** The collection without the first document of id [taskId]. *)
Fixpoint remove_doc (taskId : nat) (l : list TaskDoc) : list TaskDoc :=
  match l with
  | [] => []
  | t :: rest =>
      if Nat.eqb (_id t) taskId then rest else t :: remove_doc taskId rest
  end.

(** [Task.findByIdAndUpdate(taskId, updates, {new: true, runValidators:
    true})]: the updated document, or [null] ([None]) when no document has
    this id. *)
Definition Task_findByIdAndUpdate (taskId : nat) (u : Updates)
  : M (option TaskDoc) :=
  log (Call_findByIdAndUpdate taskId) ;;
  match cast_updates u with
  | None => throw (ValidationError "Validation failed")
  | Some cu =>
      fun w =>
        if connected w
        then match findById taskId (db w) with
             | None => (Returned None, w)
             | Some t =>
                 let t' := apply_updates cu t in
                 (Returned (Some t'), set_db (replace_doc t' (db w)) w)
             end
        else (Thrown (MongoError "Operation buffering timed out"), w)
  end.

(** [Task.findByIdAndDelete(taskId)]: the deleted document, or [null]. *)
Definition Task_findByIdAndDelete (taskId : nat) : M (option TaskDoc) :=
  log (Call_findByIdAndDelete taskId) ;;
  fun w =>
    if connected w
    then match findById taskId (db w) with
         | None => (Returned None, w)
         | Some t =>
             (Returned (Some t), set_db (remove_doc taskId (db w)) w)
         end
    else (Thrown (MongoError "Operation buffering timed out"), w).

(* ===================================================================== *)
(** ** agent/tools.js *)
(* ===================================================================== *)

(** Tool 1: extract task information. *)
Definition extractTaskInfo (userMessage : string) : M JSObject :=
  log (Call_extractTaskInfo userMessage) ;;
  try_catch
    (now <- Date_now ;;
     let currentDate := toISOString now in
     let prompt := getExtractionPrompt currentDate in
     response <- sendMessage prompt userMessage true ;;
     taskInfo <- JSON_parse_call response ;;
     d <- read_prop "date" taskInfo ;;
     date <- new_Date d ;;
     assign_prop "date" (VDate date) taskInfo)
    (fun error => throw (Error "Failed to extract task information")).

(** Tool 2: save a task to the database. *)
Definition saveTask (taskInfo : JSObject) : M TaskDoc :=
  log (Call_saveTask taskInfo) ;;
  try_catch
    (Task_save
       (mkTaskInput (get_prop "title" taskInfo)
                    (get_prop "date" taskInfo)
                    (js_or (get_prop "notes" taskInfo) (VJson (JStr "")))
                    (js_or (get_prop "advice" taskInfo) (VJson (JStr "")))))
    (fun error => throw (Error "Failed to save task to database")).

(** Tool 3: get all tasks. *)
Definition getTasks (filters : JSObject) : M (list TaskDoc) :=
  try_catch
    (let dateFrom := get_prop "dateFrom" filters in
     let dateTo := get_prop "dateTo" filters in
     let query := mkQuery VUndefined None None in
     let query :=
       match get_prop "completed" filters with
       | VUndefined => query
       | v => mkQuery v (q_date_gte query) (q_date_lte query)
       end in
     query <-
       (if (truthy dateFrom || truthy dateTo)%bool
        then
          query <-
            (if truthy dateFrom
             then gte <- new_Date dateFrom ;;
                  ret (mkQuery (q_completed query) (Some gte) (q_date_lte query))
             else ret query) ;;
          if truthy dateTo
          then lte <- new_Date dateTo ;;
               ret (mkQuery (q_completed query) (q_date_gte query) (Some lte))
          else ret query
        else ret query) ;;
     Task_find_sort query)
    (fun error => throw (Error "Failed to retrieve tasks from database")).

(** Tool 4: generate advice. *)
Definition generateAdvice (taskTitle : JSValue) : M string :=
  log (Call_generateAdvice taskTitle) ;;
  try_catch
    (title <- ToString taskTitle ;;
     let prompt := getAdvicePrompt title in
     advice <- sendMessage prompt "" false ;;
     ret (trim advice))
    (fun error =>
       ret "Good luck with your task! Break it down into smaller steps and tackle them one at a time.").

(** Tool 5: update a task. *)
Definition updateTask (taskId : nat) (updates : Updates) : M TaskDoc :=
  try_catch
    (task <- Task_findByIdAndUpdate taskId updates ;;
     match task with
     | None => throw (Error "Task not found")
     | Some t => ret t
     end)
    (fun error => throw (Error "Failed to update task")).

(** Tool 6: delete a task. *)
Definition deleteTask (taskId : nat) : M bool :=
  try_catch
    (result <- Task_findByIdAndDelete taskId ;;
     match result with
     | None => throw (Error "Task not found")
     | Some _ => ret true
     end)
    (fun error => throw (Error "Failed to delete task")).

(* ===================================================================== *)
(** ** agent/Agent.js *)
(* ===================================================================== *)

(** The [task] member of a response. *)
Record TaskView : Type := mkTaskView {
  task_id : nat;
  task_title : string;
  task_date : Z;
  task_notes : string;
  task_advice : string
}.

(** What [process] returns: [{message, task, isTask: true}],
    [{message, isTask: false}] or [{message, error: true}]. *)
Record AgentResponse : Type := mkResponse {
  message : string;
  task : option TaskView;
  isTask : option bool;
  error : option bool
}.

(** [date.setHours(0, 0, 0, 0)]: the instant of the time 0 of the local
    day of the date, when it is a time value. *)
Definition setHours0 (d : JSDate) : JSDate :=
  match d with
  | ValidDate t =>
      let t := LocalTime t in
      TimeClip (UTC (MakeDate (Day t) 0))
  | InvalidDate => InvalidDate
  end.

(** [date.getDate()]: NaN ([None]) on the Invalid Date. *)
Definition getDate (d : JSDate) : option Z :=
  match d with
  | ValidDate t => Some (DateFromTime (LocalTime t))
  | InvalidDate => None
  end.

(** [date.setDate(dt)]: the same local time on the day [dt] of the local
    month of the date. *)
Definition setDate (d : JSDate) (dt : option Z) : JSDate :=
  match d, dt with
  | ValidDate t, Some dt =>
      let t := LocalTime t in
      let newDate :=
        MakeDate (MakeDay (YearFromTime t) (MonthFromTime t) dt)
                 (TimeWithinDay t) in
      TimeClip (UTC newDate)
  | _, _ => InvalidDate
  end.

(** [a.getTime() === b.getTime()]: NaN equals nothing. *)
Definition same_time (a b : JSDate) : bool :=
  match a, b with
  | ValidDate x, ValidDate y => x =? y
  | _, _ => false
  end.

Definition toLocaleDateString_long (d : JSDate) : string :=
  match d with
  | ValidDate t => longDate (Day (LocalTime t))
  | InvalidDate => "Invalid Date"
  end.

(** Helper: format a date for display. *)
Definition formatDate (date : JSDate) : M string :=
  now <- Date_now ;;
  let today := setHours0 (ValidDate now) in
  let tomorrow := setDate today (option_map (Z.add 1) (getDate today)) in
  let taskDate := setHours0 (Date_new (VDate date)) in
  if same_time taskDate today then ret "today"
  else if same_time taskDate tomorrow then ret "tomorrow"
  else ret (toLocaleDateString_long taskDate).

(** STEP 1 and 2: classify the user message. *)
Definition classify (userMessage : string) : M JSON :=
  try_catch
    (let prompt := getClassificationPrompt in
     response <- sendMessage prompt userMessage true ;;
     JSON_parse_call response)
    (fun error => ret (JObj [("isTask", JBool false); ("confidence", JNum 0)])).

(** STEP 3 and 4: handle a task message. *)
Definition handleTask (userMessage : string) : M AgentResponse :=
  try_catch
    (taskInfo <- extractTaskInfo userMessage ;;
     advice' <- generateAdvice (get_prop "title" taskInfo) ;;
     let taskInfo := set_prop "advice" (VJson (JStr advice')) taskInfo in
     savedTask <- saveTask taskInfo ;;
     formattedDate <- formatDate (ValidDate (date savedTask)) ;;
     ret (mkResponse
            ("✓ I've added " ++ quoted (title savedTask)
               ++ " to your tasks for " ++ formattedDate ++ "." ++ nl ++ nl
               ++ advice')
            (Some (mkTaskView (_id savedTask) (title savedTask)
                              (date savedTask) (notes savedTask)
                              (advice savedTask)))
            (Some true) None))
    (fun error => throw error).

(** STEP 3 and 4: handle a conversational message. *)
Definition handleConversation (userMessage : string) : M AgentResponse :=
  try_catch
    (let prompt := getConversationalPrompt in
     response <- sendMessage prompt userMessage false ;;
     ret (mkResponse response None (Some false) None))
    (fun error =>
       ret (mkResponse
              "Hello! I'm your task assistant. I can help you remember things and manage your tasks. Try saying something like 'Remind me to study tomorrow'!"
              None (Some false) None)).

(** The main processing method of the agent. *)
Definition process (userMessage : string) : M AgentResponse :=
  try_catch
    (classification <- classify userMessage ;;
     isTask <- read_prop "isTask" classification ;;
     if truthy isTask
     then handleTask userMessage
     else handleConversation userMessage)
    (fun error =>
       ret (mkResponse
              "I apologize, but I encountered an error processing your request. Please try again."
              None None (Some true))).

(* ===================================================================== *)
(** ** routes/agent.js *)
(* ===================================================================== *)

(** The body of a response, by its shape. *)
Inductive ResBody : Type :=
| Body_error (error : string) (message : option string)
| Body_invalid_updates (error : string) (allowedFields : list string)
| Body_agent (response : AgentResponse)
| Body_tasks (tasks : list TaskDoc) (count : nat)
| Body_updated (message : string) (task : TaskDoc)
| Body_message (message : string).

(** What a handler sends: [res.status(code).json(body)]; [res.json(body)]
    sends with the code 200. *)
Record HttpResponse : Type := mkHttp {
  status : nat;
  body : ResBody
}.

Definition is_string (v : JSValue) : bool :=
  match v with
  | VJson (JStr _) => true
  | _ => false
  end.

Definition text_of (v : JSValue) : string :=
  match v with
  | VJson (JStr s) => s
  | _ => ""
  end.

(** POST /api/agent/chat.  [req_body] is [req.body]: an object, or
    [undefined] ([None]) when no body was parsed. *)
Definition chat_route (req_body : option JSObject) : M HttpResponse :=
  try_catch
    (match req_body with
     | None => throw (TypeError "Cannot destructure property 'message'")
     | Some fields =>
         let message := get_prop "message" fields in
         if (negb (truthy message) || negb (is_string message)
             || Nat.eqb (js_length (trim (text_of message))) 0)%bool
         then ret (mkHttp 400
                     (Body_error
                        "Message is required and must be a non-empty string"
                        None))
         else
           response <- process (trim (text_of message)) ;;
           ret (mkHttp 200 (Body_agent response))
     end)
    (fun error =>
       ret (mkHttp 500
              (Body_error "Internal server error"
                          (Some "Failed to process your message. Please try again.")))).

(** GET /api/agent/tasks.  [query] is [req.query]. *)
Definition tasks_route (query : JSObject) : M HttpResponse :=
  try_catch
    (let completed := get_prop "completed" query in
     let dateFrom := get_prop "dateFrom" query in
     let dateTo := get_prop "dateTo" query in
     let filters : JSObject := [] in
     let filters :=
       match completed with
       | VUndefined => filters
       | _ => set_prop "completed"
                (VJson (JBool (is_string completed
                               && String.eqb (text_of completed) "true")))
                filters
       end in
     let filters :=
       if truthy dateFrom then set_prop "dateFrom" dateFrom filters
       else filters in
     let filters :=
       if truthy dateTo then set_prop "dateTo" dateTo filters else filters in
     tasks <- getTasks filters ;;
     ret (mkHttp 200 (Body_tasks tasks (List.length tasks))))
    (fun error => ret (mkHttp 500 (Body_error "Failed to retrieve tasks" None))).

(** The body of a PATCH request: the fields an update may set, typed as
    [Updates] types them, and the names of the other keys of the body. *)
Record PatchBody : Type := mkPatchBody {
  patch_fields : Updates;
  patch_others : list string
}.

(** [Object.keys(req.body)]. *)
Definition Object_keys (b : PatchBody) : list string :=
  ((match set_completed (patch_fields b) with Some _ => ["completed"] | None => [] end)
   ++ (match set_title (patch_fields b) with Some _ => ["title"] | None => [] end)
   ++ (match set_date (patch_fields b) with Some _ => ["date"] | None => [] end)
   ++ (match set_notes (patch_fields b) with Some _ => ["notes"] | None => [] end)
   ++ patch_others b)%list.

Definition allowedUpdates : list string := ["completed"; "title"; "date"; "notes"].

(** [list.includes(x)] on texts. *)
Definition includes (l : list string) (x : string) : bool :=
  existsb (String.eqb x) l.

(** PATCH /api/agent/tasks/:id.  [req_body] is [req.body]: an object, or
    [undefined] ([None]) when no body was parsed, on which [Object.keys]
    throws. *)
Definition patch_route (id : nat) (req_body : option PatchBody) : M HttpResponse :=
  try_catch
    (match req_body with
     | None => throw (TypeError "Cannot convert undefined or null to object")
     | Some updates =>
         let requestedUpdates := Object_keys updates in
         let isValidOperation :=
           forallb (fun update => includes allowedUpdates update)
                   requestedUpdates in
         if negb isValidOperation
         then ret (mkHttp 400
                     (Body_invalid_updates "Invalid updates" allowedUpdates))
         else
           task <- updateTask id (patch_fields updates) ;;
           ret (mkHttp 200 (Body_updated "Task updated successfully" task))
     end)
    (fun error => ret (mkHttp 500 (Body_error "Failed to update task" None))).

(** DELETE /api/agent/tasks/:id. *)
Definition delete_route (id : nat) : M HttpResponse :=
  try_catch
    (deleteTask id ;;
     ret (mkHttp 200 (Body_message "Task deleted successfully")))
    (fun error => ret (mkHttp 500 (Body_error "Failed to delete task" None))).

(* ===================================================================== *)
(** ** The vocabulary of the properties *)
(* ===================================================================== *)

(** The world once a call of [sendMessage] is on the record. *)
Definition sent (p u : string) (j : bool) (w : World) : World :=
  set_calls (calls w ++ [Call_sendMessage p u j]) w.

(** The next call of the completion service fails. *)
Definition completion_fails (w : World) : bool :=
  (negb (aiClient w)
   || match completions w with
      | Returned _ :: _ => false
      | _ => true
      end)%bool.

(** The error of [extractTaskInfo]. *)
Definition extraction_failure : Exn :=
  Error "Failed to extract task information".

(** The advice [generateAdvice] falls back on. *)
Definition fallback_advice : string :=
  "Good luck with your task! Break it down into smaller steps and tackle them one at a time.".

(** The response [process] falls back on. *)
Definition apology : AgentResponse :=
  mkResponse
    "I apologize, but I encountered an error processing your request. Please try again."
    None None (Some true).

(** The input [saveTask] hands to the model. *)
Definition input_of (taskInfo : JSObject) : TaskInput :=
  mkTaskInput (get_prop "title" taskInfo) (get_prop "date" taskInfo)
              (js_or (get_prop "notes" taskInfo) (VJson (JStr "")))
              (js_or (get_prop "advice" taskInfo) (VJson (JStr ""))).

(** The error of [saveTask]. *)
Definition save_failure : Exn := Error "Failed to save task to database".

(** The confirmation of a saved task. *)
Definition confirmation (savedTask : TaskDoc) (formattedDate advice' : string)
  : AgentResponse :=
  mkResponse
    ("✓ I've added " ++ quoted (title savedTask) ++ " to your tasks for "
       ++ formattedDate ++ "." ++ nl ++ nl ++ advice')
    (Some (mkTaskView (_id savedTask) (title savedTask) (date savedTask)
                      (notes savedTask) (advice savedTask)))
    (Some true) None.

(** The local day number of an instant. *)
Definition localDay (t : Z) : Z := Day (LocalTime t).

(** The instant at which the local day [d] starts: the time 0 of the day
    on the local clock, as the zone reads it. *)
Definition midnight_of (d : Z) : Z := UTC (d * msPerDay).

(** The time 0 of the local day [d] exists on the local clock (no change
    of the clocks skips it), and its instant is a time value. *)
Definition midnight_ok (d : Z) : Prop :=
  LocalTime (midnight_of d) = d * msPerDay
  /\ Z.abs (midnight_of d) <= maxTime.

(** The calendar as the specification has it: leap years, the lengths of
    the months, and the date of a day number. *)
Definition is_leap (y : Z) : bool :=
  (((y mod 4 =? 0) && negb (y mod 100 =? 0)) || (y mod 400 =? 0))%bool.

Definition month_length (y m : Z) : Z :=
  match m with
  | 2 => if is_leap y then 29 else 28
  | 4 | 6 | 9 | 11 => 30
  | _ => 31
  end.

(** [day] is the day number of the day [d] of the month [m] of the year
    [y]. *)
Definition civil (day y m d : Z) : Prop :=
  1 <= m <= 12 /\ 1 <= d <= month_length y m /\ days_from_civil y m d = day.




(** The order of the listing: by date, the earlier first; for one date, the
    later created first. *)
Definition sort_le (a b : TaskDoc) : Prop :=
  date a < date b \/ (date a = date b /\ createdAt b <= createdAt a).

(** A filter as the specification types it: each condition supplied or
    not. *)
Definition satisfies (c : option bool) (lo hi : option Z) (t : TaskDoc) : bool :=
  (match c with Some b => Bool.eqb (completed t) b | None => true end
   && match lo with Some d => d <=? date t | None => true end
   && match hi with Some d => date t <=? d | None => true end)%bool.

(** The property [v] of the filter object supplies the bound [o]: absent
    for no bound, and for a bound a date, or the text of a date, that
    [new Date] turns into a valid date. *)
Definition supplies (v : JSValue) (o : option Z) : Prop :=
  match o with
  | None => v = VUndefined
  | Some d => truthy v = true /\ Date_new v = ValidDate d
  end.

(** A stored task is well formed: its title is not empty and its date is
    the time value of a valid [Date]. *)
Definition task_ok (t : TaskDoc) : Prop :=
  title t <> "" /\ Z.abs (date t) <= maxTime.

(** The operations that reach the store. *)
Inductive Op : Type :=
| Op_saveTask (taskInfo : JSObject)
| Op_getTasks (filters : JSObject)
| Op_updateTask (taskId : nat) (updates : Updates)
| Op_deleteTask (taskId : nat)
| Op_process (userMessage : string).

Definition run_op (o : Op) (w : World) : World :=
  match o with
  | Op_saveTask taskInfo => snd (saveTask taskInfo w)
  | Op_getTasks filters => snd (getTasks filters w)
  | Op_updateTask taskId updates => snd (updateTask taskId updates w)
  | Op_deleteTask taskId => snd (deleteTask taskId w)
  | Op_process userMessage => snd (process userMessage w)
  end.

(** The worlds a deployment goes through: it starts on an empty
    collection; between two operations anything but the collection may
    change (time passes, the store goes away and comes back, the service
    prepares other answers). *)
Inductive reachable : World -> Prop :=
| reach_start w : db w = [] -> reachable w
| reach_op w o : reachable w -> reachable (run_op o w)
| reach_env w w' : reachable w -> db w' = db w -> reachable w'.

(** The errors of [updateTask] and of [deleteTask]. *)
Definition update_failure : Exn := Error "Failed to update task".

Definition delete_failure : Exn := Error "Failed to delete task".

(** No two records share an id, and every id is below the next one the
    store will give. *)
Definition ids_fresh (w : World) : Prop :=
  NoDup (map _id (db w))
  /\ Forall (fun t => (_id t < next_id w)%nat) (db w).

(** What a date parameter of the query gives as a bound: none when it is
    falsy (absent, or the empty text), the date [new Date] makes of it
    otherwise. *)
Definition query_bound (v : JSValue) (o : option Z) : Prop :=
  match o with
  | None => truthy v = false
  | Some d => truthy v = true /\ Date_new v = ValidDate d
  end.

(** What the [completed] parameter of the query gives as a condition: none
    when it is absent, true when it is the text true, false otherwise. *)
Definition query_completed (v : JSValue) : option bool :=
  match v with
  | VUndefined => None
  | _ => Some (is_string v && String.eqb (text_of v) "true")%bool
  end.

End Program.

(* ===================================================================== *)
(** ** A sample platform, to run the program on *)
(* ===================================================================== *)

(** [Date.parse] on the date-only ISO form [YYYY-MM-DD] of a date of the
    calendar (UTC midnight); NaN on everything else. *)
Definition sample_Date_parse (s : string) : option Z :=
  if (Nat.eqb (String.length s) 10
      && String.eqb (substring 4 1 s) "-" && String.eqb (substring 7 1 s) "-")%bool
  then
    match number 0 (substring 0 4 s), number 0 (substring 5 2 s),
          number 0 (substring 8 2 s) with
    | Some y, Some m, Some d =>
        let day := days_from_civil y m d in
        let '(y', m', d') := civil_from_days day in
        if ((y' =? y) && (m' =? m) && (d' =? d))%bool
        then Some (day * msPerDay) else None
    | _, _, _ => None
    end
  else None.

(** The texts of the service used in the examples. *)
Definition says_task : string :=
  "{" ++ quoted "isTask" ++ ":true," ++ quoted "confidence" ++ ":0.9}".

Definition says_no_task : string :=
  "{" ++ quoted "isTask" ++ ":false," ++ quoted "confidence" ++ ":0.8}".

Definition study_json : string :=
  "{" ++ quoted "title" ++ ":" ++ quoted "Study networking"
      ++ "," ++ quoted "date" ++ ":" ++ quoted "2026-02-01"
      ++ "," ++ quoted "notes" ++ ":" ++ quoted "wants tips" ++ "}".

Definition study_json_extra : string :=
  "{" ++ quoted "title" ++ ":" ++ quoted "Study networking"
      ++ "," ++ quoted "date" ++ ":" ++ quoted "2026-02-01"
      ++ "," ++ quoted "notes" ++ ":" ++ quoted "wants tips"
      ++ "," ++ quoted "completed" ++ ":true"
      ++ "," ++ quoted "advice" ++ ":" ++ quoted "none" ++ "}".

Definition unconvertible_date_json : string :=
  "{" ++ quoted "title" ++ ":" ++ quoted "Buy milk"
      ++ "," ++ quoted "date" ++ ":{" ++ quoted "toString" ++ ":1}}".

Definition bad_date_json : string :=
  "{" ++ quoted "title" ++ ":" ++ quoted "Buy milk"
      ++ "," ++ quoted "date" ++ ":" ++ quoted "not-a-date" ++ "}".

(** [JSON.parse] on these texts and on the text null; a SyntaxError on
    everything else. *)
Definition sample_JSON_parse (text : string) : option JSON :=
  if String.eqb text "null" then Some JNull
  else if String.eqb text says_task
  then Some (JObj [("isTask", JBool true); ("confidence", JNum (9 # 10))])
  else if String.eqb text says_no_task
  then Some (JObj [("isTask", JBool false); ("confidence", JNum (8 # 10))])
  else if String.eqb text study_json
  then Some (JObj [("title", JStr "Study networking");
                   ("date", JStr "2026-02-01");
                   ("notes", JStr "wants tips")])
  else if String.eqb text study_json_extra
  then Some (JObj [("title", JStr "Study networking");
                   ("date", JStr "2026-02-01");
                   ("notes", JStr "wants tips");
                   ("completed", JBool true);
                   ("advice", JStr "none")])
  else if String.eqb text bad_date_json
  then Some (JObj [("title", JStr "Buy milk"); ("date", JStr "not-a-date")])
  else if String.eqb text unconvertible_date_json
  then Some (JObj [("title", JStr "Buy milk");
                   ("date", JObj [("toString", JNum 1)])])
  else None.

(** [Date.prototype.toString], not rendered. *)
Definition sample_Date_toString (d : JSDate) : string :=
  match d with
  | ValidDate _ => "[Date]"
  | InvalidDate => "Invalid Date"
  end.

(** [Number.prototype.toString] on the integers; other numbers are not
    rendered. *)
Definition sample_Number_toString (n : Q) : string :=
  if Z.rem (Qnum n) (Z.pos (Qden n)) =? 0
  then Z_to_string (Z.quot (Qnum n) (Z.pos (Qden n)))
  else "[Number]".

(** The digits at the head of a text: their value, their number, and the
    rest of the text. *)
Fixpoint digits (acc : Z) (n : nat) (s : string) : Z * nat * string :=
  match s with
  | EmptyString => (acc, n, s)
  | String c rest =>
      match digit c with
      | Some d => digits (10 * acc + d) (S n) rest
      | None => (acc, n, s)
      end
  end.

(** A sign at the head of a text. *)
Definition signed (s : string) : bool * string :=
  match s with
  | String "-" rest => (true, rest)
  | String "+" rest => (false, rest)
  | _ => (false, s)
  end.

(** [Number(text)] on the decimal literals (digits, a fraction, an
    exponent), on the infinities and on the blank text; NaN on everything
    else.  The number is the rational the literal denotes. *)
Definition sample_String_toNumber (text : string) : JSNumber :=
  let s := trim text in
  if String.eqb s "" then Finite 0
  else
    let '(neg, s) := signed s in
    if String.eqb s "Infinity" then (if neg then NegInfinity else PosInfinity)
    else
      let '(ip, ni, s1) := digits 0 0 s in
      let '(fp, nf, s2) :=
        match s1 with
        | String "." rest => digits 0 0 rest
        | _ => (0, O, s1)
        end in
      if Nat.eqb (ni + nf) 0 then NaN
      else
        let mantissa :=
          Qmake (ip * 10 ^ Z.of_nat nf + fp) (Z.to_pos (10 ^ Z.of_nat nf)) in
        let mantissa := if neg then Qopp mantissa else mantissa in
        match s2 with
        | EmptyString => Finite mantissa
        | String c rest =>
            if (Ascii.eqb c "e" || Ascii.eqb c "E")%bool
            then
              let '(eneg, rest) := signed rest in
              let '(ev, ne, rest) := digits 0 0 rest in
              if (Nat.eqb ne 0 || negb (String.eqb rest ""))%bool then NaN
              else Finite (Qmult mantissa
                             (Qpower (inject_Z 10) (if eneg then - ev else ev)))
            else NaN
        end.

(** Local time is UTC. *)
Definition sample_platform : Platform :=
  {| JSON_parse := sample_JSON_parse;
     Date_parse := sample_Date_parse;
     Date_toString := sample_Date_toString;
     Number_toString := sample_Number_toString;
     String_toNumber := sample_String_toNumber;
     LocalTZA := fun _ _ => 0 |}.







(** 2026-01-13T09:30:00.000Z. *)
Definition sample_now : Z := days_from_civil 2026 1 13 * msPerDay + 34200000.

(** An empty store that answers, on 2026-01-13, and a service that gives
    the answers [answers] in turn. *)
Definition sample_world (answers : list (Outcome string)) : World :=
  mkWorld [] 1 true sample_now true answers [].

(** A store of five tasks: three completed ones in January 2026, two of
    them on the same day, one open, and a completed one in March. *)
Definition sample_tasks : list TaskDoc :=
  [ mkTaskDoc 1 "Pay the rent" (days_from_civil 2026 1 20 * msPerDay)
              "" "" true 100;
    mkTaskDoc 2 "Call mom" (days_from_civil 2026 1 15 * msPerDay)
              "" "" true 200;
    mkTaskDoc 3 "Buy groceries" (days_from_civil 2026 1 15 * msPerDay)
              "" "" true 300;
    mkTaskDoc 4 "Study networking" (days_from_civil 2026 1 16 * msPerDay)
              "" "" false 400;
    mkTaskDoc 5 "Renew passport" (days_from_civil 2026 3 1 * msPerDay)
              "" "" true 500 ].

Definition sample_store : World :=
  mkWorld sample_tasks 6 true sample_now true [] [].

(** [{completed: true, dateFrom: '2026-01-10', dateTo: <Date 2026-01-31>}]. *)
Definition sample_filters : JSObject :=
  [ ("completed", VJson (JBool true));
    ("dateFrom", VJson (JStr "2026-01-10"));
    ("dateTo", VDate (ValidDate (days_from_civil 2026 1 31 * msPerDay))) ].

(** A draft with a padded title, and an update of the open task. *)
Definition milk_draft : JSObject :=
  [("title", VJson (JStr "  Buy milk ")); ("date", VDate (ValidDate 0))].

(** A text made of [n] copies of a text; the letter e with an acute
    accent (U+00E9, two bytes). *)
Fixpoint copies (n : nat) (s : string) : string :=
  match n with
  | O => ""
  | S k => s ++ copies k s
  end.

Definition e_acute : string :=
  String "195"%char (String "169"%char EmptyString).

(** An answer with U+00A0 before and a space and U+00A0 after. *)
Definition nbsp : string := String "194"%char (String "160"%char EmptyString).

Definition nbsp_answer : string := nbsp ++ "1. Check the fridge. " ++ nbsp.

Definition blank_draft : JSObject :=
  [("title", VJson (JStr "   ")); ("date", VDate (ValidDate 0))].

Definition routing_update : Updates :=
  mkUpdates (Some true) (Some "  Study routing ") None None.

(** The sample store when it does not answer. *)
Definition sample_store_down : World :=
  mkWorld sample_tasks 6 false sample_now true
          [Returned says_task; Returned study_json; Returned "1. Start early."]
          [].

(** An environment that asks for Groq, with and without its key, and a
    client of OpenAI. *)
Definition groq_env (key : option string) : AIConfig.Env :=
  fun name =>
    if String.eqb name "AI_PROVIDER" then Some "groq"
    else if String.eqb name "GROQ_API_KEY" then key
    else None.

Definition openai_state : AIConfig.State :=
  AIConfig.mkState (Some (AIConfig.mkClient "sk-test" None)) (Some "openai").

(* ===================================================================== *)
(** ** Properties *)
(* ===================================================================== *)

Section Properties.

Context {P : Platform}.

(* ===================================================================== *)
(** ** Running a call: the monad and the completion service *)
(* ===================================================================== *)

Local Opaque getClassificationPrompt getExtractionPrompt getAdvicePrompt
  getConversationalPrompt toISOString trim.

Lemma bind_Returned {A B : Type} (c : M A) (k : A -> M B) w a w' :
  c w = (Returned a, w') -> bind c k w = k a w'.
Proof. intros H. unfold bind. now rewrite H. Qed.

Lemma sendMessage_eq p u j w :
  sendMessage p u j w =
  if aiClient w
  then match completions w with
       | Returned s :: rest => (Returned s, set_completions rest (sent p u j w))
       | Thrown e :: rest =>
           (Thrown (Error ("AI request failed: " ++ exn_message e)),
            set_completions rest (sent p u j w))
       | [] => (Thrown (Error "AI request failed: Connection error."),
                sent p u j w)
       end
  else (Thrown (Error "AI client not initialized. Call initializeAI() first."),
        sent p u j w).
Proof.
  unfold sendMessage, bind, log, try_catch, completions_create, throw, sent.
  cbn [aiClient completions set_calls].
  destruct (aiClient w); [|reflexivity].
  destruct (completions w) as [|[s|e] rest]; reflexivity.
Qed.

Lemma sendMessage_fails p u j w :
  completion_fails w = true ->
  exists e w', sendMessage p u j w = (Thrown e, w')
               /\ db w' = db w /\ next_id w' = next_id w
               /\ connected w' = connected w /\ clock w' = clock w
               /\ calls w' = (calls w ++ [Call_sendMessage p u j])%list.
Proof.
  unfold completion_fails. rewrite sendMessage_eq.
  destruct (aiClient w); cbn.
  - destruct (completions w) as [|[s|e] rest]; try discriminate; intros _;
      eexists; eexists; (split; [reflexivity|]); cbn; auto.
  - intros _. eexists; eexists; (split; [reflexivity|]); cbn; auto.
Qed.

Lemma sendMessage_frame p u j w r w' :
  sendMessage p u j w = (r, w') ->
  db w' = db w /\ next_id w' = next_id w /\ connected w' = connected w
  /\ clock w' = clock w /\ aiClient w' = aiClient w
  /\ calls w' = (calls w ++ [Call_sendMessage p u j])%list.
Proof.
  rewrite sendMessage_eq.
  destruct (aiClient w) eqn:Ha; [destruct (completions w) as [|[s|e] rest]|];
    intros H; inversion H; subst; cbn; auto 10.
Qed.

(* ===================================================================== *)
(** ** Classification and the conversational branch *)
(* ===================================================================== *)

(** [classify] never throws, and makes one call of the service. *)
Lemma classify_total userMessage w :
  exists c w',
    classify userMessage w = (Returned c, w')
    /\ db w' = db w /\ next_id w' = next_id w /\ connected w' = connected w
    /\ clock w' = clock w /\ aiClient w' = aiClient w
    /\ calls w' = (calls w ++ [Call_sendMessage getClassificationPrompt userMessage true])%list.
Proof.
  unfold classify, try_catch, bind.
  destruct (sendMessage getClassificationPrompt userMessage true w)
    as [[s|e] w1] eqn:Hs; apply sendMessage_frame in Hs.
  - unfold JSON_parse_call.
    destruct (JSON_parse s); do 2 eexists; (split; [reflexivity | exact Hs]).
  - do 2 eexists; (split; [reflexivity | exact Hs]).
Qed.

(** When the call of the service fails or its answer does not parse, the
    classification is the default one. *)
Lemma classify_default userMessage w :
  (completion_fails w = true
   \/ exists s rest, completions w = Returned s :: rest /\ JSON_parse s = None) ->
  exists w',
    classify userMessage w
    = (Returned (JObj [("isTask", JBool false); ("confidence", JNum 0)]), w').
Proof.
  intros [Hf | (s & rest & Hc & Hp)]; unfold classify, try_catch, bind.
  - destruct (sendMessage_fails getClassificationPrompt userMessage true w Hf)
      as (e & w' & -> & _). eexists; reflexivity.
  - rewrite sendMessage_eq, Hc.
    destruct (aiClient w); [|eexists; reflexivity].
    unfold JSON_parse_call. rewrite Hp. eexists; reflexivity.
Qed.

(** [classify] on an answer that parses. *)
Lemma classify_parsed userMessage w ctext tl c :
  aiClient w = true ->
  completions w = Returned ctext :: tl ->
  JSON_parse ctext = Some c ->
  classify userMessage w
  = (Returned c,
     set_completions tl (sent getClassificationPrompt userMessage true w)).
Proof.
  intros Ha Hc Hp. unfold classify, try_catch, bind.
  rewrite sendMessage_eq, Ha, Hc. unfold JSON_parse_call. now rewrite Hp.
Qed.

(** [handleConversation] never throws and always answers [isTask: false]. *)
Lemma handleConversation_total userMessage w :
  exists r w',
    handleConversation userMessage w = (Returned r, w')
    /\ isTask r = Some false /\ task r = None /\ error r = None
    /\ db w' = db w /\ next_id w' = next_id w /\ connected w' = connected w
    /\ clock w' = clock w
    /\ calls w' = (calls w ++ [Call_sendMessage getConversationalPrompt userMessage false])%list.
Proof.
  unfold handleConversation, try_catch, bind.
  destruct (sendMessage getConversationalPrompt userMessage false w)
    as [[s|e] w1] eqn:Hs; apply sendMessage_frame in Hs;
    cbn; do 2 eexists; (split; [reflexivity|]); cbn; intuition.
Qed.

(** When the service fails, the answer is the fixed greeting. *)
Lemma handleConversation_fallback userMessage w :
  completion_fails w = true ->
  exists w',
    handleConversation userMessage w
    = (Returned
         (mkResponse
            "Hello! I'm your task assistant. I can help you remember things and manage your tasks. Try saying something like 'Remind me to study tomorrow'!"
            None (Some false) None), w').
Proof.
  intros Hf. unfold handleConversation, try_catch, bind.
  destruct (sendMessage_fails getConversationalPrompt userMessage false w Hf)
    as (e & w' & -> & _). eexists; reflexivity.
Qed.

(** [process] on a message classified as non-task. *)
Lemma process_conversation_branch userMessage w c w1 :
  classify userMessage w = (Returned c, w1) ->
  c <> JNull ->
  truthy (member "isTask" c) = false ->
  process userMessage w = handleConversation userMessage w1.
Proof.
  intros Hc Hn Ht. unfold process, try_catch.
  rewrite (bind_Returned _ _ _ _ _ Hc).
  assert (Hr : read_prop "isTask" c w1 = (Returned (member "isTask" c), w1))
    by (destruct c; try reflexivity; congruence).
  rewrite (bind_Returned _ _ _ _ _ Hr), Ht.
  destruct (handleConversation_total userMessage w1) as (r & w' & -> & _).
  reflexivity.
Qed.

(** C7.  A message classified as non-task (the classification is an object
    or a primitive whose [isTask] is falsy) gets an [isTask: false]
    response; the run calls the completion service twice, for the
    classification and for the conversation, and nothing else: no
    extraction, no advice, no store operation, and the collection is the
    one it was. *)
Theorem process_non_task_leaves_store
    (userMessage : string) (w w1 : World) (c : JSON) :
  classify userMessage w = (Returned c, w1) ->
  c <> JNull ->
  truthy (member "isTask" c) = false ->
  exists r w',
    process userMessage w = (Returned r, w')
    /\ isTask r = Some false /\ task r = None /\ error r = None
    /\ db w' = db w /\ next_id w' = next_id w
    /\ calls w'
       = (calls w
          ++ [Call_sendMessage getClassificationPrompt userMessage true;
              Call_sendMessage getConversationalPrompt userMessage false])%list.
Proof.
  intros Hc Hn Ht.
  destruct (classify_total userMessage w)
    as (c' & w1' & Hc' & Hdb & Hid & _ & _ & _ & Hcalls).
  rewrite Hc in Hc'. inversion Hc'; subst c' w1'; clear Hc'.
  destruct (handleConversation_total userMessage w1)
    as (r & w' & Hh & Hi & Hta & He & Hdb' & Hid' & _ & _ & Hcalls').
  exists r, w'.
  rewrite (process_conversation_branch _ _ _ _ Hc Hn Ht), Hh.
  repeat split; try assumption; try congruence.
  rewrite Hcalls', Hcalls, <- app_assoc. reflexivity.
Qed.

(* ===================================================================== *)
(** ** The tools of the task branch *)
(* ===================================================================== *)

(** [extractTaskInfo], step by step: one call of the service, the parse,
    and the replacement of [date] by a [Date], which throws when the
    conversion of the date does. *)
Lemma extractTaskInfo_eq userMessage w :
  extractTaskInfo userMessage w =
  match sendMessage (getExtractionPrompt (toISOString (clock w))) userMessage true
          (set_calls (calls w ++ [Call_extractTaskInfo userMessage]) w) with
  | (Returned s, w1) =>
      match JSON_parse s with
      | Some j =>
          match as_object j with
          | Some o =>
              if ToString_throws (get_prop "date" o)
              then (Thrown extraction_failure, w1)
              else
                (Returned
                   (set_prop "date" (VDate (Date_new (get_prop "date" o))) o),
                 w1)
          | None => (Thrown extraction_failure, w1)
          end
      | None => (Thrown extraction_failure, w1)
      end
  | (Thrown _, w1) => (Thrown extraction_failure, w1)
  end.
Proof.
  unfold extractTaskInfo, bind, try_catch, log, Date_now, JSON_parse_call.
  cbn [clock set_calls].
  destruct (sendMessage _ _ _ _) as [[s|e] w1]; [|reflexivity].
  destruct (JSON_parse s) as [j|]; [|reflexivity].
  destruct j; try reflexivity; unfold new_Date, read_prop, member, ret;
    cbn [as_object];
    match goal with
    | |- context [ToString_throws ?v] => destruct (ToString_throws v)
    end; reflexivity.
Qed.

Lemma extractTaskInfo_frame userMessage w r w' :
  extractTaskInfo userMessage w = (r, w') ->
  db w' = db w /\ next_id w' = next_id w /\ connected w' = connected w
  /\ clock w' = clock w /\ aiClient w' = aiClient w
  /\ calls w'
     = (calls w
        ++ [Call_extractTaskInfo userMessage;
            Call_sendMessage (getExtractionPrompt (toISOString (clock w)))
                             userMessage true])%list.
Proof.
  rewrite extractTaskInfo_eq.
  destruct (sendMessage _ _ _ _) as [o w1] eqn:Hs.
  apply sendMessage_frame in Hs. cbn in Hs.
  destruct Hs as (H1 & H2 & H3 & H4 & H5 & H6).
  rewrite <- app_assoc in H6. cbn in H6.
  assert (w1 = w' -> db w' = db w /\ next_id w' = next_id w
                     /\ connected w' = connected w /\ clock w' = clock w
                     /\ aiClient w' = aiClient w
                     /\ calls w'
                        = (calls w
                           ++ [Call_extractTaskInfo userMessage;
                               Call_sendMessage
                                 (getExtractionPrompt (toISOString (clock w)))
                                 userMessage true])%list)
    as K by (intros <-; auto 10).
  destruct o as [s|e]; [destruct (JSON_parse s) as [j|];
                        [destruct (as_object j) as [o|];
                         [destruct (ToString_throws (get_prop "date" o))|]|]|];
    intros H; inversion H; auto.
Qed.

(** The only error [extractTaskInfo] throws. *)
Lemma extractTaskInfo_throws userMessage w e w' :
  extractTaskInfo userMessage w = (Thrown e, w') -> e = extraction_failure.
Proof.
  rewrite extractTaskInfo_eq.
  destruct (sendMessage _ _ _ _) as [[s|e0] w1];
    [destruct (JSON_parse s) as [j|];
     [destruct (as_object j) as [o|];
      [destruct (ToString_throws (get_prop "date" o))|]|]|];
    intros H; inversion H; reflexivity.
Qed.

(** [generateAdvice] never throws: when the title has no text to put in
    the prompt, it falls back before any request. *)
Lemma generateAdvice_eq taskTitle w :
  generateAdvice taskTitle w =
  let w0 := set_calls (calls w ++ [Call_generateAdvice taskTitle]) w in
  if ToString_throws taskTitle then (Returned fallback_advice, w0)
  else
    match sendMessage (getAdvicePrompt (JS_toString taskTitle)) "" false w0 with
    | (Returned s, w1) => (Returned (trim s), w1)
    | (Thrown _, w1) => (Returned fallback_advice, w1)
    end.
Proof.
  unfold generateAdvice, bind, try_catch, log, ToString. cbn [set_calls].
  destruct (ToString_throws taskTitle); [reflexivity|].
  unfold ret at 1.
  destruct (sendMessage _ _ _ _) as [[s|e] w1]; reflexivity.
Qed.

Lemma generateAdvice_total taskTitle w :
  exists a w',
    generateAdvice taskTitle w = (Returned a, w')
    /\ (completion_fails w = true -> a = fallback_advice)
    /\ db w' = db w /\ next_id w' = next_id w /\ connected w' = connected w
    /\ clock w' = clock w
    /\ calls w'
       = (calls w
          ++ Call_generateAdvice taskTitle
             :: (if ToString_throws taskTitle then []
                 else [Call_sendMessage (getAdvicePrompt (JS_toString taskTitle))
                                        "" false]))%list.
Proof.
  rewrite generateAdvice_eq. cbv zeta.
  destruct (ToString_throws taskTitle).
  { do 2 eexists. split; [reflexivity|]. cbn. auto 10. }
  set (w0 := set_calls (calls w ++ [Call_generateAdvice taskTitle]) w).
  assert (Hf : completion_fails w0 = completion_fails w) by reflexivity.
  destruct (sendMessage _ _ _ w0) as [o w1] eqn:Hs.
  pose proof (sendMessage_frame _ _ _ _ _ _ Hs) as (H1 & H2 & H3 & H4 & H5 & H6).
  cbn in H1, H2, H3, H4, H5, H6. rewrite <- app_assoc in H6. cbn in H6.
  destruct o as [s|e]; do 2 eexists; (split; [reflexivity|]);
    (split; [|auto 10]); intros F; [|reflexivity].
  rewrite <- Hf in F.
  destruct (sendMessage_fails (getAdvicePrompt (JS_toString taskTitle)) "" false w0 F)
    as (e & w2 & Hs' & _).
  rewrite Hs in Hs'. discriminate.
Qed.

(** [saveTask], step by step: validation, then the insertion. *)
Lemma saveTask_eq taskInfo w :
  saveTask taskInfo w =
  let w1 := set_calls (calls w ++ [Call_saveTask taskInfo; Call_save]) w in
  match valid_title (in_title (input_of taskInfo)),
        valid_date (in_date (input_of taskInfo)),
        valid_text (in_advice (input_of taskInfo)),
        valid_text (in_notes (input_of taskInfo)) with
  | Some t, Some d, Some a, Some n =>
      if connected w
      then let doc := mkTaskDoc (next_id w) t d a n false (clock w) in
           (Returned doc, set_next_id (S (next_id w)) (set_db (db w ++ [doc]) w1))
      else (Thrown save_failure, w1)
  | _, _, _, _ => (Thrown save_failure, w1)
  end.
Proof.
  unfold saveTask, Task_save, bind, try_catch, log, input_of, throw.
  cbn [set_calls calls in_title in_date in_advice in_notes
       db next_id connected clock aiClient completions].
  rewrite <- app_assoc. cbn [app].
  destruct (valid_title _); [|reflexivity].
  destruct (valid_date _); [|reflexivity].
  destruct (valid_text _); [|reflexivity].
  destruct (valid_text _); [|reflexivity].
  unfold set_next_id, set_db, set_calls.
  cbn [db next_id connected clock aiClient completions calls].
  destruct (connected w); reflexivity.
Qed.

Lemma formatDate_returns d w : exists l, formatDate d w = (Returned l, w).
Proof.
  unfold formatDate, bind, Date_now. cbv zeta.
  destruct (same_time _ _); [eexists; reflexivity|].
  destruct (same_time _ _); eexists; reflexivity.
Qed.

(** The label depends on the clock only. *)
Lemma formatDate_clock d w w' :
  clock w = clock w' -> fst (formatDate d w) = fst (formatDate d w').
Proof.
  unfold formatDate, bind, Date_now. cbv zeta. intros ->.
  destruct (same_time _ _); [reflexivity|].
  destruct (same_time _ _); reflexivity.
Qed.

Lemma get_set_same k v o : get_prop k (set_prop k v o) = v.
Proof.
  unfold get_prop. induction o as [|[k' v'] o IH]; cbn.
  - now rewrite String.eqb_refl.
  - destruct (String.eqb k k') eqn:E; cbn; rewrite ?String.eqb_refl, ?E; auto.
Qed.

Lemma get_set_other k k' v o :
  k <> k' -> get_prop k (set_prop k' v o) = get_prop k o.
Proof.
  intros Hk. unfold get_prop. induction o as [|[k0 v0] o IH]; cbn.
  - apply String.eqb_neq in Hk. now rewrite Hk.
  - destruct (String.eqb k' k0) eqn:E; cbn.
    + apply String.eqb_eq in E. subst k0.
      apply String.eqb_neq in Hk. now rewrite Hk.
    + destruct (String.eqb k k0); auto.
Qed.

Lemma valid_text_or_empty a :
  valid_text (js_or (VJson (JStr a)) (VJson (JStr ""))) = Some a.
Proof.
  unfold js_or, truthy. destruct (String.eqb a "") eqn:E; cbn.
  - apply String.eqb_eq in E. now subst.
  - reflexivity.
Qed.

(** What a successful [saveTask] has stored. *)
Lemma saveTask_returns taskInfo w doc w' :
  saveTask taskInfo w = (Returned doc, w') ->
  valid_title (get_prop "title" taskInfo) = Some (title doc)
  /\ valid_date (get_prop "date" taskInfo) = Some (date doc)
  /\ valid_text (js_or (get_prop "advice" taskInfo) (VJson (JStr "")))
     = Some (advice doc)
  /\ valid_text (js_or (get_prop "notes" taskInfo) (VJson (JStr "")))
     = Some (notes doc)
  /\ completed doc = false /\ _id doc = next_id w /\ createdAt doc = clock w
  /\ db w' = (db w ++ [doc])%list /\ next_id w' = S (next_id w)
  /\ connected w = true
  /\ calls w' = (calls w ++ [Call_saveTask taskInfo; Call_save])%list.
Proof.
  rewrite saveTask_eq. unfold input_of. cbn [in_title in_date in_advice in_notes].
  destruct (valid_title _) as [t|]; [|discriminate].
  destruct (valid_date _) as [d|]; [|discriminate].
  destruct (valid_text _) as [a|]; [|discriminate].
  destruct (valid_text _) as [n|]; [|discriminate].
  cbv zeta. destruct (connected w); [|discriminate].
  intros H. inversion H; subst. cbn. auto 12.
Qed.

(** A failed [saveTask] stores nothing, and throws one error whatever the
    cause. *)
Lemma saveTask_throws taskInfo w e w' :
  saveTask taskInfo w = (Thrown e, w') ->
  e = save_failure /\ db w' = db w /\ next_id w' = next_id w
  /\ calls w' = (calls w ++ [Call_saveTask taskInfo; Call_save])%list.
Proof.
  rewrite saveTask_eq. unfold input_of. cbn [in_title in_date in_advice in_notes].
  cbv zeta.
  destruct (valid_title _) as [t|];
    [destruct (valid_date _) as [d|];
     [destruct (valid_text _) as [a|];
      [destruct (valid_text _) as [n|]; [destruct (connected w)|]|]|]|];
    intros H; inversion H; subst; cbn; auto.
Qed.

(** [handleTask], step by step. *)
Lemma handleTask_eq userMessage w :
  handleTask userMessage w =
  match extractTaskInfo userMessage w with
  | (Thrown e, w1) => (Thrown e, w1)
  | (Returned taskInfo, w1) =>
      match generateAdvice (get_prop "title" taskInfo) w1 with
      | (Thrown e, w2) => (Thrown e, w2)
      | (Returned a, w2) =>
          match saveTask (set_prop "advice" (VJson (JStr a)) taskInfo) w2 with
          | (Thrown e, w3) => (Thrown e, w3)
          | (Returned savedTask, w3) =>
              match formatDate (ValidDate (date savedTask)) w3 with
              | (Thrown e, w4) => (Thrown e, w4)
              | (Returned l, w4) => (Returned (confirmation savedTask l a), w4)
              end
          end
      end
  end.
Proof.
  unfold handleTask, try_catch, bind, throw, ret, confirmation.
  destruct (extractTaskInfo _ _) as [[info|e] w1]; [|reflexivity].
  destruct (generateAdvice _ _) as [[a|e] w2]; [|reflexivity].
  destruct (saveTask _ _) as [[doc|e] w3]; [|reflexivity].
  destruct (formatDate _ _) as [[l|e] w4]; reflexivity.
Qed.

(** [process] on a message classified as a task. *)
Lemma process_task_branch userMessage w c w1 :
  classify userMessage w = (Returned c, w1) ->
  c <> JNull ->
  truthy (member "isTask" c) = true ->
  process userMessage w =
  match handleTask userMessage w1 with
  | (Returned r, w') => (Returned r, w')
  | (Thrown _, w') => (Returned apology, w')
  end.
Proof.
  intros Hc Hn Ht. unfold process, try_catch.
  rewrite (bind_Returned _ _ _ _ _ Hc).
  assert (Hr : read_prop "isTask" c w1 = (Returned (member "isTask" c), w1))
    by (destruct c; try reflexivity; congruence).
  rewrite (bind_Returned _ _ _ _ _ Hr), Ht.
  destruct (handleTask userMessage w1) as [[r|e] w']; reflexivity.
Qed.

(** When the three steps of the task branch succeed, the response shows
    the document [saveTask] returned, and that document is the one record
    the run added to the collection. *)
Lemma handleTask_saved userMessage w taskInfo w1 a w2 savedTask w3 :
  extractTaskInfo userMessage w = (Returned taskInfo, w1) ->
  generateAdvice (get_prop "title" taskInfo) w1 = (Returned a, w2) ->
  saveTask (set_prop "advice" (VJson (JStr a)) taskInfo) w2
  = (Returned savedTask, w3) ->
  exists l,
    handleTask userMessage w = (Returned (confirmation savedTask l a), w3)
    /\ advice savedTask = a
    /\ db w3 = (db w ++ [savedTask])%list.
Proof.
  intros He Ha Hs. rewrite handleTask_eq, He, Ha, Hs.
  destruct (formatDate_returns (ValidDate (date savedTask)) w3) as (l & ->).
  exists l. split; [reflexivity|].
  apply extractTaskInfo_frame in He. destruct He as (E1 & _).
  destruct (generateAdvice_total (get_prop "title" taskInfo) w1)
    as (a' & w2' & Ha' & _ & G1 & _).
  rewrite Ha in Ha'. inversion Ha'; subst a' w2'; clear Ha'.
  apply saveTask_returns in Hs.
  destruct Hs as (_ & _ & Hadv & _ & _ & _ & _ & Hdb & _).
  rewrite get_set_same, valid_text_or_empty in Hadv.
  split; [congruence|]. rewrite Hdb, G1, E1. reflexivity.
Qed.

(* ===================================================================== *)
(** ** The task branch of [process] *)
(* ===================================================================== *)

(** When [extractTaskInfo] throws, [process] answers with the apology, the
    collection is untouched, and the run has made no call after the
    extraction: no advice, no [saveTask], no [save]. *)
Lemma process_extraction_throws userMessage w c w1 e w2 :
  classify userMessage w = (Returned c, w1) ->
  c <> JNull ->
  truthy (member "isTask" c) = true ->
  extractTaskInfo userMessage w1 = (Thrown e, w2) ->
  process userMessage w = (Returned apology, w2)
  /\ db w2 = db w /\ next_id w2 = next_id w
  /\ calls w2
     = (calls w
        ++ [Call_sendMessage getClassificationPrompt userMessage true;
            Call_extractTaskInfo userMessage;
            Call_sendMessage (getExtractionPrompt (toISOString (clock w)))
                             userMessage true])%list.
Proof.
  intros Hc Hn Ht He.
  rewrite (process_task_branch _ _ _ _ Hc Hn Ht), handleTask_eq, He.
  split; [reflexivity|].
  destruct (classify_total userMessage w)
    as (c' & w1' & Hc' & Hdb & Hid & _ & Hclk & _ & Hcalls).
  rewrite Hc in Hc'. inversion Hc'; subst c' w1'; clear Hc'.
  apply extractTaskInfo_frame in He.
  destruct He as (E1 & E2 & _ & _ & _ & E6).
  repeat split; try congruence.
  rewrite E6, Hcalls, Hclk, <- app_assoc. reflexivity.
Qed.

(** The causes of a failed extraction: the service fails, its answer is
    not JSON, or it is JSON for [null] or for a primitive, or for an
    object whose date is itself an object that cannot be converted. *)
Lemma extractTaskInfo_throws_iff userMessage w :
  (exists e w', extractTaskInfo userMessage w = (Thrown e, w'))
  <-> (completion_fails w = true
       \/ exists s rest, completions w = Returned s :: rest
                         /\ match JSON_parse s with
                            | Some j =>
                                match as_object j with
                                | Some o =>
                                    ToString_throws (get_prop "date" o) = true
                                | None => True
                                end
                            | None => True
                            end).
Proof.
  rewrite extractTaskInfo_eq, sendMessage_eq. unfold completion_fails.
  cbn [aiClient completions set_calls].
  destruct (aiClient w); cbn [negb orb].
  - destruct (completions w) as [|[s|e0] rest].
    + split; [auto|]. intros _. do 2 eexists; reflexivity.
    + split.
      * intros (e & w' & H). right. exists s, rest. split; [reflexivity|].
        destruct (JSON_parse s) as [j|]; [|exact I].
        destruct (as_object j) as [o|]; [|exact I].
        destruct (ToString_throws (get_prop "date" o));
          [reflexivity|discriminate].
      * intros [H | (s' & rest' & H & K)]; [discriminate|].
        inversion H; subst s' rest'.
        destruct (JSON_parse s) as [j|]; [|do 2 eexists; reflexivity].
        destruct (as_object j) as [o|]; [rewrite K|]; do 2 eexists; reflexivity.
    + split; [auto|]. intros _. do 2 eexists; reflexivity.
  - split; [auto|]. intros _. do 2 eexists; reflexivity.
Qed.

(** A value that [new Date] turns into a valid date is one it converts. *)
Lemma Date_new_converts v t : Date_new v = ValidDate t -> ToString_throws v = false.
Proof.
  destruct v as [|j|d]; try reflexivity.
  destruct j as [|b|n|s|l|l]; try reflexivity; cbn [Date_new ToString_throws];
    destruct (ToPrimitive_throws _); try discriminate; reflexivity.
Qed.

(** A date that does not parse is not such a cause: [new Date] gives the
    Invalid Date and the extraction returns it. *)
Lemma extractTaskInfo_invalid_date userMessage w s rest j o :
  aiClient w = true ->
  completions w = Returned s :: rest ->
  JSON_parse s = Some j ->
  as_object j = Some o ->
  ToString_throws (get_prop "date" o) = false ->
  Date_new (get_prop "date" o) = InvalidDate ->
  exists w',
    extractTaskInfo userMessage w
    = (Returned (set_prop "date" (VDate InvalidDate) o), w').
Proof.
  intros Ha Hc Hp Ho Hn Hd.
  rewrite extractTaskInfo_eq, sendMessage_eq. cbn [aiClient completions set_calls].
  rewrite Ha, Hc, Hp, Ho, Hn, Hd. eexists; reflexivity.
Qed.

(** The Invalid Date is then refused by the schema, when [saveTask] has
    already been entered. *)
Lemma saveTask_invalid_date taskInfo w :
  get_prop "date" taskInfo = VDate InvalidDate ->
  saveTask taskInfo w
  = (Thrown save_failure,
     set_calls (calls w ++ [Call_saveTask taskInfo; Call_save]) w).
Proof.
  intros Hd. rewrite saveTask_eq. unfold input_of.
  cbn [in_title in_date in_advice in_notes]. rewrite Hd. cbn.
  destruct (valid_title _); reflexivity.
Qed.

(** So, whenever the answer to the extraction request is an object whose
    date [new Date] converts and cannot read, the run reaches [saveTask]
    and [save] before [process] answers with the apology; nothing is
    stored. *)
Lemma process_invalid_date userMessage w ctext c s rest j o :
  aiClient w = true ->
  completions w = Returned ctext :: Returned s :: rest ->
  JSON_parse ctext = Some c ->
  c <> JNull ->
  truthy (member "isTask" c) = true ->
  JSON_parse s = Some j ->
  as_object j = Some o ->
  ToString_throws (get_prop "date" o) = false ->
  Date_new (get_prop "date" o) = InvalidDate ->
  exists w' taskInfo,
    process userMessage w = (Returned apology, w')
    /\ db w' = db w
    /\ In (Call_saveTask taskInfo) (calls w')
    /\ In Call_save (calls w').
Proof.
  intros Ha Hco Hp Hn Ht Hj Ho Hcv Hd.
  pose proof (classify_parsed userMessage w ctext _ c Ha Hco Hp) as Hc.
  rewrite (process_task_branch _ _ _ _ Hc Hn Ht), handleTask_eq.
  set (w1 := set_completions (Returned s :: rest)
               (sent getClassificationPrompt userMessage true w)) in *.
  destruct (extractTaskInfo_invalid_date userMessage w1 s rest j o)
    as (w2 & He); auto.
  rewrite He.
  pose proof (extractTaskInfo_frame _ _ _ _ He) as (E1 & _).
  destruct (generateAdvice_total (get_prop "title" (set_prop "date" (VDate InvalidDate) o)) w2)
    as (a & w3 & -> & _ & G1 & _).
  rewrite saveTask_invalid_date
    by (rewrite get_set_other by discriminate; apply get_set_same).
  do 2 eexists. split; [reflexivity|]. cbn [db calls set_calls].
  split; [rewrite G1, E1; reflexivity|].
  split; apply in_or_app; right; cbn; auto.
Qed.

(** C3.  When the message is classified as a task, the extraction returns,
    the service answers the advice request with [s], and [saveTask]
    returns the document [savedTask], [process] returns [isTask: true]
    with a task whose id, title, date, notes and advice are those of
    [savedTask]; [savedTask] is the record the run has added to the
    collection, and its advice is the trimmed answer (the fixed advice,
    with no request made, when the title is an object that has no text to
    put in the request). *)
Theorem process_task_matches_persisted
    userMessage w c w1 taskInfo w2 s rest a w3 savedTask w4 :
  classify userMessage w = (Returned c, w1) ->
  c <> JNull ->
  truthy (member "isTask" c) = true ->
  extractTaskInfo userMessage w1 = (Returned taskInfo, w2) ->
  aiClient w2 = true ->
  completions w2 = Returned s :: rest ->
  generateAdvice (get_prop "title" taskInfo) w2 = (Returned a, w3) ->
  saveTask (set_prop "advice" (VJson (JStr a)) taskInfo) w3
  = (Returned savedTask, w4) ->
  exists r tv,
    process userMessage w = (Returned r, w4)
    /\ isTask r = Some true /\ error r = None /\ task r = Some tv
    /\ db w4 = (db w ++ [savedTask])%list
    /\ task_id tv = _id savedTask
    /\ task_title tv = title savedTask
    /\ task_date tv = date savedTask
    /\ task_notes tv = notes savedTask
    /\ task_advice tv = advice savedTask
    /\ advice savedTask
       = (if ToString_throws (get_prop "title" taskInfo) then fallback_advice
          else trim s).
Proof.
  intros Hc Hn Ht He Hai Hco Ha Hs.
  destruct (handleTask_saved _ _ _ _ _ _ _ _ He Ha Hs) as (l & Hh & Hadv & Hdb).
  rewrite (process_task_branch _ _ _ _ Hc Hn Ht), Hh.
  destruct (classify_total userMessage w) as (c' & w1' & Hc' & Hdb1 & _).
  rewrite Hc in Hc'. inversion Hc'; subst c' w1'; clear Hc'.
  do 2 eexists. split; [reflexivity|]. cbn.
  repeat split; try reflexivity.
  - rewrite Hdb, Hdb1. reflexivity.
  - rewrite Hadv. rewrite generateAdvice_eq in Ha. cbv zeta in Ha.
    destruct (ToString_throws (get_prop "title" taskInfo));
      [now inversion Ha|].
    rewrite sendMessage_eq in Ha.
    cbn [aiClient completions set_calls] in Ha. rewrite Hai, Hco in Ha.
    now inversion Ha.
Qed.

(** C4.  When the message is classified as a task, the extraction returns,
    the call of the service for the advice fails, and [saveTask] returns
    [savedTask], [process] still returns [isTask: true]; [savedTask] is
    the record added to the collection, and the advice returned and the
    advice stored are the fixed fallback text. *)
Theorem process_advice_fallback
    userMessage w c w1 taskInfo w2 a w3 savedTask w4 :
  classify userMessage w = (Returned c, w1) ->
  c <> JNull ->
  truthy (member "isTask" c) = true ->
  extractTaskInfo userMessage w1 = (Returned taskInfo, w2) ->
  completion_fails w2 = true ->
  generateAdvice (get_prop "title" taskInfo) w2 = (Returned a, w3) ->
  saveTask (set_prop "advice" (VJson (JStr a)) taskInfo) w3
  = (Returned savedTask, w4) ->
  exists r tv,
    process userMessage w = (Returned r, w4)
    /\ isTask r = Some true /\ error r = None /\ task r = Some tv
    /\ db w4 = (db w ++ [savedTask])%list
    /\ task_advice tv
       = "Good luck with your task! Break it down into smaller steps and tackle them one at a time."
    /\ advice savedTask
       = "Good luck with your task! Break it down into smaller steps and tackle them one at a time.".
Proof.
  intros Hc Hn Ht He Hf Ha Hs.
  destruct (handleTask_saved _ _ _ _ _ _ _ _ He Ha Hs) as (l & Hh & Hadv & Hdb).
  rewrite (process_task_branch _ _ _ _ Hc Hn Ht), Hh.
  destruct (classify_total userMessage w) as (c' & w1' & Hc' & Hdb1 & _).
  rewrite Hc in Hc'. inversion Hc'; subst c' w1'; clear Hc'.
  destruct (generateAdvice_total (get_prop "title" taskInfo) w2)
    as (a' & w3' & Ha' & Hfb & _).
  rewrite Ha in Ha'. inversion Ha'; subst a' w3'; clear Ha'.
  specialize (Hfb Hf). unfold fallback_advice in Hfb.
  do 2 eexists. split; [reflexivity|]. cbn.
  repeat split; try reflexivity.
  - rewrite Hdb, Hdb1. reflexivity.
  - cbn. now rewrite Hadv.
  - now rewrite Hadv.
Qed.

(* ===================================================================== *)
(** ** The date label *)
(* ===================================================================== *)

(** The year of the era of 400 years and the day of that year, counted
    from the first of March, of a day of the era. *)
Lemma year_of_era doe :
  0 <= doe < 146097 ->
  let yoe := (doe - doe / 1460 + doe / 36524 - doe / 146096) / 365 in
  let doy := doe - (365 * yoe + yoe / 4 - yoe / 100) in
  0 <= yoe <= 399 /\ 0 <= doy <= 365
  /\ (doy = 365 ->
      (yoe + 1) mod 4 = 0
      /\ ((yoe + 1) mod 100 <> 0 \/ (yoe + 1) mod 400 = 0)).
Proof.
  intros H yoe doy. subst yoe doy.
  Z.div_mod_to_equations. lia.
Qed.

Lemma is_leap_era y era : is_leap (y + era * 400) = is_leap y.
Proof.
  unfold is_leap.
  replace (y + era * 400) with (y + (era * 100) * 4) at 1 by lia.
  replace (y + era * 400) with (y + (era * 4) * 100) at 1 by lia.
  now rewrite !Z.mod_add by lia.
Qed.

(** [civil_from_days] gives the date of the day: a month, a day of this
    month, and the year, of which the day number is the one given. *)
Lemma civil_from_days_civil z :
  let '(y, m, d) := civil_from_days z in civil z y m d.
Proof.
  unfold civil_from_days.
  set (z' := z + 719468).
  set (era := z' / 146097).
  set (doe := z' - era * 146097).
  assert (Hdoe : 0 <= doe < 146097)
    by (subst doe era; Z.div_mod_to_equations; lia).
  pose proof (year_of_era doe Hdoe) as H. cbv zeta in H |- *.
  set (yoe := (doe - doe / 1460 + doe / 36524 - doe / 146096) / 365) in *.
  set (doy := doe - (365 * yoe + yoe / 4 - yoe / 100)) in *.
  destruct H as (Hy & Hd & Hl).
  set (mp := (5 * doy + 2) / 153).
  assert (Hmp : 0 <= mp <= 11) by (subst mp; Z.div_mod_to_equations; lia).
  assert (Hz : z = era * 146097 + doe - 719468) by (subst doe z'; lia).
  assert (Cases : mp = 0 \/ mp = 1 \/ mp = 2 \/ mp = 3 \/ mp = 4 \/ mp = 5
                  \/ mp = 6 \/ mp = 7 \/ mp = 8 \/ mp = 9 \/ mp = 10 \/ mp = 11)
    by lia.
  assert (Hmpd : 153 * mp <= 5 * doy + 2 < 153 * mp + 153)
    by (subst mp; Z.div_mod_to_equations; lia).
  assert (Hdoy : doy = doe - (365 * yoe + yoe / 4 - yoe / 100)) by reflexivity.
  clearbody mp yoe doy doe era.
  assert (Hera : forall k, 0 <= k <= 399 -> (k + era * 400) / 400 = era)
    by (intros k Hk; Z.div_mod_to_equations; lia).
  unfold civil, days_from_civil.
  destruct Cases as [->|[->|[->|[->|[->|[->|[->|[->|[->|[->|[->| ->]]]]]]]]]]];
    match goal with
    | |- context [if ?c <? 10 then ?a else ?b] =>
        let v := eval vm_compute in (if c <? 10 then a else b) in
        change (if c <? 10 then a else b) with v
    end;
    cbn [month_length];
    repeat match goal with
           | |- context [?a <=? ?b] => destruct (Z.leb_spec a b); try lia
           | |- context [?a <? ?b] => destruct (Z.ltb_spec a b); try lia
           end;
    try (replace (yoe + era * 400 + 1 - 1) with (yoe + era * 400) by lia);
    rewrite ?Hera by lia.
  all: try (split; [lia|split; [Z.div_mod_to_equations; lia|];
            Z.div_mod_to_equations; lia]).
  split; [lia|].
  replace (yoe + era * 400 + 1) with (yoe + 1 + era * 400) by lia.
  rewrite is_leap_era. split.
  - unfold is_leap.
    destruct (Z.eq_dec doy 365) as [E|E].
    + destruct (Hl E) as (L4 & L100).
      apply Z.eqb_eq in L4. rewrite L4.
      destruct L100 as [L|L].
      * apply Z.eqb_neq in L. rewrite L. cbn [negb andb orb].
        Z.div_mod_to_equations; lia.
      * apply Z.eqb_eq in L. rewrite L, orb_true_r. Z.div_mod_to_equations; lia.
    + destruct (_ || _)%bool; Z.div_mod_to_equations; lia.
  - Z.div_mod_to_equations; lia.
Qed.

(** The day after: MakeDay of the year, the month and the date plus one of
    a time is the day number of the next day. *)
Lemma MakeDay_next t :
  MakeDay (YearFromTime t) (MonthFromTime t) (1 + DateFromTime t) = Day t + 1.
Proof.
  unfold MakeDay, YearFromTime, MonthFromTime, DateFromTime.
  pose proof (civil_from_days_civil (Day t)) as H.
  destruct (civil_from_days (Day t)) as [[y m] d].
  destruct H as (Hm & _ & Hd).
  replace ((m - 1) / 12) with 0 by (Z.div_mod_to_equations; lia).
  replace ((m - 1) mod 12 + 1) with m by (Z.div_mod_to_equations; lia).
  rewrite Z.add_0_r, <- Hd. unfold days_from_civil. lia.
Qed.




Lemma Day_midnight d : Day (d * msPerDay) = d.
Proof. unfold Day. apply Z.div_mul. discriminate. Qed.

(** [setHours(0, 0, 0, 0)] gives the instant at which the local day
    starts, when it is a time value. *)
Lemma setHours0_midnight t :
  setHours0 (ValidDate t) = TimeClip (midnight_of (localDay t)).
Proof.
  unfold setHours0, midnight_of, localDay, MakeDate.
  now rewrite Z.add_0_r.
Qed.

Lemma TimeClip_in_range t : Z.abs t <= maxTime -> TimeClip t = ValidDate t.
Proof.
  intros H. unfold TimeClip.
  destruct (Z.leb_spec (Z.abs t) maxTime); [reflexivity|lia].
Qed.

Lemma setHours0_ok t :
  midnight_ok (localDay t) ->
  setHours0 (ValidDate t) = ValidDate (midnight_of (localDay t)).
Proof.
  intros (_ & H). rewrite setHours0_midnight. now apply TimeClip_in_range.
Qed.

(** From the start of a local day that exists, [setDate(getDate() + 1)]
    goes to the start of the next local day. *)
Lemma setDate_next_midnight d :
  midnight_ok d ->
  setDate (ValidDate (midnight_of d))
          (option_map (Z.add 1) (getDate (ValidDate (midnight_of d))))
  = TimeClip (midnight_of (d + 1)).
Proof.
  intros (H & _). unfold setDate, getDate, option_map. cbv zeta.
  rewrite H, MakeDay_next, Day_midnight.
  unfold TimeWithinDay, MakeDate, midnight_of.
  rewrite Z.mod_mul by discriminate. now rewrite Z.add_0_r.
Qed.

(** Two local days that exist and start at the same instant are the same
    day. *)
Lemma midnight_of_inj a b :
  midnight_ok a -> midnight_ok b -> midnight_of a = midnight_of b -> a = b.
Proof.
  intros (Ha & _) (Hb & _) E. rewrite E, Hb in Ha.
  unfold msPerDay in Ha. lia.
Qed.

Lemma same_midnight a b :
  midnight_ok a -> midnight_ok b ->
  same_time (ValidDate (midnight_of a)) (ValidDate (midnight_of b)) = (a =? b).
Proof.
  intros Ha Hb. unfold same_time.
  destruct (Z.eqb_spec a b) as [->|Hn].
  - apply Z.eqb_refl.
  - apply Z.eqb_neq. intros E. apply Hn. now apply midnight_of_inj.
Qed.

(** The label, by the local days of the task and of the clock, when the
    three local days involved start at a time that exists and is a time
    value. *)
Lemma formatDate_eq t w :
  Z.abs t <= maxTime ->
  midnight_ok (localDay t) ->
  midnight_ok (localDay (clock w)) ->
  midnight_ok (localDay (clock w) + 1) ->
  formatDate (ValidDate t) w
  = (Returned (if localDay t =? localDay (clock w) then "today"
               else if localDay t =? localDay (clock w) + 1 then "tomorrow"
               else longDate (localDay t)), w).
Proof.
  intros Ht Hd H0 H1.
  unfold formatDate, bind, Date_now, ret. cbn [clock Date_new].
  rewrite (TimeClip_in_range t Ht), (setHours0_ok t Hd),
    (setHours0_ok (clock w) H0), (setDate_next_midnight _ H0),
    (TimeClip_in_range _ (proj2 H1)), !same_midnight by assumption.
  destruct (localDay t =? localDay (clock w)); [reflexivity|].
  destruct (localDay t =? localDay (clock w) + 1); [reflexivity|].
  unfold toLocaleDateString_long.
  now rewrite (proj1 Hd), Day_midnight.
Qed.


(* ===================================================================== *)
(** ** Listing the tasks *)
(* ===================================================================== *)

Lemma sort_leb_le a b : sort_leb a b = true <-> sort_le a b.
Proof.
  unfold sort_leb, sort_le.
  rewrite orb_true_iff, andb_true_iff, Z.ltb_lt, Z.eqb_eq, Z.leb_le. tauto.
Qed.

Lemma sort_leb_total a b : sort_leb a b = false -> sort_le b a.
Proof.
  unfold sort_leb, sort_le.
  rewrite orb_false_iff, andb_false_iff, Z.ltb_ge, Z.eqb_neq, Z.leb_gt. lia.
Qed.

Lemma sort_le_trans a b c : sort_le a b -> sort_le b c -> sort_le a c.
Proof. unfold sort_le. lia. Qed.

Lemma insert_sorted_perm t l : Permutation (t :: l) (insert_sorted t l).
Proof.
  induction l as [|x l IH]; cbn.
  - apply Permutation_refl.
  - destruct (sort_leb t x).
    + apply Permutation_refl.
    + eapply perm_trans; [apply perm_swap|]. now apply perm_skip.
Qed.

Lemma sort_tasks_perm l : Permutation l (sort_tasks l).
Proof.
  induction l as [|x l IH]; cbn.
  - apply perm_nil.
  - eapply perm_trans; [apply perm_skip, IH|]. apply insert_sorted_perm.
Qed.

Lemma insert_sorted_sorted t l :
  StronglySorted sort_le l -> StronglySorted sort_le (insert_sorted t l).
Proof.
  induction 1 as [|x l Hs IH Hx]; cbn.
  - constructor; constructor.
  - destruct (sort_leb t x) eqn:E.
    + apply sort_leb_le in E. constructor.
      * now constructor.
      * constructor; [exact E|].
        eapply Forall_impl; [|exact Hx].
        intros y Hy. eapply sort_le_trans; eassumption.
    + apply sort_leb_total in E. constructor; [exact IH|].
      eapply Permutation_Forall; [apply insert_sorted_perm|].
      now constructor.
Qed.

Lemma sort_tasks_sorted l : StronglySorted sort_le (sort_tasks l).
Proof.
  induction l as [|x l IH]; cbn.
  - constructor.
  - now apply insert_sorted_sorted.
Qed.

(** [getTasks], step by step: the bounds supplied are made into dates,
    which throws when the conversion of one does; then the query is
    run. *)
Lemma getTasks_eq filters w :
  getTasks filters w =
  let dateFrom := get_prop "dateFrom" filters in
  let dateTo := get_prop "dateTo" filters in
  if ((truthy dateFrom && ToString_throws dateFrom)
      || (truthy dateTo && ToString_throws dateTo))%bool
  then (Thrown (Error "Failed to retrieve tasks from database"), w)
  else
    match Task_find_sort
            (mkQuery (get_prop "completed" filters)
                     (if truthy dateFrom then Some (Date_new dateFrom)
                      else None)
                     (if truthy dateTo then Some (Date_new dateTo) else None))
            w with
    | (Returned l, w') => (Returned l, w')
    | (Thrown _, w') =>
        (Thrown (Error "Failed to retrieve tasks from database"), w')
    end.
Proof.
  unfold getTasks, try_catch, bind, new_Date, ret, throw. cbv zeta.
  assert (Hq : match get_prop "completed" filters with
               | VUndefined => mkQuery VUndefined None None
               | v => mkQuery v None None
               end = mkQuery (get_prop "completed" filters) None None)
    by (destruct (get_prop "completed" filters); reflexivity).
  cbn [q_completed q_date_gte q_date_lte] in *.
  match goal with
  | |- context [match get_prop "completed" filters with
                | VUndefined => ?a
                | VJson j => @?b j
                | VDate d => @?c d
                end] =>
      change (match get_prop "completed" filters with
              | VUndefined => a
              | VJson j => b j
              | VDate d => c d
              end)
        with (match get_prop "completed" filters with
              | VUndefined => mkQuery VUndefined None None
              | v => mkQuery v None None
              end)
  end.
  rewrite Hq. cbn [q_completed q_date_gte q_date_lte].
  destruct (truthy (get_prop "dateFrom" filters));
    destruct (ToString_throws (get_prop "dateFrom" filters));
    destruct (truthy (get_prop "dateTo" filters));
    destruct (ToString_throws (get_prop "dateTo" filters));
    cbn [andb orb q_completed q_date_gte q_date_lte]; try reflexivity;
    destruct (Task_find_sort _ w) as [[l|e] w']; reflexivity.
Qed.

(** [getTasks] on a filter whose members are well formed. *)
Lemma getTasks_returns filters w c lo hi :
  connected w = true ->
  get_prop "completed" filters
  = match c with Some b => VJson (JBool b) | None => VUndefined end ->
  supplies (get_prop "dateFrom" filters) lo ->
  supplies (get_prop "dateTo" filters) hi ->
  getTasks filters w
  = (Returned (sort_tasks (filter (satisfies c lo hi) (db w))),
     set_calls (calls w ++ [Call_find]) w).
Proof.
  intros Hco Hc Hlo Hhi. rewrite getTasks_eq. cbv zeta.
  assert (Nlo : ToString_throws (get_prop "dateFrom" filters) = false).
  { destruct lo as [d|]; cbn [supplies] in Hlo;
      [eapply Date_new_converts, Hlo|now rewrite Hlo]. }
  assert (Nhi : ToString_throws (get_prop "dateTo" filters) = false).
  { destruct hi as [d|]; cbn [supplies] in Hhi;
      [eapply Date_new_converts, Hhi|now rewrite Hhi]. }
  rewrite Nlo, Nhi, !andb_false_r. cbn [orb].
  unfold Task_find_sort, bind, log. rewrite Hc.
  destruct lo as [d|]; cbn [supplies] in Hlo;
    [destruct Hlo as (T1 & D1); rewrite T1, ?D1 | rewrite Hlo];
    (destruct hi as [d'|]; cbn [supplies] in Hhi;
     [destruct Hhi as (T2 & D2); rewrite T2, ?D2 | rewrite Hhi]);
    destruct c as [b|]; cbn; rewrite Hco; reflexivity.
Qed.

(** C8.  For every state of the store (one that answers) and every filter
    whose [completed], when supplied, is a boolean and whose [dateFrom] and
    [dateTo], when supplied, are valid dates, [getTasks] returns the
    records that satisfy all the supplied conditions and only them, each
    as many times as it is stored, ordered by date ascending and then by
    creation time descending; the collection is left as it was. *)
Theorem getTasks_filters_and_orders
    (filters : JSObject) (w : World) (c : option bool) (lo hi : option Z) :
  connected w = true ->
  get_prop "completed" filters
  = match c with Some b => VJson (JBool b) | None => VUndefined end ->
  supplies (get_prop "dateFrom" filters) lo ->
  supplies (get_prop "dateTo" filters) hi ->
  exists l w',
    getTasks filters w = (Returned l, w')
    /\ db w' = db w
    /\ Permutation l (filter (satisfies c lo hi) (db w))
    /\ (forall t, In t l <->
                  In t (db w)
                  /\ (forall b, c = Some b -> completed t = b)
                  /\ (forall d, lo = Some d -> d <= date t)
                  /\ (forall d, hi = Some d -> date t <= d))
    /\ StronglySorted sort_le l.
Proof.
  intros Hco Hc Hlo Hhi.
  exists (sort_tasks (filter (satisfies c lo hi) (db w))),
         (set_calls (calls w ++ [Call_find]) w).
  assert (Hperm : Permutation (sort_tasks (filter (satisfies c lo hi) (db w)))
                              (filter (satisfies c lo hi) (db w)))
    by (apply Permutation_sym, sort_tasks_perm).
  split; [|split; [reflexivity|split; [exact Hperm|split]]].
  - now apply getTasks_returns.
  - intros t. split.
    + intros Hin. apply (Permutation_in _ Hperm) in Hin.
      apply filter_In in Hin. destruct Hin as (Hin & Hs).
      split; [exact Hin|]. unfold satisfies in Hs.
      apply andb_true_iff in Hs. destruct Hs as (Hs & H3).
      apply andb_true_iff in Hs. destruct Hs as (H1 & H2).
      repeat split; intros x ->.
      * now apply Bool.eqb_prop.
      * now apply Z.leb_le.
      * now apply Z.leb_le.
    + intros (Hin & H1 & H2 & H3).
      apply (Permutation_in _ (Permutation_sym Hperm)).
      apply filter_In. split; [exact Hin|]. unfold satisfies.
      repeat (apply andb_true_iff; split).
      * destruct c as [b|]; [|reflexivity]. rewrite (H1 b eq_refl).
        apply Bool.eqb_reflx.
      * destruct lo as [d|]; [|reflexivity]. apply Z.leb_le. now apply H2.
      * destruct hi as [d|]; [|reflexivity]. apply Z.leb_le. now apply H3.
  - apply sort_tasks_sorted.
Qed.

(* ===================================================================== *)
(** ** The invariant of the stored tasks *)
(* ===================================================================== *)

Lemma TimeClip_valid t t' : TimeClip t = ValidDate t' -> Z.abs t' <= maxTime.
Proof.
  unfold TimeClip. destruct (Z.leb_spec (Z.abs t) maxTime) as [Hle|Hgt];
    [|discriminate].
  intros H. inversion H. now subst.
Qed.

Lemma TimeClip_number_valid n t :
  TimeClip_number n = ValidDate t -> Z.abs t <= maxTime.
Proof.
  unfold TimeClip_number.
  destruct (Qle_bool (Qabs n) (inject_Z maxTime)) eqn:E; [|discriminate].
  intros H. inversion H; subst; clear H.
  apply Qle_bool_iff in E. destruct n as [a d].
  remember maxTime as M eqn:HM.
  unfold Qle, Qabs, inject_Z in E. cbn [Qnum Qden] in *.
  rewrite <- Z.quot_abs by lia.
  replace (Z.abs (Z.pos d)) with (Z.pos d) by lia.
  apply Z.quot_le_upper_bound; lia.
Qed.

Lemma Date_of_string_valid s t :
  Date_of_string s = ValidDate t -> Z.abs t <= maxTime.
Proof.
  unfold Date_of_string. destruct (Date_parse s); [|discriminate].
  apply TimeClip_valid.
Qed.

Lemma Date_new_valid v t : Date_new v = ValidDate t -> Z.abs t <= maxTime.
Proof.
  destruct v as [|j|[t0|]]; cbn [Date_new]; try discriminate.
  - destruct j as [|b|n|s|l|l];
      try apply TimeClip_number_valid; try apply Date_of_string_valid.
    + intros H. inversion H. unfold maxTime. lia.
    + intros H. inversion H. unfold maxTime. destruct b; lia.
    + destruct (ToPrimitive_throws _); [discriminate|].
      apply Date_of_string_valid.
    + destruct (ToPrimitive_throws _); [discriminate|].
      apply Date_of_string_valid.
  - apply TimeClip_valid.
Qed.

Lemma valid_date_valid v t : valid_date v = Some t -> Z.abs t <= maxTime.
Proof.
  assert (K : forall d,
             match (match d with
                    | ValidDate t0 => CastTo (Some t0)
                    | InvalidDate => CastFails
                    end) with
             | CastTo (Some t0) => Some t0
             | _ => None
             end = Some t -> d = ValidDate t).
  { intros [t0|]; [|discriminate]. intros H. now inversion H. }
  unfold valid_date, castDate. cbv zeta.
  destruct v as [|j|d]; try discriminate.
  - destruct j as [|b|n|s|l|l]; try discriminate.
    + intros H. apply K in H. eapply Date_new_valid, H.
    + destruct (String.eqb s ""); [discriminate|].
      destruct (String_toNumber s) as [n| | |];
        [destruct (Qle_bool (inject_Z 275761) n
                   || negb (Qle_bool (inject_Z (-271820)) n))%bool| | |];
        try discriminate; intros H; apply K in H;
        first [eapply TimeClip_number_valid, H | eapply Date_of_string_valid, H].
    + intros H. apply K in H. eapply Date_new_valid, H.
    + intros H. apply K in H. eapply Date_new_valid, H.
  - intros H. apply K in H. eapply Date_new_valid, H.
Qed.

Lemma valid_title_nonempty v s :
  valid_title v = Some s -> s <> "" /\ (js_length s <= 200)%nat.
Proof.
  unfold valid_title. destruct (castString v) as [[s0|]|]; try discriminate.
  destruct (String.eqb (trim s0) "") eqn:E; [discriminate|].
  destruct (Nat.leb (js_length (trim s0)) 200) eqn:L; [|discriminate].
  intros H. inversion H. subst. split.
  - now apply String.eqb_neq.
  - now apply Nat.leb_le.
Qed.

(** An absent [notes] or [advice] takes the empty text. *)
Lemma valid_text_absent : valid_text (js_or VUndefined (VJson (JStr ""))) = Some "".
Proof. reflexivity. Qed.

Lemma saveTask_inserts_ok taskInfo w doc w' :
  saveTask taskInfo w = (Returned doc, w') ->
  task_ok doc
  /\ valid_date (get_prop "date" taskInfo) = Some (date doc)
  /\ completed doc = false
  /\ (get_prop "notes" taskInfo = VUndefined -> notes doc = "")
  /\ (get_prop "advice" taskInfo = VUndefined -> advice doc = "")
  /\ db w' = (db w ++ [doc])%list.
Proof.
  intros H. apply saveTask_returns in H.
  destruct H as (Ht & Hd & Ha & Hn & Hc & _ & _ & Hdb & _).
  repeat split; auto.
  - now apply valid_title_nonempty in Ht.
  - eapply valid_date_valid, Hd.
  - intros E. rewrite E, valid_text_absent in Hn. congruence.
  - intros E. rewrite E, valid_text_absent in Ha. congruence.
Qed.

Lemma saveTask_preserves taskInfo w :
  Forall task_ok (db w) -> Forall task_ok (db (snd (saveTask taskInfo w))).
Proof.
  intros Hw. destruct (saveTask taskInfo w) as [[doc|e] w'] eqn:E; cbn.
  - apply saveTask_inserts_ok in E. destruct E as (Hok & _ & _ & _ & _ & ->).
    apply Forall_app. split; [exact Hw|]. now constructor.
  - apply saveTask_throws in E. destruct E as (_ & -> & _). exact Hw.
Qed.

Lemma getTasks_db filters w : db (snd (getTasks filters w)) = db w.
Proof.
  rewrite getTasks_eq. cbv zeta.
  destruct (_ || _)%bool; [reflexivity|].
  unfold Task_find_sort, bind, log, throw.
  match goal with |- context [cast_query ?q] => destruct (cast_query q) end;
    cbn; [destruct (connected w)|]; reflexivity.
Qed.

Lemma apply_updates_ok u cu t :
  cast_updates u = Some cu -> task_ok t -> task_ok (apply_updates cu t).
Proof.
  unfold cast_updates. intros H (Ht & Hd).
  destruct (set_title u) as [s|];
    [destruct (valid_title (VJson (JStr s))) as [s'|] eqn:Es; [|discriminate]|];
    (destruct (set_date u) as [x|];
     [destruct (valid_date (VJson (JStr x))) as [x'|] eqn:Ex; [|discriminate]|]);
    cbn in H; inversion H; subst; unfold apply_updates, task_ok; cbn;
    try apply valid_title_nonempty in Es; try apply valid_date_valid in Ex;
    tauto.
Qed.

Lemma replace_doc_ok t' l :
  task_ok t' -> Forall task_ok l -> Forall task_ok (replace_doc t' l).
Proof.
  intros Ht. induction 1 as [|x l Hx Hl IH]; cbn.
  - constructor.
  - destruct (Nat.eqb _ _); constructor; assumption.
Qed.

Lemma remove_doc_ok taskId l :
  Forall task_ok l -> Forall task_ok (remove_doc taskId l).
Proof.
  induction 1 as [|x l Hx Hl IH]; cbn.
  - constructor.
  - destruct (Nat.eqb _ _); [assumption|now constructor].
Qed.

Lemma updateTask_preserves taskId updates w :
  Forall task_ok (db w) ->
  Forall task_ok (db (snd (updateTask taskId updates w))).
Proof.
  intros Hw.
  unfold updateTask, try_catch, Task_findByIdAndUpdate, bind, log, throw, ret.
  destruct (cast_updates updates) as [cu|] eqn:Ec; [|exact Hw].
  cbn [set_calls connected db].
  destruct (connected w); [|exact Hw].
  destruct (findById taskId (db w)) as [t|] eqn:Ef; [|exact Hw].
  cbn. apply replace_doc_ok; [|exact Hw].
  eapply apply_updates_ok; [exact Ec|].
  rewrite Forall_forall in Hw. apply Hw.
  unfold findById in Ef. apply find_some in Ef. tauto.
Qed.

Lemma deleteTask_preserves taskId w :
  Forall task_ok (db w) -> Forall task_ok (db (snd (deleteTask taskId w))).
Proof.
  intros Hw.
  unfold deleteTask, try_catch, Task_findByIdAndDelete, bind, log, throw, ret.
  cbn [set_calls connected db].
  destruct (connected w); [|exact Hw].
  destruct (findById taskId (db w)) as [t|]; [|exact Hw].
  cbn. now apply remove_doc_ok.
Qed.

(** A run of [process] adds at most one record, through [saveTask]. *)
Lemma handleTask_db userMessage w :
  db (snd (handleTask userMessage w)) = db w
  \/ exists taskInfo w1 doc w2,
       saveTask taskInfo w1 = (Returned doc, w2) /\ db w1 = db w
       /\ db (snd (handleTask userMessage w)) = db w2.
Proof.
  rewrite handleTask_eq.
  destruct (extractTaskInfo userMessage w) as [[info|e] w1] eqn:He;
    apply extractTaskInfo_frame in He; destruct He as (E1 & _);
    [|left; exact E1].
  destruct (generateAdvice_total (get_prop "title" info) w1)
    as (a & w2 & -> & _ & G1 & _).
  destruct (saveTask _ w2) as [[doc|e] w3] eqn:Hs.
  - right. exists (set_prop "advice" (VJson (JStr a)) info), w2, doc, w3.
    split; [exact Hs|]. split; [congruence|].
    destruct (formatDate_returns (ValidDate (date doc)) w3) as (l & ->).
    reflexivity.
  - left. apply saveTask_throws in Hs. cbn. destruct Hs as (_ & -> & _).
    congruence.
Qed.

Lemma process_db userMessage w :
  db (snd (process userMessage w)) = db w
  \/ exists taskInfo w1 doc w2,
       saveTask taskInfo w1 = (Returned doc, w2) /\ db w1 = db w
       /\ db (snd (process userMessage w)) = db w2.
Proof.
  destruct (classify_total userMessage w) as (c & w1 & Hc & Hdb & _).
  destruct c as [|b|n|s|l|l] eqn:Ec.
  1: { left. unfold process, try_catch. rewrite (bind_Returned _ _ _ _ _ Hc).
       cbn. exact Hdb. }
  all: rewrite <- Ec in Hc; assert (Hn : c <> JNull) by (subst c; discriminate);
    destruct (truthy (member "isTask" c)) eqn:Ht.
  all: try (rewrite (process_task_branch _ _ _ _ Hc Hn Ht);
            destruct (handleTask_db userMessage w1)
              as [H | (info & w2 & doc & w3 & Hs & H1 & H2)];
            [left | right; exists info, w2, doc, w3];
            destruct (handleTask userMessage w1) as [[r|e] w']; cbn in *;
            try (split; [exact Hs|split]); congruence).
  all: left; rewrite (process_conversation_branch _ _ _ _ Hc Hn Ht);
    destruct (handleConversation_total userMessage w1)
      as (r & w' & -> & _ & _ & _ & H & _); cbn; congruence.
Qed.

Lemma process_preserves userMessage w :
  Forall task_ok (db w) -> Forall task_ok (db (snd (process userMessage w))).
Proof.
  intros Hw.
  destruct (process_db userMessage w)
    as [-> | (info & w1 & doc & w2 & Hs & H1 & ->)]; [exact Hw|].
  rewrite <- H1 in Hw. pose proof (saveTask_preserves info w1 Hw) as K.
  now rewrite Hs in K.
Qed.

(** C9.  A record enters the collection through [saveTask] only with a
    title that is not empty and a date that is valid (the date of the
    draft, cast); it enters with [completed] false, and with empty notes
    and advice where the draft has none.  Every operation on the store
    keeps all the records well formed, so that every record of every
    collection a deployment reaches has a non-empty title and a valid
    date. *)
Theorem persisted_tasks_well_formed :
  (forall taskInfo w doc w',
      saveTask taskInfo w = (Returned doc, w') ->
      title doc <> "" /\ Z.abs (date doc) <= maxTime
      /\ valid_date (get_prop "date" taskInfo) = Some (date doc)
      /\ completed doc = false
      /\ (get_prop "notes" taskInfo = VUndefined -> notes doc = "")
      /\ (get_prop "advice" taskInfo = VUndefined -> advice doc = "")
      /\ db w' = (db w ++ [doc])%list)
  /\ (forall w o, Forall task_ok (db w) -> Forall task_ok (db (run_op o w)))
  /\ (forall w, reachable w ->
                forall t, In t (db w) ->
                          title t <> "" /\ Z.abs (date t) <= maxTime).
Proof.
  assert (Hop : forall w o, Forall task_ok (db w) -> Forall task_ok (db (run_op o w))).
  { intros w [info|f|i u|i|m] Hw; cbn.
    - now apply saveTask_preserves.
    - now rewrite getTasks_db.
    - now apply updateTask_preserves.
    - now apply deleteTask_preserves.
    - now apply process_preserves. }
  split; [|split; [exact Hop|]].
  - intros info w doc w' H. apply saveTask_inserts_ok in H.
    destruct H as ((H1 & H2) & H3). tauto.
  - intros w Hr.
    assert (Hall : Forall task_ok (db w)).
    { induction Hr as [w H0 | w o Hr IH | w w' Hr IH Hdb].
      - rewrite H0. constructor.
      - now apply Hop.
      - now rewrite Hdb. }
    intros t Ht. rewrite Forall_forall in Hall. exact (Hall t Ht).
Qed.

(* ===================================================================== *)
(** ** What of the extracted object reaches the store and the caller *)
(* ===================================================================== *)

(** Of the draft that [handleTask] hands to [saveTask], the model receives
    the title and the notes of the extracted object, the converted date
    and the generated advice: no other member, and no [advice] member of
    the extracted object. *)
Lemma input_of_draft o d v :
  input_of (set_prop "advice" v (set_prop "date" d o))
  = mkTaskInput (get_prop "title" o) d
                (js_or (get_prop "notes" o) (VJson (JStr "")))
                (js_or v (VJson (JStr ""))).
Proof.
  unfold input_of.
  rewrite get_set_same.
  rewrite !(get_set_other _ "advice") by discriminate.
  rewrite get_set_same.
  rewrite !(get_set_other _ "date") by discriminate.
  reflexivity.
Qed.

(** Two drafts that give the model the same input are saved alike: the
    same outcome, the same collection, the same next id. *)
Lemma saveTask_same_input ia ib w :
  input_of ia = input_of ib ->
  fst (saveTask ia w) = fst (saveTask ib w)
  /\ db (snd (saveTask ia w)) = db (snd (saveTask ib w))
  /\ next_id (snd (saveTask ia w)) = next_id (snd (saveTask ib w))
  /\ clock (snd (saveTask ia w)) = clock (snd (saveTask ib w))
  /\ completions (snd (saveTask ia w)) = completions (snd (saveTask ib w)).
Proof.
  intros H. rewrite !saveTask_eq, H. cbv zeta.
  destruct (valid_title _); [|cbn; auto].
  destruct (valid_date _); [|cbn; auto].
  destruct (valid_text _); [|cbn; auto].
  destruct (valid_text _); [|cbn; auto].
  destruct (connected w); cbn; auto.
Qed.

(** C10.  Take two runs of [process] from the same world and on the same
    message, classified as a task, that differ only in the answer of the
    service to the extraction request; when the two answers parse to
    objects with the same title, date and notes members, the two runs
    return the same response and leave the same collection (and the same
    next id and the same answers to come): no other member of the
    extracted object reaches the caller or the store. *)
Theorem process_ignores_extra_fields
    userMessage w ctext c ra rb rest ja jb oa ob :
  aiClient w = true ->
  JSON_parse ctext = Some c ->
  c <> JNull ->
  truthy (member "isTask" c) = true ->
  JSON_parse ra = Some ja -> as_object ja = Some oa ->
  JSON_parse rb = Some jb -> as_object jb = Some ob ->
  get_prop "title" oa = get_prop "title" ob ->
  get_prop "date" oa = get_prop "date" ob ->
  get_prop "notes" oa = get_prop "notes" ob ->
  let wa := set_completions (Returned ctext :: Returned ra :: rest) w in
  let wb := set_completions (Returned ctext :: Returned rb :: rest) w in
  fst (process userMessage wa) = fst (process userMessage wb)
  /\ db (snd (process userMessage wa)) = db (snd (process userMessage wb))
  /\ next_id (snd (process userMessage wa))
     = next_id (snd (process userMessage wb))
  /\ completions (snd (process userMessage wa))
     = completions (snd (process userMessage wb)).
Proof.
  intros Ha Hp Hn Ht Hja Hoa Hjb Hob Etitle Edate Enotes wa wb.
  assert (Ca : classify userMessage wa
               = (Returned c, set_completions (Returned ra :: rest)
                                (sent getClassificationPrompt userMessage true wa)))
    by (apply (classify_parsed userMessage wa ctext); auto).
  assert (Cb : classify userMessage wb
               = (Returned c, set_completions (Returned rb :: rest)
                                (sent getClassificationPrompt userMessage true wb)))
    by (apply (classify_parsed userMessage wb ctext); auto).
  rewrite (process_task_branch _ _ _ _ Ca Hn Ht),
          (process_task_branch _ _ _ _ Cb Hn Ht).
  rewrite !handleTask_eq, !extractTaskInfo_eq, !sendMessage_eq.
  subst wa wb.
  cbn [aiClient completions set_completions set_calls sent clock calls
       db next_id connected].
  rewrite Ha, Hja, Hoa, Hjb, Hob.
  unfold sent, set_completions, set_calls.
  cbn [aiClient completions clock calls db next_id connected].
  rewrite Edate.
  destruct (ToString_throws (get_prop "date" ob)); [cbn; auto|].
  rewrite !(get_set_other "title" "date") by discriminate.
  rewrite <- Etitle.
  match goal with
  | |- context [generateAdvice ?t ?w2] =>
      destruct (generateAdvice_total t w2) as (a & w3 & -> & _)
  end.
  pose proof (saveTask_same_input
                (set_prop "advice" (VJson (JStr a))
                   (set_prop "date" (VDate (Date_new (get_prop "date" ob))) oa))
                (set_prop "advice" (VJson (JStr a))
                   (set_prop "date" (VDate (Date_new (get_prop "date" ob))) ob))
                w3) as K.
  rewrite !input_of_draft, Etitle, Enotes in K. specialize (K eq_refl).
  destruct K as (K1 & K2 & K3 & K4 & K5).
  destruct (saveTask _ w3) as [[da|ea] w4a];
    destruct (saveTask _ w3) as [[db0|eb] w4b]; cbn in K1, K2, K3, K4, K5;
    try discriminate.
  - inversion K1; subst db0.
    pose proof (formatDate_clock (ValidDate (date da)) w4a w4b K4) as L.
    destruct (formatDate_returns (ValidDate (date da)) w4a) as (la & Fa).
    destruct (formatDate_returns (ValidDate (date da)) w4b) as (lb & Fb).
    rewrite Fa, Fb in L |- *. cbn in L |- *. inversion L; subst. auto.
  - inversion K1; subst. cbn. auto.
Qed.

(* ===================================================================== *)
(** ** The errors of [process], [updateTask] and [deleteTask] *)
(* ===================================================================== *)

(** [process] never throws. *)
Lemma process_total userMessage w :
  exists r w', process userMessage w = (Returned r, w').
Proof.
  unfold process, try_catch.
  match goal with
  | |- context [bind ?c ?k w] => destruct (bind c k w) as [[r|e] w']
  end; do 2 eexists; reflexivity.
Qed.

(** A classification answer that parses to [null] is returned by
    [classify] as it is; reading its [isTask] throws, and [process]
    answers with the apology without entering either branch. *)
Lemma process_null_classification userMessage w s rest :
  aiClient w = true ->
  completions w = Returned s :: rest ->
  JSON_parse s = Some JNull ->
  process userMessage w
  = (Returned apology,
     set_completions rest (sent getClassificationPrompt userMessage true w)).
Proof.
  intros Ha Hc Hp. unfold process, try_catch.
  rewrite (bind_Returned _ _ _ _ _ (classify_parsed _ _ _ _ _ Ha Hc Hp)).
  reflexivity.
Qed.

(** Outside the task branch, that is the only way to the error response. *)
Lemma process_error_outside_task_branch userMessage w c w1 r w' :
  classify userMessage w = (Returned c, w1) ->
  process userMessage w = (Returned r, w') ->
  error r = Some true ->
  c = JNull \/ truthy (member "isTask" c) = true.
Proof.
  intros Hc Hp He.
  destruct c as [|b|n|s|l|l] eqn:Ec; [left; reflexivity|..].
  all: right; rewrite <- Ec in *;
    assert (Hn : c <> JNull) by (subst c; discriminate);
    destruct (truthy (member "isTask" c)) eqn:Ht; [reflexivity|];
    rewrite (process_conversation_branch _ _ _ _ Hc Hn Ht) in Hp;
    destruct (handleConversation_total userMessage w1)
      as (r0 & w0 & Hp0 & _ & _ & He0 & _);
    rewrite Hp in Hp0; inversion Hp0; subst; congruence.
Qed.

(** Whatever makes [updateTask] throw, it throws the same error: the
    [catch] of the function replaces the one thrown for an absent id. *)
Lemma updateTask_throws taskId updates w e w' :
  updateTask taskId updates w = (Thrown e, w') -> e = update_failure.
Proof.
  unfold updateTask, try_catch, bind.
  destruct (Task_findByIdAndUpdate taskId updates w) as [[[t|]|e0] w1]; cbn;
    intros H; inversion H; reflexivity.
Qed.

Lemma deleteTask_throws taskId w e w' :
  deleteTask taskId w = (Thrown e, w') -> e = delete_failure.
Proof.
  unfold deleteTask, try_catch, bind.
  destruct (Task_findByIdAndDelete taskId w) as [[[t|]|e0] w1]; cbn;
    intros H; inversion H; reflexivity.
Qed.

(** On an id that no record has, [updateTask] throws (when the updates are
    valid and the store answers), and leaves the collection as it was. *)
Lemma updateTask_absent taskId updates w cu :
  cast_updates updates = Some cu ->
  connected w = true ->
  findById taskId (db w) = None ->
  updateTask taskId updates w
  = (Thrown update_failure,
     set_calls (calls w ++ [Call_findByIdAndUpdate taskId]) w).
Proof.
  intros Hc Hco Hf.
  unfold updateTask, Task_findByIdAndUpdate, try_catch, bind, log.
  rewrite Hc. cbn [set_calls connected db]. rewrite Hco, Hf. reflexivity.
Qed.

Lemma deleteTask_absent taskId w :
  connected w = true ->
  findById taskId (db w) = None ->
  deleteTask taskId w
  = (Thrown delete_failure,
     set_calls (calls w ++ [Call_findByIdAndDelete taskId]) w).
Proof.
  intros Hco Hf.
  unfold deleteTask, Task_findByIdAndDelete, try_catch, bind, log.
  cbn [set_calls connected db]. rewrite Hco, Hf. reflexivity.
Qed.

(** A store that does not answer gives the very same errors. *)
Lemma updateTask_disconnected taskId updates w cu :
  cast_updates updates = Some cu ->
  connected w = false ->
  updateTask taskId updates w
  = (Thrown update_failure,
     set_calls (calls w ++ [Call_findByIdAndUpdate taskId]) w).
Proof.
  intros Hc Hco.
  unfold updateTask, Task_findByIdAndUpdate, try_catch, bind, log.
  rewrite Hc. cbn [set_calls connected db]. rewrite Hco. reflexivity.
Qed.

Lemma deleteTask_disconnected taskId w :
  connected w = false ->
  deleteTask taskId w
  = (Thrown delete_failure,
     set_calls (calls w ++ [Call_findByIdAndDelete taskId]) w).
Proof.
  intros Hco.
  unfold deleteTask, Task_findByIdAndDelete, try_catch, bind, log.
  cbn [set_calls connected db]. rewrite Hco. reflexivity.
Qed.

End Properties.

(* ===================================================================== *)
(** ** Further properties: trimmed texts *)
(* ===================================================================== *)

Lemma by_length (P : string -> Prop) :
  (forall s, (forall r, (String.length r < String.length s)%nat -> P r) -> P s) ->
  forall s, P s.
Proof.
  intros H s.
  assert (K : forall n r, (String.length r < n)%nat -> P r).
  { induction n as [|n IH]; intros r Hr; [lia|].
    apply H. intros r' Hr'. apply IH. lia. }
  apply (K (S (String.length s))). lia.
Qed.

Lemma trimStart_cons c1 rest1 :
  trimStart (String c1 rest1)
  = if is_space c1 then trimStart rest1
    else match rest1 with
         | EmptyString => String c1 rest1
         | String c2 rest2 =>
             if is_space2 c1 c2 then trimStart rest2
             else match rest2 with
                  | EmptyString => String c1 rest1
                  | String c3 rest3 =>
                      if is_space3 c1 c2 c3 then trimStart rest3
                      else String c1 rest1
                  end
         end.
Proof. reflexivity. Qed.

Lemma trimEnd_cons c r :
  trimEnd (String c r)
  = if all_space (String c r) then "" else String c (trimEnd r).
Proof. reflexivity. Qed.

(** What [trimStart] leaves does not start with white space. *)
Lemma trimStart_no_space s : starts_space (trimStart s) = false.
Proof.
  induction s as [s IH] using by_length.
  destruct s as [|c1 r1]; [reflexivity|].
  rewrite trimStart_cons.
  destruct (is_space c1) eqn:E1; [apply IH; cbn [String.length]; lia|].
  destruct r1 as [|c2 r2]; [cbn [starts_space]; now rewrite E1|].
  destruct (is_space2 c1 c2) eqn:E2; [apply IH; cbn [String.length]; lia|].
  destruct r2 as [|c3 r3]; [cbn [starts_space]; now rewrite E1, E2|].
  destruct (is_space3 c1 c2 c3) eqn:E3; [apply IH; cbn [String.length]; lia|].
  cbn [starts_space]. now rewrite E1, E2, E3.
Qed.

Lemma trimStart_fixed s : starts_space s = false -> trimStart s = s.
Proof.
  destruct s as [|c1 r1]; [reflexivity|].
  rewrite trimStart_cons. cbn [starts_space].
  destruct (is_space c1); [discriminate|]. cbn [orb].
  destruct r1 as [|c2 r2]; [reflexivity|].
  destruct (is_space2 c1 c2); [discriminate|]. cbn [orb].
  destruct r2 as [|c3 r3]; [reflexivity|].
  destruct (is_space3 c1 c2 c3); [discriminate|reflexivity].
Qed.

Lemma all_space_trimEnd s : all_space (trimEnd s) = all_space s.
Proof.
  induction s as [s IH] using by_length.
  destruct s as [|c1 r1]; [reflexivity|].
  rewrite trimEnd_cons.
  destruct (all_space (String c1 r1)) eqn:A; [reflexivity|].
  cbn [all_space] in A |- *.
  destruct (is_space c1) eqn:E1.
  { rewrite IH by (cbn [String.length]; lia). exact A. }
  destruct r1 as [|c2 r2]; [reflexivity|].
  rewrite trimEnd_cons.
  destruct (all_space (String c2 r2)) eqn:A2; [reflexivity|].
  destruct (is_space2 c1 c2) eqn:E2.
  { rewrite IH by (cbn [String.length]; lia). exact A. }
  destruct r2 as [|c3 r3]; [reflexivity|].
  rewrite trimEnd_cons.
  destruct (all_space (String c3 r3)) eqn:A3; [reflexivity|].
  rewrite IH by (cbn [String.length]; lia). exact A.
Qed.

Lemma trimEnd_trimEnd s : trimEnd (trimEnd s) = trimEnd s.
Proof.
  induction s as [|c s IH]; [reflexivity|].
  rewrite trimEnd_cons.
  destruct (all_space (String c s)) eqn:A; [reflexivity|].
  rewrite trimEnd_cons.
  assert (K : all_space (String c (trimEnd s)) = false).
  { rewrite <- A, <- (all_space_trimEnd (String c s)), trimEnd_cons, A.
    reflexivity. }
  now rewrite K, IH.
Qed.

(** [trimEnd] takes from the end only. *)
Lemma trimEnd_no_space s :
  starts_space s = false -> starts_space (trimEnd s) = false.
Proof.
  destruct s as [|c1 r1]; [reflexivity|].
  rewrite trimEnd_cons. destruct (all_space (String c1 r1)); [reflexivity|].
  cbn [starts_space]. intros H.
  apply orb_false_iff in H. destruct H as (E1 & H). rewrite E1. cbn [orb].
  destruct r1 as [|c2 r2]; [reflexivity|].
  rewrite trimEnd_cons. destruct (all_space (String c2 r2)); [reflexivity|].
  apply orb_false_iff in H. destruct H as (E2 & H). rewrite E2. cbn [orb].
  destruct r2 as [|c3 r3]; [reflexivity|].
  rewrite trimEnd_cons. destruct (all_space (String c3 r3)); [reflexivity|].
  exact H.
Qed.

(** A trimmed text has nothing left to trim on either side. *)
Lemma trim_trimmed s :
  trimStart (trim s) = trim s /\ trimEnd (trim s) = trim s
  /\ trim (trim s) = trim s.
Proof.
  assert (H1 : trimStart (trim s) = trim s)
    by (apply trimStart_fixed, trimEnd_no_space, trimStart_no_space).
  assert (H2 : trimEnd (trim s) = trim s) by apply trimEnd_trimEnd.
  split; [exact H1|]. split; [exact H2|].
  unfold trim at 1. now rewrite H1.
Qed.

(** A trimmed text neither starts nor ends with white space: it is not
    white space from end to end unless it is empty, and no white space
    stands at its head. *)
Lemma trim_no_space s :
  starts_space (trim s) = false /\ (all_space (trim s) = true -> trim s = "").
Proof.
  split; [apply trimEnd_no_space, trimStart_no_space|].
  unfold trim. rewrite all_space_trimEnd.
  destruct (trimStart s) as [|c r]; [reflexivity|].
  rewrite trimEnd_cons. now intros ->.
Qed.

Lemma js_length_zero s : Nat.eqb (js_length s) 0 = String.eqb s "".
Proof.
  destruct s as [|c r]; [reflexivity|]. cbn [js_length String.eqb].
  repeat match goal with
         | |- context [if ?b then _ else _] => destruct b
         | |- context [match ?x with EmptyString => _ | String _ _ => _ end] =>
             destruct x
         end; reflexivity.
Qed.

Lemma fallback_advice_trimmed : trim fallback_advice = fallback_advice.
Proof. vm_compute. reflexivity. Qed.

Lemma weekdayName_cases w :
  In (weekdayName w)
     ["Sunday"; "Monday"; "Tuesday"; "Wednesday"; "Thursday"; "Friday";
      "Saturday"].
Proof.
  unfold weekdayName.
  repeat match goal with
         | |- context [match ?x with _ => _ end] => destruct x
         end; cbn; auto 10.
Qed.

(** The long form of a date is neither of the two short labels. *)
Lemma longDate_not_short day :
  longDate day <> "today" /\ longDate day <> "tomorrow".
Proof.
  unfold longDate. destruct (civil_from_days day) as [[y m] d].
  pose proof (weekdayName_cases (WeekDay day)) as H. cbn in H.
  destruct H as [<-|[<-|[<-|[<-|[<-|[<-|[<-|[]]]]]]]]; cbn;
    split; discriminate.
Qed.

(* ===================================================================== *)
(** ** Further properties: the store behind the tools *)
(* ===================================================================== *)

Section Store.

Context {P : Platform}.

Local Opaque getClassificationPrompt getExtractionPrompt getAdvicePrompt
  getConversationalPrompt toISOString trim.

Lemma findById_fresh n l :
  Forall (fun t => (_id t < n)%nat) l -> findById n l = None.
Proof.
  unfold findById. induction 1 as [|x l Hx Hl IH]; cbn; [reflexivity|].
  destruct (Nat.eqb_spec (_id x) n); [lia|exact IH].
Qed.

Lemma findById_app id l doc :
  findById id (l ++ [doc])
  = match findById id l with
    | Some t => Some t
    | None => if Nat.eqb (_id doc) id then Some doc else None
    end.
Proof.
  unfold findById. induction l as [|x l IH]; cbn; [reflexivity|].
  destruct (Nat.eqb (_id x) id); [reflexivity|exact IH].
Qed.

Lemma findById_id id l t : findById id l = Some t -> _id t = id /\ In t l.
Proof.
  unfold findById. intros H. apply find_some in H. destruct H as (Hin & He).
  split; [now apply Nat.eqb_eq|exact Hin].
Qed.

Lemma findById_replace id l t t' :
  findById id l = Some t -> _id t' = id ->
  findById id (replace_doc t' l) = Some t'.
Proof.
  unfold findById. intros H <-. induction l as [|x l IH]; cbn in *; [discriminate|].
  destruct (Nat.eqb (_id x) (_id t')) eqn:E; cbn.
  - now rewrite Nat.eqb_refl.
  - rewrite E. now apply IH.
Qed.

Lemma findById_replace_other id t' l :
  id <> _id t' -> findById id (replace_doc t' l) = findById id l.
Proof.
  unfold findById. intros Hn. induction l as [|x l IH]; cbn; [reflexivity|].
  destruct (Nat.eqb_spec (_id x) (_id t')) as [E|E]; cbn.
  - destruct (Nat.eqb_spec (_id t') id); [congruence|].
    destruct (Nat.eqb_spec (_id x) id); [congruence|reflexivity].
  - destruct (Nat.eqb (_id x) id); [reflexivity|exact IH].
Qed.

Lemma replace_doc_ids t' l : map _id (replace_doc t' l) = map _id l.
Proof.
  induction l as [|x l IH]; cbn; [reflexivity|].
  destruct (Nat.eqb_spec (_id x) (_id t')) as [E|E]; cbn; congruence.
Qed.

Lemma replace_doc_length t' l : List.length (replace_doc t' l) = List.length l.
Proof.
  rewrite <- (length_map _id (replace_doc t' l)), replace_doc_ids.
  apply length_map.
Qed.

Lemma findById_remove_other id id' l :
  id' <> id -> findById id' (remove_doc id l) = findById id' l.
Proof.
  unfold findById. intros Hn. induction l as [|x l IH]; cbn; [reflexivity|].
  destruct (Nat.eqb_spec (_id x) id) as [E|E]; cbn.
  - destruct (Nat.eqb_spec (_id x) id'); [congruence|reflexivity].
  - destruct (Nat.eqb (_id x) id'); [reflexivity|exact IH].
Qed.

Lemma remove_doc_incl id l t : In t (remove_doc id l) -> In t l.
Proof.
  induction l as [|x l IH]; cbn; [auto|].
  destruct (Nat.eqb (_id x) id); cbn; intuition.
Qed.

Lemma remove_doc_ids_incl id l n :
  In n (map _id (remove_doc id l)) -> In n (map _id l).
Proof.
  rewrite !in_map_iff. intros (t & H & Hin). exists t. split; [exact H|].
  eapply remove_doc_incl, Hin.
Qed.

Lemma remove_doc_NoDup id l :
  NoDup (map _id l) -> NoDup (map _id (remove_doc id l)).
Proof.
  induction l as [|x l IH]; cbn; [auto|].
  intros H. inversion H as [|? ? Hx Hl]; subst.
  destruct (Nat.eqb (_id x) id); cbn; [exact Hl|].
  constructor; [|now apply IH].
  intros Hin. apply Hx. eapply remove_doc_ids_incl, Hin.
Qed.

Lemma findById_remove id l :
  NoDup (map _id l) -> findById id (remove_doc id l) = None.
Proof.
  unfold findById. induction l as [|x l IH]; cbn; [reflexivity|].
  intros H. inversion H as [|? ? Hx Hl]; subst.
  destruct (Nat.eqb_spec (_id x) id) as [E|E]; cbn.
  - destruct (find (fun t => Nat.eqb (_id t) id) l) as [t|] eqn:F;
      [|reflexivity].
    apply find_some in F. destruct F as (Hin & He). apply Nat.eqb_eq in He.
    exfalso. apply Hx. rewrite E, <- He. now apply in_map.
  - destruct (Nat.eqb_spec (_id x) id); [congruence|now apply IH].
Qed.

Lemma remove_doc_length id l t :
  findById id l = Some t -> S (List.length (remove_doc id l)) = List.length l.
Proof.
  unfold findById. induction l as [|x l IH]; cbn; [discriminate|].
  destruct (Nat.eqb (_id x) id); cbn; [reflexivity|].
  intros H. now rewrite IH.
Qed.

Lemma remove_doc_last id l doc :
  findById id l = None -> _id doc = id -> remove_doc id (l ++ [doc]) = l.
Proof.
  unfold findById. intros H <-. induction l as [|x l IH]; cbn in *.
  - now rewrite Nat.eqb_refl.
  - destruct (Nat.eqb (_id x) (_id doc)); [discriminate|].
    now rewrite IH.
Qed.

(** [updateTask], step by step. *)
Lemma updateTask_eq taskId updates w :
  updateTask taskId updates w =
  let w1 := set_calls (calls w ++ [Call_findByIdAndUpdate taskId]) w in
  match cast_updates updates with
  | None => (Thrown update_failure, w1)
  | Some cu =>
      if connected w
      then match findById taskId (db w) with
           | None => (Thrown update_failure, w1)
           | Some t =>
               (Returned (apply_updates cu t),
                set_db (replace_doc (apply_updates cu t) (db w)) w1)
           end
      else (Thrown update_failure, w1)
  end.
Proof.
  unfold updateTask, Task_findByIdAndUpdate, try_catch, bind, log, throw, ret.
  destruct (cast_updates updates) as [cu|]; [|reflexivity].
  cbn [set_calls connected db]. cbv zeta.
  destruct (connected w); [|reflexivity].
  destruct (findById taskId (db w)); reflexivity.
Qed.

(** [deleteTask], step by step. *)
Lemma deleteTask_eq taskId w :
  deleteTask taskId w =
  let w1 := set_calls (calls w ++ [Call_findByIdAndDelete taskId]) w in
  if connected w
  then match findById taskId (db w) with
       | None => (Thrown delete_failure, w1)
       | Some t => (Returned true, set_db (remove_doc taskId (db w)) w1)
       end
  else (Thrown delete_failure, w1).
Proof.
  unfold deleteTask, Task_findByIdAndDelete, try_catch, bind, log, throw, ret.
  cbn [set_calls connected db]. cbv zeta.
  destruct (connected w); [|reflexivity].
  destruct (findById taskId (db w)); reflexivity.
Qed.

(** X1.  When [saveTask] returns a record under an id that no record
    had, a lookup of this id then gives the record, every other lookup is
    as before, and the collection has one record more. *)
Theorem saveTask_then_findById taskInfo w doc w' :
  saveTask taskInfo w = (Returned doc, w') ->
  findById (_id doc) (db w) = None ->
  findById (_id doc) (db w') = Some doc
  /\ (forall id, id <> _id doc -> findById id (db w') = findById id (db w))
  /\ List.length (db w') = S (List.length (db w)).
Proof.
  intros Hs Hnone. apply saveTask_returns in Hs.
  destruct Hs as (_ & _ & _ & _ & _ & _ & _ & Hdb & _).
  rewrite Hdb.
  split; [rewrite findById_app, Hnone, Nat.eqb_refl; reflexivity|].
  split; [|rewrite length_app; cbn; lia].
  intros id Hn. rewrite findById_app.
  destruct (findById id (db w)); [reflexivity|].
  destruct (Nat.eqb_spec (_id doc) id); [congruence|reflexivity].
Qed.

(** X2.  What a successful [updateTask] has done, for an update whose
    fields have the types of the schema ([completed] a boolean, [title],
    [date] and [notes] texts): the record of this id, and no other, is
    replaced by one with the same id, advice and creation time, where
    each field the update supplies has its new value (the title trimmed,
    the date cast) and each other field its old one; the updated record
    is what a lookup of the id now gives, and the collection has as many
    records as before. *)
Theorem updateTask_updates_one taskId updates w t' w' :
  updateTask taskId updates w = (Returned t', w') ->
  exists t,
    findById taskId (db w) = Some t
    /\ _id t' = taskId /\ advice t' = advice t /\ createdAt t' = createdAt t
    /\ completed t' = or_else (set_completed updates) (completed t)
    /\ notes t' = or_else (set_notes updates) (notes t)
    /\ title t' = or_else (option_map trim (set_title updates)) (title t)
    /\ match set_date updates with
       | Some s => valid_date (VJson (JStr s)) = Some (date t')
       | None => date t' = date t
       end
    /\ findById taskId (db w') = Some t'
    /\ (forall id, id <> taskId -> findById id (db w') = findById id (db w))
    /\ List.length (db w') = List.length (db w).
Proof.
  rewrite updateTask_eq. cbv zeta.
  destruct (cast_updates updates) as [cu|] eqn:Ec; [|discriminate].
  destruct (connected w); [|discriminate].
  destruct (findById taskId (db w)) as [t|] eqn:Ef; [|discriminate].
  intros H. inversion H; subst t' w'; clear H. exists t.
  pose proof (findById_id _ _ _ Ef) as (Hid & _).
  assert (Hid' : _id (apply_updates cu t) = taskId)
    by (destruct cu as [[[c ti] d] n]; exact Hid).
  split; [reflexivity|]. cbn [db set_db set_calls].
  unfold cast_updates in Ec.
  destruct updates as [uc ut ud un]. cbn [set_completed set_title set_date set_notes] in *.
  assert (Ht : forall s x, valid_title (VJson (JStr s)) = Some x -> x = trim s).
  { intros s x. unfold valid_title. cbn.
    destruct (String.eqb (trim s) ""); [discriminate|].
    destruct (Nat.leb _ _); [|discriminate]. intros K. now inversion K. }
  destruct ut as [s|];
    [destruct (valid_title (VJson (JStr s))) as [x|] eqn:Ex; [|discriminate];
     apply Ht in Ex; subst x|];
    (destruct ud as [y|];
     [destruct (valid_date (VJson (JStr y))) as [z|] eqn:Ez; [|discriminate]|]);
    cbn in Ec; inversion Ec; subst cu; clear Ec; cbn;
    repeat split; auto;
    try (eapply findById_replace; [exact Ef|exact Hid]);
    try (intros id Hn; apply findById_replace_other; cbn; congruence);
    try apply replace_doc_length.
Qed.

(** X3.  For an update whose fields have the types of the schema
    ([completed] a boolean, [title], [date] and [notes] texts),
    [updateTask] throws exactly when the update supplies a title that is
    blank or longer than 200 code units once trimmed, or a date that the
    schema does not cast to a valid date, or the store does not answer,
    or no record has the id; it then throws the one generic error and the
    collection is as before. *)
Theorem updateTask_fails_iff taskId updates w :
  ((exists e w', updateTask taskId updates w = (Thrown e, w'))
   <-> ((exists s, set_title updates = Some s
                   /\ (trim s = "" \/ (200 < js_length (trim s))%nat))
        \/ (exists s, set_date updates = Some s
                      /\ valid_date (VJson (JStr s)) = None)
        \/ connected w = false
        \/ findById taskId (db w) = None))
  /\ (forall e w', updateTask taskId updates w = (Thrown e, w') ->
                   e = Error "Failed to update task" /\ db w' = db w).
Proof.
  assert (Hc : cast_updates updates = None
               <-> ((exists s, set_title updates = Some s
                               /\ (trim s = ""
                                   \/ (200 < js_length (trim s))%nat))
                    \/ (exists s, set_date updates = Some s
                                  /\ valid_date (VJson (JStr s)) = None))).
  { unfold cast_updates. destruct updates as [uc ut ud un].
    cbn [set_completed set_title set_date set_notes].
    assert (Ht : forall s, valid_title (VJson (JStr s)) = None
                           <-> (trim s = ""
                                \/ (200 < js_length (trim s))%nat)).
    { intros s. unfold valid_title. cbn.
      destruct (String.eqb_spec (trim s) "") as [E|E]; [tauto|].
      destruct (Nat.leb_spec (js_length (trim s)) 200); split;
        try discriminate; try tauto; intros [?|?]; try contradiction; lia. }
    destruct ut as [s|].
    - destruct (valid_title (VJson (JStr s))) as [x|] eqn:Ex.
      + assert (Hno : ~ (trim s = "" \/ (200 < js_length (trim s))%nat))
          by (rewrite <- Ht, Ex; discriminate).
        destruct ud as [y|].
        * destruct (valid_date (VJson (JStr y))) as [z|] eqn:Ez; cbn.
          -- split; [discriminate|].
             intros [(s0 & K & H)|(s0 & K & H)]; inversion K; subst;
               [contradiction|congruence].
          -- split; [|reflexivity]. intros _. right. eauto.
        * cbn. split; [discriminate|].
          intros [(s0 & K & H)|(s0 & K & H)]; inversion K; subst.
          contradiction.
      + cbn. split; [|reflexivity]. intros _. left. exists s.
        split; [reflexivity|]. now apply Ht.
    - destruct ud as [y|].
      + destruct (valid_date (VJson (JStr y))) as [z|] eqn:Ez; cbn.
        * split; [discriminate|].
          intros [(s0 & K & H)|(s0 & K & H)]; inversion K; subst. congruence.
        * split; [|reflexivity]. intros _. right. eauto.
      + cbn. split; [discriminate|].
        intros [(s0 & K & H)|(s0 & K & H)]; discriminate. }
  rewrite updateTask_eq. cbv zeta. split.
  - destruct (cast_updates updates) as [cu|] eqn:Ec.
    + assert (Hv : ~ ((exists s, set_title updates = Some s
                                 /\ (trim s = ""
                                     \/ (200 < js_length (trim s))%nat))
                      \/ (exists s, set_date updates = Some s
                                    /\ valid_date (VJson (JStr s)) = None)))
        by (rewrite <- Hc; discriminate).
      destruct (connected w).
      * destruct (findById taskId (db w)) as [t|].
        -- split; [intros (e & w' & K); discriminate|].
           intros [H|[H|[H|H]]]; try discriminate; exfalso; tauto.
        -- split; [auto|]. intros _. do 2 eexists; reflexivity.
      * split; [auto|]. intros _. do 2 eexists; reflexivity.
    + split; [|intros _; do 2 eexists; reflexivity].
      intros _. pose proof (proj1 Hc eq_refl) as K. tauto.
  - intros e w'.
    destruct (cast_updates updates) as [cu|];
      [destruct (connected w); [destruct (findById taskId (db w))|]|];
      intros K; inversion K; subst; auto.
Qed.

(** X4.  What a successful [deleteTask] has done: it returns [true], one
    record of this id is gone and every other lookup is as before; when
    no two records share an id, the id is no longer found and deleting it
    again throws. *)
Theorem deleteTask_removes_one taskId w b w' :
  deleteTask taskId w = (Returned b, w') ->
  b = true
  /\ (exists t, findById taskId (db w) = Some t)
  /\ S (List.length (db w')) = List.length (db w)
  /\ (forall t, In t (db w') -> In t (db w))
  /\ (forall id, id <> taskId -> findById id (db w') = findById id (db w))
  /\ (NoDup (map _id (db w)) ->
      findById taskId (db w') = None
      /\ fst (deleteTask taskId w') = Thrown (Error "Failed to delete task")).
Proof.
  rewrite deleteTask_eq. cbv zeta.
  destruct (connected w) eqn:Hco; [|discriminate].
  destruct (findById taskId (db w)) as [t|] eqn:Ef; [|discriminate].
  intros H. inversion H; subst b w'; clear H. cbn [db set_db set_calls].
  split; [reflexivity|]. split; [eauto|].
  split; [eapply remove_doc_length, Ef|].
  split; [intros x; apply remove_doc_incl|].
  split; [intros id Hn; now apply findById_remove_other|].
  intros Hnd. pose proof (findById_remove taskId (db w) Hnd) as Hr.
  split; [exact Hr|].
  rewrite deleteTask_eq. cbv zeta. cbn [connected db set_db set_calls].
  rewrite Hco, Hr. reflexivity.
Qed.

(** X5.  [deleteTask] throws exactly when the store does not answer or no
    record has the id, the same error in both cases, and the collection
    is as before. *)
Theorem deleteTask_fails_iff taskId w :
  ((exists e w', deleteTask taskId w = (Thrown e, w'))
   <-> (connected w = false \/ findById taskId (db w) = None))
  /\ (forall e w', deleteTask taskId w = (Thrown e, w') ->
                   e = Error "Failed to delete task" /\ db w' = db w).
Proof.
  rewrite deleteTask_eq. cbv zeta. split.
  - destruct (connected w); [destruct (findById taskId (db w)) as [t|]|].
    + split; [intros (e & w' & K); discriminate|].
      intros [H|H]; discriminate.
    + split; [auto|]. intros _. do 2 eexists; reflexivity.
    + split; [auto|]. intros _. do 2 eexists; reflexivity.
  - intros e w'.
    destruct (connected w); [destruct (findById taskId (db w))|];
      intros K; inversion K; subst; auto.
Qed.

(** X6.  Saving a task and deleting the record returned gives back the
    collection there was (in a store whose ids are fresh). *)
Theorem saveTask_then_deleteTask taskInfo w doc w1 :
  ids_fresh w ->
  saveTask taskInfo w = (Returned doc, w1) ->
  exists w2,
    deleteTask (_id doc) w1 = (Returned true, w2) /\ db w2 = db w.
Proof.
  intros (Hnd & Hlt). rewrite saveTask_eq. cbv zeta.
  destruct (valid_title _) as [t|]; [|discriminate].
  destruct (valid_date _) as [d|]; [|discriminate].
  destruct (valid_text _) as [a|]; [|discriminate].
  destruct (valid_text _) as [n|]; [|discriminate].
  destruct (connected w) eqn:Hco; [|discriminate].
  intros H. inversion H; subst doc w1; clear H.
  rewrite deleteTask_eq. cbv zeta.
  cbn [connected db set_db set_calls set_next_id _id]. rewrite Hco.
  rewrite findById_app, (findById_fresh _ _ Hlt). cbn [_id].
  rewrite Nat.eqb_refl. eexists. split; [reflexivity|].
  cbn [db set_db set_calls].
  apply remove_doc_last; [now apply findById_fresh|reflexivity].
Qed.

Lemma getTasks_store filters w :
  db (snd (getTasks filters w)) = db w
  /\ next_id (snd (getTasks filters w)) = next_id w.
Proof.
  rewrite getTasks_eq. cbv zeta.
  destruct (_ || _)%bool; [auto|].
  unfold Task_find_sort, bind, log, throw.
  match goal with |- context [cast_query ?q] => destruct (cast_query q) end;
    cbn; [destruct (connected w)|]; auto.
Qed.

(** The ways [handleTask] ends: it throws and the store is as it was, or
    it returns the confirmation of the record [saveTask] has just
    returned. *)
Lemma handleTask_cases userMessage w :
  (exists e w', handleTask userMessage w = (Thrown e, w')
                /\ (e = extraction_failure \/ e = save_failure)
                /\ db w' = db w /\ next_id w' = next_id w)
  \/ (exists taskInfo w1 doc w2 l a,
         saveTask taskInfo w1 = (Returned doc, w2)
         /\ db w1 = db w /\ next_id w1 = next_id w
         /\ connected w1 = connected w
         /\ handleTask userMessage w = (Returned (confirmation doc l a), w2)).
Proof.
  rewrite handleTask_eq.
  destruct (extractTaskInfo userMessage w) as [[info|e] w1] eqn:He.
  2: { left. pose proof (extractTaskInfo_throws _ _ _ _ He) as ->.
       apply extractTaskInfo_frame in He. destruct He as (E1 & E2 & _).
       do 2 eexists. split; [reflexivity|]. auto. }
  apply extractTaskInfo_frame in He. destruct He as (E1 & E2 & E3 & _).
  destruct (generateAdvice_total (get_prop "title" info) w1)
    as (a & w2 & -> & _ & G1 & G2 & G3 & _).
  destruct (saveTask _ w2) as [[doc|e] w3] eqn:Hs.
  - right. destruct (formatDate_returns (ValidDate (date doc)) w3) as (l & ->).
    exists (set_prop "advice" (VJson (JStr a)) info), w2, doc, w3, l, a.
    repeat split; try congruence.
  - left. apply saveTask_throws in Hs. destruct Hs as (-> & S1 & S2 & _).
    do 2 eexists. split; [reflexivity|]. repeat split; auto; congruence.
Qed.

(** The ways [process] ends. *)
Lemma process_cases userMessage w :
  (exists w', process userMessage w = (Returned apology, w')
              /\ db w' = db w /\ next_id w' = next_id w)
  \/ (exists r w', process userMessage w = (Returned r, w')
                   /\ isTask r = Some false /\ task r = None /\ error r = None
                   /\ db w' = db w /\ next_id w' = next_id w)
  \/ (exists taskInfo w1 doc w2 l a,
         saveTask taskInfo w1 = (Returned doc, w2)
         /\ db w1 = db w /\ next_id w1 = next_id w
         /\ connected w1 = connected w
         /\ process userMessage w = (Returned (confirmation doc l a), w2)).
Proof.
  destruct (classify_total userMessage w)
    as (c & w1 & Hc & Hdb & Hid & Hco & _).
  destruct c as [|b|n|s|l|l] eqn:Ec.
  1: { left. unfold process, try_catch. rewrite (bind_Returned _ _ _ _ _ Hc).
       eexists. split; [reflexivity|]. auto. }
  all: rewrite <- Ec in Hc; assert (Hn : c <> JNull) by (subst c; discriminate);
    destruct (truthy (member "isTask" c)) eqn:Ht.
  all: try (rewrite (process_task_branch _ _ _ _ Hc Hn Ht);
            destruct (handleTask_cases userMessage w1)
              as [(e & w' & -> & _ & H1 & H2)
                 |(info & w2 & doc & w3 & l0 & a & Hs & H1 & H2 & H3 & ->)];
            [left; eexists; split; [reflexivity|split; congruence]
            |right; right; exists info, w2, doc, w3, l0, a;
             repeat split; congruence]).
  all: right; left; rewrite (process_conversation_branch _ _ _ _ Hc Hn Ht);
    destruct (handleConversation_total userMessage w1)
      as (r & w' & -> & Hi & Hta & He & H1 & H2 & _);
    exists r, w'; repeat split; congruence.
Qed.

(** X8.  [process] never throws, and ends in one of three ways: with the
    apology, the collection as it was; with an [isTask: false] response,
    the collection as it was; or with an [isTask: true] response that
    shows the one record the run has appended to the collection, which
    has the next id of the store and is not completed.  So a record is
    stored exactly when the response says [isTask: true], and no run
    removes or changes a record. *)
Theorem process_outcomes userMessage w :
  exists r w',
    process userMessage w = (Returned r, w')
    /\ ((r = apology /\ db w' = db w)
        \/ (isTask r = Some false /\ task r = None /\ error r = None
            /\ db w' = db w)
        \/ (exists doc,
               isTask r = Some true /\ error r = None
               /\ task r = Some (mkTaskView (_id doc) (title doc) (date doc)
                                            (notes doc) (advice doc))
               /\ db w' = (db w ++ [doc])%list
               /\ _id doc = next_id w /\ completed doc = false)).
Proof.
  destruct (process_cases userMessage w)
    as [(w' & -> & E1 & E2)
       |[(r & w' & -> & Hi & Ht & He & E1 & E2)
        |(info & w1 & doc & w2 & l & a & Hs & E1 & E2 & _ & ->)]].
  - do 2 eexists. split; [reflexivity|]. left. auto.
  - do 2 eexists. split; [reflexivity|]. right. left. auto.
  - do 2 eexists. split; [reflexivity|]. right. right. exists doc.
    apply saveTask_returns in Hs.
    destruct Hs as (_ & _ & _ & _ & Hc & Hid & _ & Hdb & _).
    cbn. repeat split; congruence.
Qed.

(** X9.  While the store does not answer, [process] stores nothing and
    never answers [isTask: true]: a message classified as a task gets the
    apology. *)
Theorem process_store_down userMessage w :
  connected w = false ->
  exists r w',
    process userMessage w = (Returned r, w')
    /\ db w' = db w
    /\ isTask r <> Some true
    /\ (forall c w1,
           classify userMessage w = (Returned c, w1) ->
           c <> JNull -> truthy (member "isTask" c) = true ->
           r = apology).
Proof.
  intros Hco.
  destruct (process_cases userMessage w)
    as [(w' & Hp & E1 & E2)
       |[(r & w' & Hp & Hi & Ht & He & E1 & E2)
        |(info & w1 & doc & w2 & l & a & Hs & E1 & E2 & E3 & Hp)]].
  - do 2 eexists. split; [exact Hp|]. split; [exact E1|].
    split; [discriminate|]. reflexivity.
  - do 2 eexists. split; [exact Hp|]. split; [exact E1|].
    split; [rewrite Hi; discriminate|].
    intros c w1 Hc Hn Htr.
    rewrite (process_task_branch _ _ _ _ Hc Hn Htr) in Hp.
    destruct (handleTask_cases userMessage w1)
      as [(e & w3 & K & _) | (info & w2 & doc & w3 & l & a & Hs & F1 & F2 & F3 & K)];
      rewrite K in Hp.
    + now inversion Hp.
    + apply saveTask_returns in Hs.
      destruct Hs as (_ & _ & _ & _ & _ & _ & _ & _ & _ & Hcon & _).
      destruct (classify_total userMessage w) as (c' & w1' & Hc' & _ & _ & C3 & _).
      rewrite Hc in Hc'. inversion Hc'; subst. congruence.
  - apply saveTask_returns in Hs.
    destruct Hs as (_ & _ & _ & _ & _ & _ & _ & _ & _ & Hcon & _).
    congruence.
Qed.

(** X10.  The title [saveTask] stores is the title of the draft, cast to
    a text and trimmed: it has no white space left on either side (none
    of the white space and line terminators of the language, U+00A0 and
    U+FEFF included), is not empty and has at most 200 code units. *)
Theorem saveTask_title_trimmed taskInfo w doc w' :
  saveTask taskInfo w = (Returned doc, w') ->
  exists s,
    castString (get_prop "title" taskInfo) = CastTo (Some s)
    /\ title doc = trim s
    /\ trimStart (title doc) = title doc /\ trimEnd (title doc) = title doc
    /\ title doc <> "" /\ (js_length (title doc) <= 200)%nat.
Proof.
  intros Hs. apply saveTask_returns in Hs. destruct Hs as (Ht & _).
  pose proof (valid_title_nonempty _ _ Ht) as (Hne & Hlen).
  unfold valid_title in Ht.
  destruct (castString (get_prop "title" taskInfo)) as [[s|]|]; try discriminate.
  destruct (String.eqb (trim s) ""); [discriminate|].
  destruct (Nat.leb _ _); [|discriminate].
  inversion Ht as [E]. exists s. rewrite <- E in *.
  destruct (trim_trimmed s) as (H1 & H2 & _). auto 7.
Qed.

(** X11.  A draft whose title is absent, [null] or blank, or whose date is
    absent, [null], the empty text or the Invalid Date, is refused:
    [saveTask] throws its error and the collection is as before. *)
Theorem saveTask_refuses_incomplete taskInfo w :
  (get_prop "title" taskInfo = VUndefined
   \/ get_prop "title" taskInfo = VJson JNull
   \/ (exists s, get_prop "title" taskInfo = VJson (JStr s) /\ trim s = "")
   \/ get_prop "date" taskInfo = VUndefined
   \/ get_prop "date" taskInfo = VJson JNull
   \/ get_prop "date" taskInfo = VJson (JStr "")
   \/ get_prop "date" taskInfo = VDate InvalidDate) ->
  fst (saveTask taskInfo w) = Thrown (Error "Failed to save task to database")
  /\ db (snd (saveTask taskInfo w)) = db w
  /\ next_id (snd (saveTask taskInfo w)) = next_id w.
Proof.
  intros H. rewrite saveTask_eq. unfold input_of.
  cbn [in_title in_date in_advice in_notes]. cbv zeta.
  assert (K : valid_title (get_prop "title" taskInfo) = None
              \/ valid_date (get_prop "date" taskInfo) = None).
  { destruct H as [-> | [-> | [(s & -> & E) | [-> | [-> | [-> | ->]]]]]]; auto.
    left. unfold valid_title. cbn. now rewrite E. }
  destruct (valid_title _) as [t|]; [|cbn; auto].
  destruct (valid_date _) as [d|]; [|cbn; auto].
  destruct K; discriminate.
Qed.

(** X12.  [generateAdvice] never throws, and its result has no white
    space left on either side.  When the title has a text to put in the
    request, the result is the answer of the service, trimmed, or the
    fixed advice when the call of the service fails; when the title is an
    object that cannot be converted to a text, it is the fixed advice and
    no request is made. *)
Theorem generateAdvice_trimmed taskTitle w :
  exists a w',
    generateAdvice taskTitle w = (Returned a, w')
    /\ trim a = a
    /\ (completion_fails w = true -> a = fallback_advice)
    /\ (ToString_throws taskTitle = true ->
        a = fallback_advice /\ completions w' = completions w
        /\ calls w' = (calls w ++ [Call_generateAdvice taskTitle])%list)
    /\ (forall s rest,
           ToString_throws taskTitle = false ->
           aiClient w = true ->
           completions w = Returned s :: rest ->
           a = trim s /\ completions w' = rest)
    /\ db w' = db w.
Proof.
  rewrite generateAdvice_eq. cbv zeta.
  destruct (ToString_throws taskTitle).
  { do 2 eexists. split; [reflexivity|].
    split; [apply fallback_advice_trimmed|]. cbn.
    repeat split; auto; discriminate. }
  rewrite sendMessage_eq. unfold completion_fails.
  cbn [aiClient completions set_calls].
  destruct (aiClient w); [destruct (completions w) as [|[s|e] rest]|];
    do 2 eexists; (split; [reflexivity|]);
    (split; [first [apply fallback_advice_trimmed | apply trim_trimmed]|]);
    (split; [cbn; intros; try reflexivity; discriminate|]);
    (split; [discriminate|]);
    (split; [|reflexivity]); intros s0 rest0 _ Ha Hc; try discriminate;
    inversion Hc; subst; split; reflexivity.
Qed.

(** X13.  What [extractTaskInfo] returns: the object the service's answer
    parses to, with its [date] replaced by the [Date] made of it; every
    other member is as parsed, and one answer of the service is
    consumed. *)
Theorem extractTaskInfo_result userMessage w taskInfo w' :
  extractTaskInfo userMessage w = (Returned taskInfo, w') ->
  exists s rest j o,
    completions w = Returned s :: rest /\ completions w' = rest
    /\ JSON_parse s = Some j /\ as_object j = Some o
    /\ get_prop "date" taskInfo = VDate (Date_new (get_prop "date" o))
    /\ (forall k, k <> "date" -> get_prop k taskInfo = get_prop k o)
    /\ db w' = db w.
Proof.
  rewrite extractTaskInfo_eq, sendMessage_eq.
  cbn [aiClient completions set_calls].
  destruct (aiClient w); [|discriminate].
  destruct (completions w) as [|[s|e] rest]; try discriminate.
  destruct (JSON_parse s) as [j|] eqn:Ej; [|discriminate].
  destruct (as_object j) as [o|] eqn:Eo; [|discriminate].
  destruct (ToString_throws (get_prop "date" o)); [discriminate|].
  intros H. inversion H; subst; clear H.
  exists s, rest, j, o. repeat split; auto.
  - apply get_set_same.
  - intros k Hk. now apply get_set_other.
Qed.

(** X14.  [handleTask] throws one of two errors only, the one of the
    extraction or the one of the save, and a run that throws has stored
    nothing. *)
Theorem handleTask_throws userMessage w e w' :
  handleTask userMessage w = (Thrown e, w') ->
  (e = Error "Failed to extract task information"
   \/ e = Error "Failed to save task to database")
  /\ db w' = db w.
Proof.
  intros H.
  destruct (handleTask_cases userMessage w)
    as [(e0 & w0 & K & He & Hdb & _)
       |(info & w1 & doc & w2 & l & a & _ & _ & _ & _ & K)];
    rewrite H in K; inversion K; subst; auto.
Qed.

(** X15.  When the local day of the task, today and tomorrow start at a
    time of the local clock that exists and is a time value, the label
    is today exactly when the task falls on the local day of the clock,
    and tomorrow exactly when it falls on the next one: the long form is
    never one of these two words. *)
Theorem formatDate_today_iff (t : Z) (w : World) :
  Z.abs t <= maxTime ->
  midnight_ok (localDay t) ->
  midnight_ok (localDay (clock w)) ->
  midnight_ok (localDay (clock w) + 1) ->
  (fst (formatDate (ValidDate t) w) = Returned "today"
   <-> localDay t = localDay (clock w))
  /\ (fst (formatDate (ValidDate t) w) = Returned "tomorrow"
      <-> localDay t = localDay (clock w) + 1).
Proof.
  intros Ht Hd H0 H1. rewrite (formatDate_eq t w Ht Hd H0 H1). cbn [fst].
  destruct (longDate_not_short (localDay t)) as (L1 & L2).
  destruct (Z.eqb_spec (localDay t) (localDay (clock w))) as [E|E].
  - split; [tauto|]. split; [discriminate|lia].
  - destruct (Z.eqb_spec (localDay t) (localDay (clock w) + 1)) as [E'|E'].
    + split; [split; [discriminate|contradiction]|tauto].
    + split; split; try contradiction; intros K; inversion K; contradiction.
Qed.

Lemma filter_all {A : Type} (f : A -> bool) (l : list A) :
  (forall x, f x = true) -> filter f l = l.
Proof.
  intros H. induction l as [|x l IH]; cbn; [reflexivity|].
  now rewrite H, IH.
Qed.

(** X16.  A date bound of the filter that is supplied (truthy) and that
    [new Date] cannot read makes [getTasks] throw its error; the
    collection is as before. *)
Theorem getTasks_unreadable_bound filters w :
  (truthy (get_prop "dateFrom" filters) = true
   /\ Date_new (get_prop "dateFrom" filters) = InvalidDate)
  \/ (truthy (get_prop "dateTo" filters) = true
      /\ Date_new (get_prop "dateTo" filters) = InvalidDate) ->
  fst (getTasks filters w)
  = Thrown (Error "Failed to retrieve tasks from database")
  /\ db (snd (getTasks filters w)) = db w.
Proof.
  intros H. split; [|apply getTasks_db].
  rewrite getTasks_eq. cbv zeta.
  destruct (_ || _)%bool; [reflexivity|].
  unfold Task_find_sort, bind, log, throw.
  assert (K : forall c g l, (g = Some InvalidDate \/ l = Some InvalidDate) ->
                            cast_query (mkQuery c g l) = None).
  { intros c g l Hgl. unfold cast_query.
    cbn [q_completed q_date_gte q_date_lte].
    match goal with
    | |- match ?x with _ => _ end = None => destruct x; [|reflexivity]
    end.
    destruct Hgl as [-> | ->]; [reflexivity|].
    destruct (cast_bound g); reflexivity. }
  match goal with
  | |- context [cast_query ?q] => assert (Hq : cast_query q = None)
  end.
  { apply K. destruct H as [(T & D)|(T & D)]; rewrite T, D; auto. }
  rewrite Hq. reflexivity.
Qed.

(** X17.  With no [completed] member and no truthy date bound (an absent
    one, or an empty text), the filter selects everything: on a store
    that answers, [getTasks] returns all the records, ordered. *)
Theorem getTasks_without_filter filters w :
  connected w = true ->
  get_prop "completed" filters = VUndefined ->
  truthy (get_prop "dateFrom" filters) = false ->
  truthy (get_prop "dateTo" filters) = false ->
  exists l w',
    getTasks filters w = (Returned l, w')
    /\ Permutation l (db w) /\ StronglySorted sort_le l /\ db w' = db w.
Proof.
  intros Hco Hc Hf Ht.
  rewrite getTasks_eq. cbv zeta. rewrite Hc, Hf, Ht. cbn [andb orb].
  unfold Task_find_sort, bind, log, throw. cbn. rewrite Hco.
  do 2 eexists. split; [reflexivity|].
  rewrite filter_all by reflexivity.
  split; [apply Permutation_sym, sort_tasks_perm|].
  split; [apply sort_tasks_sorted|reflexivity].
Qed.

End Store.

(* ===================================================================== *)
(** ** Further properties: the routes *)
(* ===================================================================== *)

Section Routes.

Context {P : Platform}.

Local Opaque getClassificationPrompt getExtractionPrompt getAdvicePrompt
  getConversationalPrompt toISOString trim.

(** X18.  The chat route answers 400 without running the agent (no call
    of the service, the world untouched) when the message of the body is
    not a text or is blank (empty once the white space and the line
    terminators of the language are trimmed); otherwise it answers 200
    with the response of [process] on the trimmed message, which is not
    empty.  With a body it never answers 500; without one it does. *)
Theorem chat_route_validates fields w :
  (exists r w',
      chat_route (Some fields) w = (Returned r, w')
      /\ match get_prop "message" fields with
         | VJson (JStr s) =>
             if String.eqb (trim s) ""
             then status r = 400%nat /\ w' = w
             else status r = 200%nat /\ trim s <> ""
                  /\ exists a, process (trim s) w = (Returned a, w')
                               /\ body r = Body_agent a
         | _ => status r = 400%nat /\ w' = w
         end)
  /\ (exists r, chat_route None w = (Returned r, w) /\ status r = 500%nat).
Proof.
  split; [|eexists; split; reflexivity].
  unfold chat_route, try_catch, bind.
  destruct (get_prop "message" fields) as [|j|d]; cbn [truthy is_string negb orb];
    try (do 2 eexists; split; [reflexivity|split; reflexivity]).
  destruct j as [|b|n|s|l|l]; cbn [truthy is_string negb orb text_of];
    try (destruct b); try (destruct (Qeq_bool n 0));
    try (do 2 eexists; split; [reflexivity|split; reflexivity]).
  rewrite js_length_zero.
  destruct (String.eqb_spec s "") as [->|Hs].
  - cbn [negb orb]. do 2 eexists. split; [reflexivity|].
    replace (trim "") with "" by (symmetry; vm_compute; reflexivity).
    cbn. split; reflexivity.
  - cbn [negb orb]. destruct (String.eqb_spec (trim s) "") as [E|E].
    + do 2 eexists. split; [reflexivity|]. split; reflexivity.
    + destruct (process_total (trim s) w) as (a & w' & Hp). rewrite Hp.
      do 2 eexists. split; [reflexivity|]. cbn. eauto.
Qed.

(** X19.  On a store that answers, the tasks route answers 200 with the
    records that satisfy the conditions of the query, ordered, and their
    number.  The [completed] parameter selects the completed records only
    when it is the text true: any other value selects the records that
    are not completed.  A date parameter that is empty is no bound. *)
Theorem tasks_route_lists query w lo hi :
  connected w = true ->
  query_bound (get_prop "dateFrom" query) lo ->
  query_bound (get_prop "dateTo" query) hi ->
  exists l w',
    tasks_route query w
    = (Returned (mkHttp 200 (Body_tasks l (List.length l))), w')
    /\ Permutation l
         (filter (satisfies (query_completed (get_prop "completed" query)) lo hi)
                 (db w))
    /\ StronglySorted sort_le l
    /\ db w' = db w.
Proof.
  intros Hco Hlo Hhi.
  exists (sort_tasks
            (filter (satisfies (query_completed (get_prop "completed" query)) lo hi)
                    (db w))),
         (set_calls (calls w ++ [Call_find]) w).
  split; [|split; [apply Permutation_sym, sort_tasks_perm
                  |split; [apply sort_tasks_sorted|reflexivity]]].
  unfold tasks_route, try_catch, bind.
  match goal with
  | |- context [getTasks ?f w] =>
      rewrite (getTasks_returns f w
                 (query_completed (get_prop "completed" query)) lo hi)
  end; [reflexivity|exact Hco| | | ].
  - destruct (get_prop "completed" query) as [|j|d];
      destruct lo as [x|]; cbn [query_bound] in Hlo;
      [destruct Hlo as (T1 & _)| |destruct Hlo as (T1 & _)|
       |destruct Hlo as (T1 & _)|];
      rewrite ?T1, ?Hlo;
      (destruct hi as [y|]; cbn [query_bound] in Hhi;
       [destruct Hhi as (T2 & _)|]; rewrite ?T2, ?Hhi);
      reflexivity.
  - destruct (get_prop "completed" query) as [|j|d];
      destruct lo as [x|]; cbn [query_bound] in Hlo;
      [destruct Hlo as (T1 & D1)| |destruct Hlo as (T1 & D1)|
       |destruct Hlo as (T1 & D1)|];
      rewrite ?T1, ?Hlo;
      (destruct hi as [y|]; cbn [query_bound] in Hhi;
       [destruct Hhi as (T2 & _)|]; rewrite ?T2, ?Hhi);
      cbn; auto.
  - destruct (get_prop "completed" query) as [|j|d];
      (destruct lo as [x|]; cbn [query_bound] in Hlo;
       [destruct Hlo as (T1 & _)|]; rewrite ?T1, ?Hlo);
      (destruct hi as [y|]; cbn [query_bound] in Hhi;
       [destruct Hhi as (T2 & D2)|]; rewrite ?T2, ?Hhi);
      cbn; auto.
Qed.

Lemma keys_valid_iff b :
  forallb (fun update => includes allowedUpdates update) (Object_keys b)
  = forallb (fun update => includes allowedUpdates update) (patch_others b).
Proof.
  unfold Object_keys. rewrite !forallb_app.
  destruct (set_completed (patch_fields b)), (set_title (patch_fields b)),
    (set_date (patch_fields b)), (set_notes (patch_fields b)); reflexivity.
Qed.

(** X20.  The update route refuses with 400 a body that has a key other
    than completed, title, date and notes, and then nothing reaches the
    store: the world is untouched.  A body without such a key goes to
    [updateTask]: the answer is 200 with the updated record, or 500 with
    one and the same body whatever made [updateTask] throw, an id that no
    record has included.  Without a body the answer is 500. *)
Theorem patch_route_validates id b w :
  ((exists k, In k (patch_others b) /\ includes allowedUpdates k = false) ->
   patch_route id (Some b) w
   = (Returned (mkHttp 400 (Body_invalid_updates
                              "Invalid updates"
                              ["completed"; "title"; "date"; "notes"])), w))
  /\ (patch_others b = [] ->
      patch_route id (Some b) w
      = match updateTask id (patch_fields b) w with
        | (Returned t, w') =>
            (Returned (mkHttp 200 (Body_updated "Task updated successfully" t)),
             w')
        | (Thrown _, w') =>
            (Returned (mkHttp 500 (Body_error "Failed to update task" None)), w')
        end)
  /\ (patch_others b = [] ->
      cast_updates (patch_fields b) <> None ->
      connected w = true ->
      findById id (db w) = None ->
      fst (patch_route id (Some b) w)
      = Returned (mkHttp 500 (Body_error "Failed to update task" None)))
  /\ patch_route id None w
     = (Returned (mkHttp 500 (Body_error "Failed to update task" None)), w).
Proof.
  assert (H2 : patch_others b = [] ->
               patch_route id (Some b) w
               = match updateTask id (patch_fields b) w with
                 | (Returned t, w') =>
                     (Returned (mkHttp 200 (Body_updated "Task updated successfully" t)),
                      w')
                 | (Thrown _, w') =>
                     (Returned (mkHttp 500 (Body_error "Failed to update task" None)),
                      w')
                 end).
  { intros Ho. unfold patch_route, try_catch, bind.
    rewrite keys_valid_iff, Ho. cbn [forallb negb].
    destruct (updateTask id (patch_fields b) w) as [[t|e] w']; reflexivity. }
  split; [|split; [exact H2|split; [|reflexivity]]].
  - intros (k & Hin & Hk). unfold patch_route, try_catch, bind.
    rewrite keys_valid_iff.
    assert (E : forallb (fun update => includes allowedUpdates update)
                        (patch_others b) = false).
    { destruct (forallb _ (patch_others b)) eqn:F; [|reflexivity].
      rewrite forallb_forall in F. specialize (F k Hin). congruence. }
    rewrite E. reflexivity.
  - intros Ho Hc Hco Hf. rewrite (H2 Ho).
    destruct (cast_updates (patch_fields b)) as [cu|] eqn:Ec; [|congruence].
    rewrite (updateTask_absent _ _ _ _ Ec Hco Hf). reflexivity.
Qed.

(** X21.  The delete route answers 200 exactly when the store answers
    and a record has the id, and the first record of this id is then
    gone; it answers 500 otherwise, and the collection is as before. *)
Theorem delete_route_status id w :
  exists r w',
    delete_route id w = (Returned r, w')
    /\ (status r = 200%nat
        <-> (connected w = true /\ findById id (db w) <> None))
    /\ (status r = 200%nat ->
        body r = Body_message "Task deleted successfully"
        /\ db w' = remove_doc id (db w))
    /\ (status r <> 200%nat ->
        r = mkHttp 500 (Body_error "Failed to delete task" None)
        /\ db w' = db w).
Proof.
  unfold delete_route, try_catch, bind. rewrite deleteTask_eq. cbv zeta.
  destruct (connected w); [destruct (findById id (db w)) as [t|]|];
    do 2 eexists; (split; [reflexivity|]); cbn;
    repeat split; try discriminate; try congruence; try tauto;
    try (intros (? & ?); congruence); try (intros; lia).
Qed.

End Routes.

(* ===================================================================== *)
(** ** Further properties: the two calls that never fail *)
(* ===================================================================== *)

Section Dialogue.

Context {P : Platform}.

Local Opaque getClassificationPrompt getConversationalPrompt.

(** X25.  [classify] never throws and makes exactly one request, in JSON
    mode, whatever happens; the collection is as before.  Its result is
    the default classification when the request fails or the answer is
    not JSON, and otherwise whatever value the answer parses to: the
    shape of a parsed answer is not checked. *)
Theorem classify_outcomes userMessage w :
  exists c w',
    classify userMessage w = (Returned c, w')
    /\ db w' = db w
    /\ calls w'
       = (calls w
            ++ [Call_sendMessage getClassificationPrompt userMessage true])%list
    /\ (completion_fails w = true ->
        c = JObj [("isTask", JBool false); ("confidence", JNum 0)])
    /\ (forall s rest,
           aiClient w = true -> completions w = Returned s :: rest ->
           c = match JSON_parse s with
               | Some j => j
               | None => JObj [("isTask", JBool false); ("confidence", JNum 0)]
               end).
Proof.
  unfold classify, try_catch, bind, completion_fails.
  rewrite sendMessage_eq.
  destruct (aiClient w); [destruct (completions w) as [|[s|e] rest]|];
    try (do 2 eexists; split; [reflexivity|]; cbn;
         repeat split; auto; try discriminate; intros; congruence).
  unfold JSON_parse_call.
  destruct (JSON_parse s) as [j|] eqn:Ej;
    (do 2 eexists; split; [reflexivity|]); cbn;
    (repeat split; auto; try discriminate);
    intros s' rest' _ H; inversion H; subst; rewrite Ej; reflexivity.
Qed.

(** X26.  [handleConversation] never throws and always answers
    [isTask: false], with no task and no error mark; the collection is as
    before.  Its message is the answer of the service as it is (not
    trimmed), or the fixed greeting when the request fails. *)
Theorem handleConversation_outcomes userMessage w :
  exists r w',
    handleConversation userMessage w = (Returned r, w')
    /\ isTask r = Some false /\ task r = None /\ error r = None
    /\ db w' = db w
    /\ (completion_fails w = true ->
        message r
        = "Hello! I'm your task assistant. I can help you remember things and manage your tasks. Try saying something like 'Remind me to study tomorrow'!")
    /\ (forall s rest,
           aiClient w = true -> completions w = Returned s :: rest ->
           message r = s).
Proof.
  unfold handleConversation, try_catch, bind, completion_fails.
  rewrite sendMessage_eq.
  destruct (aiClient w); [destruct (completions w) as [|[s|e] rest]|];
    (do 2 eexists; split; [reflexivity|]); cbn;
    repeat split; auto; try discriminate; intros; congruence.
Qed.

End Dialogue.

(* ===================================================================== *)
(** ** Further properties: the configuration of the client *)
(* ===================================================================== *)

Lemma or_default_not_empty v d : d <> "" -> AIConfig.or_default v d <> "".
Proof.
  intros Hd. unfold AIConfig.or_default. destruct v as [s|]; [|exact Hd].
  destruct (String.eqb_spec s ""); assumption.
Qed.

Lemma or_default_set v : AIConfig.is_set v = true -> AIConfig.or_default v "" <> "".
Proof.
  unfold AIConfig.is_set, AIConfig.or_default. destruct v as [s|]; [|discriminate].
  destruct (String.eqb_spec s ""); [discriminate|auto].
Qed.

(** X22.  [initializeAI] returns exactly when the provider (openai unless
    the environment names one) is openai and OPENAI_API_KEY is set, or is
    groq and GROQ_API_KEY is set.  The client then holds this key, which
    is not empty, and the base URL of Groq exactly for groq; the current
    provider is the one initialized. *)
Theorem initializeAI_returns_iff env st :
  let provider := AIConfig.or_default (env "AI_PROVIDER") "openai" in
  (fst (AIConfig.initializeAI env st) = Returned tt
   <-> ((provider = "openai" /\ AIConfig.is_set (env "OPENAI_API_KEY") = true)
        \/ (provider = "groq" /\ AIConfig.is_set (env "GROQ_API_KEY") = true)))
  /\ (fst (AIConfig.initializeAI env st) = Returned tt ->
      exists c,
        AIConfig.aiClient (snd (AIConfig.initializeAI env st)) = Some c
        /\ AIConfig.currentProvider (snd (AIConfig.initializeAI env st))
           = Some provider
        /\ AIConfig.apiKey c <> ""
        /\ Some (AIConfig.apiKey c)
           = env (if String.eqb provider "groq" then "GROQ_API_KEY"
                  else "OPENAI_API_KEY")
        /\ (AIConfig.baseURL c = Some "https://api.groq.com/openai/v1"
            <-> provider = "groq")
        /\ (AIConfig.baseURL c = None <-> provider = "openai")).
Proof.
  intros provider. unfold AIConfig.initializeAI. fold provider.
  assert (Hkey : forall v, AIConfig.is_set v = true ->
                           Some (AIConfig.or_default v "") = v).
  { intros [s|]; cbn; [|discriminate].
    destruct (String.eqb s ""); [discriminate|reflexivity]. }
  destruct (String.eqb_spec provider "openai") as [E|E].
  - rewrite E.
    destruct (AIConfig.is_set (env "OPENAI_API_KEY")) eqn:K; cbn.
    + split; [split; auto|]. intros _. eexists. split; [reflexivity|].
      cbn. repeat split; auto; try discriminate.
      now apply or_default_set.
    + split; [|discriminate]. split; [discriminate|].
      intros [(_ & H)|(H & _)]; discriminate.
  - destruct (String.eqb_spec provider "groq") as [G|G].
    + rewrite G.
      destruct (AIConfig.is_set (env "GROQ_API_KEY")) eqn:K; cbn.
      * split; [split; auto|]. intros _. eexists. split; [reflexivity|].
        cbn. repeat split; auto; try discriminate.
        now apply or_default_set.
      * split; [|discriminate]. split; [discriminate|].
        intros [(H & _)|(_ & H)]; discriminate.
    + cbn. split; [|discriminate]. split; [discriminate|].
      intros [(H & _)|(H & _)]; contradiction.
Qed.

(** X23.  When [initializeAI] throws, the client is the one there was,
    but the current provider is already the one asked for: after a failed
    initialization for groq, the model of a request is the one of Groq
    though the client, if any, is the former one. *)
Theorem initializeAI_failure_keeps_client env st e st' :
  AIConfig.initializeAI env st = (Thrown e, st') ->
  AIConfig.aiClient st' = AIConfig.aiClient st
  /\ AIConfig.currentProvider st'
     = Some (AIConfig.or_default (env "AI_PROVIDER") "openai")
  /\ (AIConfig.or_default (env "AI_PROVIDER") "openai" = "groq" ->
      AIConfig.model env st'
      = AIConfig.or_default (env "GROQ_MODEL") "llama-3.3-70b-versatile").
Proof.
  unfold AIConfig.initializeAI.
  destruct (String.eqb _ "openai");
    [destruct (negb _)|destruct (String.eqb _ "groq"); [destruct (negb _)|]];
    intros H; inversion H; subst; cbn;
    (split; [reflexivity|split; [reflexivity|]]);
    intros ->; reflexivity.
Qed.

(** X24.  The name [getProvider] gives and the model of a request are
    never empty; once [initializeAI] has run, whether it returned or
    threw, [getProvider] gives the provider it was run for, whatever the
    environment has become. *)
Theorem getProvider_after_initializeAI env st :
  AIConfig.getProvider env st <> ""
  /\ AIConfig.model env st <> ""
  /\ (forall env',
        AIConfig.getProvider env' (snd (AIConfig.initializeAI env st))
        = AIConfig.or_default (env "AI_PROVIDER") "openai").
Proof.
  split; [|split].
  - unfold AIConfig.getProvider. apply or_default_not_empty.
    apply or_default_not_empty. discriminate.
  - unfold AIConfig.model.
    destruct (AIConfig.currentProvider st) as [p|];
      [destruct (String.eqb_spec p "groq") as [->|Hp]|].
    + apply or_default_not_empty. discriminate.
    + assert (K : match p with
                  | "groq" => AIConfig.or_default (env "GROQ_MODEL")
                                "llama-3.3-70b-versatile"
                  | _ => AIConfig.or_default (env "OPENAI_MODEL") "gpt-3.5-turbo"
                  end <> "").
      { repeat match goal with
               | |- context [match ?x with _ => _ end] => destruct x
               end; apply or_default_not_empty; discriminate. }
      exact K.
    + apply or_default_not_empty. discriminate.
  - intros env'.
    assert (K : AIConfig.currentProvider (snd (AIConfig.initializeAI env st))
                = Some (AIConfig.or_default (env "AI_PROVIDER") "openai")).
    { unfold AIConfig.initializeAI.
      destruct (String.eqb _ "openai");
        [destruct (negb _)|destruct (String.eqb _ "groq"); [destruct (negb _)|]];
        reflexivity. }
    unfold AIConfig.getProvider. rewrite K. cbn.
    pose proof (or_default_not_empty (env "AI_PROVIDER") "openai") as Hne.
    destruct (String.eqb_spec (AIConfig.or_default (env "AI_PROVIDER") "openai") "");
      [exfalso; apply Hne; [discriminate|assumption]|reflexivity].
Qed.


(* ===================================================================== *)
(** ** Runs on the sample platform *)
(* ===================================================================== *)

#[local] Existing Instance sample_platform.

Example longDate_2026_02_01 :
  longDate (days_from_civil 2026 2 1) = "Sunday, February 1, 2026".
Proof. vm_compute. reflexivity. Qed.

Example toISOString_sample_now :
  toISOString sample_now = "2026-01-13T09:30:00.000Z".
Proof. vm_compute. reflexivity. Qed.

(** The year before the year 1 is shown as the year 1 of its era. *)
Example longDate_year_0 :
  longDate (days_from_civil 0 6 15) = "Thursday, June 15, 1".
Proof. vm_compute. reflexivity. Qed.

(** White space beyond the first 128 codes is trimmed; the length of a
    text is counted in code units, not in bytes. *)
Example trim_beyond_ascii :
  trim (nbsp ++ " Buy milk" ++ nbsp) = "Buy milk"
  /\ trim nbsp = ""
  /\ js_length (copies 101 e_acute) = 101%nat
  /\ String.length (copies 101 e_acute) = 202%nat
  /\ valid_title (VJson (JStr (copies 200 e_acute)))
     = Some (copies 200 e_acute)
  /\ valid_title (VJson (JStr (copies 201 e_acute))) = None
  /\ valid_title (VJson (JStr nbsp)) = None.
Proof. vm_compute. repeat split. Qed.

(** A text that [Number] reads as a number too large for a year is a time
    value, whatever the form of the literal. *)
Example valid_date_of_number_texts :
  valid_date (VJson (JStr "1e12")) = Some 1000000000000
  /\ valid_date (VJson (JStr "1000000000000")) = Some 1000000000000
  /\ valid_date (VJson (JStr "275761.5")) = Some 275761
  /\ valid_date (VJson (JStr "1e400")) = None
  /\ valid_date (VJson (JStr "Infinity")) = None
  /\ valid_date (VJson (JStr "2026-02-01")) = Some 1769904000000.
Proof. vm_compute. repeat split. Qed.

(** An object with a member named toString cannot be converted: the
    extraction fails on such a date, and a filter with such a bound is
    refused. *)
Example conversion_throws :
  fst (extractTaskInfo "Remind me"
         (sample_world [Returned unconvertible_date_json]))
  = Thrown (Error "Failed to extract task information")
  /\ fst (getTasks [("dateFrom", VJson (JObj [("toString", JNum 1)]))]
                   sample_store)
     = Thrown (Error "Failed to retrieve tasks from database")
  /\ calls (snd (getTasks [("dateFrom", VJson (JObj [("toString", JNum 1)]))]
                          sample_store))
     = [].
Proof. vm_compute. repeat split. Qed.

Example sample_Date_parse_rejects :
  sample_Date_parse "not-a-date" = None
  /\ sample_Date_parse "2026-02-30" = None
  /\ sample_Date_parse "2026-02-01" = Some 1769904000000.
Proof. vm_compute. auto. Qed.

(** C1.  The service classifies the message as a task and answers the
    extraction request with an object whose date is not a date.  The
    extraction does not fail: [new Date] gives the Invalid Date and
    [extractTaskInfo] returns.  The run goes on to ask for advice and to
    call [saveTask], whose [save] is refused by the validation of the
    schema; [process] then answers with the apology and the collection is
    empty as before, but [saveTask] and [save] have been invoked. *)
Theorem process_bad_date_reaches_saveTask :
  let w := sample_world [Returned says_task; Returned bad_date_json;
                         Returned "1. Check the fridge first."] in
  let bad := [("title", VJson (JStr "Buy milk")); ("date", VDate InvalidDate)] in
  fst (process "Remind me to buy milk" w) = Returned apology
  /\ db (snd (process "Remind me to buy milk" w)) = []
  /\ calls (snd (process "Remind me to buy milk" w))
     = [Call_sendMessage getClassificationPrompt "Remind me to buy milk" true;
        Call_extractTaskInfo "Remind me to buy milk";
        Call_sendMessage (getExtractionPrompt "2026-01-13T09:30:00.000Z")
                         "Remind me to buy milk" true;
        Call_generateAdvice (VJson (JStr "Buy milk"));
        Call_sendMessage (getAdvicePrompt "Buy milk") "" false;
        Call_saveTask
          (bad ++ [("advice", VJson (JStr "1. Check the fridge first."))])%list;
        Call_save]
  /\ fst (extractTaskInfo "Remind me to buy milk"
            (snd (classify "Remind me to buy milk" w)))
     = Returned bad.
Proof. vm_compute. auto. Qed.

(** C2.  On a store that answers and holds no record of id 7, [updateTask]
    and [deleteTask] throw the errors they throw when the store does not
    answer at all: the error for the absent id, thrown inside the [try],
    is replaced by the generic one in the [catch]. *)
Theorem updateTask_absent_id_generic_failure :
  let w := sample_world [] in
  let down := mkWorld [mkTaskDoc 7 "Buy milk" 0 "" "" false 0] 8 false
                      sample_now true [] [] in
  let completed_now := mkUpdates (Some true) None None None in
  findById 7 (db w) = None
  /\ fst (updateTask 7 completed_now w) = Thrown (Error "Failed to update task")
  /\ fst (updateTask 7 completed_now down)
     = Thrown (Error "Failed to update task")
  /\ fst (deleteTask 7 w) = Thrown (Error "Failed to delete task")
  /\ fst (deleteTask 7 down) = Thrown (Error "Failed to delete task").
Proof. vm_compute. auto 6. Qed.

(** C5.  The service answers the classification request with the text
    null, which is JSON: [classify] returns [null], reading [isTask] of it
    throws in [process], and the response is the error one, though the
    run never entered the task branch (its only call is the
    classification). *)
Theorem process_null_classification_is_error :
  let w := sample_world [Returned "null"; Returned "I am fine, thank you."] in
  fst (classify "How are you?" w) = Returned JNull
  /\ fst (process "How are you?" w) = Returned apology
  /\ error apology = Some true
  /\ calls (snd (process "How are you?" w))
     = [Call_sendMessage getClassificationPrompt "How are you?" true].
Proof. vm_compute. auto. Qed.

(** A run of the task branch that succeeds. *)
Lemma process_task_matches_persisted_witness :
  exists savedTask w4 r tv,
    process "Remind me to study networking"
      (sample_world [Returned says_task; Returned study_json;
                     Returned " 1. Start with the OSI model. "])
    = (Returned r, w4)
    /\ isTask r = Some true /\ error r = None /\ task r = Some tv
    /\ db w4 = ([] ++ [savedTask])%list
    /\ task_id tv = _id savedTask
    /\ task_title tv = title savedTask
    /\ task_date tv = date savedTask
    /\ task_notes tv = notes savedTask
    /\ task_advice tv = advice savedTask
    /\ advice savedTask = "1. Start with the OSI model.".
Proof.
  edestruct (process_task_matches_persisted
               "Remind me to study networking"
               (sample_world [Returned says_task; Returned study_json;
                              Returned " 1. Start with the OSI model. "]))
    as (r & tv & H).
  - lazy. reflexivity.
  - discriminate.
  - reflexivity.
  - lazy. reflexivity.
  - reflexivity.
  - reflexivity.
  - lazy. reflexivity.
  - lazy. reflexivity.
  - do 2 eexists. exists r, tv. exact H.
Defined.

(** A run of the task branch in which the advice request fails. *)
Lemma process_advice_fallback_witness :
  exists savedTask w4 r tv,
    process "Remind me to study networking"
      (sample_world [Returned says_task; Returned study_json;
                     Thrown (Error "Request timed out.")])
    = (Returned r, w4)
    /\ isTask r = Some true /\ error r = None /\ task r = Some tv
    /\ db w4 = ([] ++ [savedTask])%list
    /\ task_advice tv
       = "Good luck with your task! Break it down into smaller steps and tackle them one at a time."
    /\ advice savedTask
       = "Good luck with your task! Break it down into smaller steps and tackle them one at a time.".
Proof.
  do 2 eexists.
  eapply (process_advice_fallback
            "Remind me to study networking"
            (sample_world [Returned says_task; Returned study_json;
                           Thrown (Error "Request timed out.")])).
  - lazy. reflexivity.
  - discriminate.
  - reflexivity.
  - lazy. reflexivity.
  - reflexivity.
  - lazy. reflexivity.
  - lazy. reflexivity.
Defined.



(** A conversational run. *)
Lemma process_non_task_leaves_store_witness :
  exists r w',
    process "How are you?"
      (sample_world [Returned says_no_task; Returned "I am fine, thank you."])
    = (Returned r, w')
    /\ isTask r = Some false /\ task r = None /\ error r = None
    /\ db w' = [] /\ next_id w' = 1%nat
    /\ calls w'
       = ([] ++ [Call_sendMessage getClassificationPrompt "How are you?" true;
                 Call_sendMessage getConversationalPrompt "How are you?" false])%list.
Proof.
  eapply (process_non_task_leaves_store
            "How are you?"
            (sample_world [Returned says_no_task;
                           Returned "I am fine, thank you."])).
  - lazy. reflexivity.
  - discriminate.
  - reflexivity.
Defined.

(** A listing with the three conditions. *)
Lemma getTasks_filters_and_orders_witness :
  exists l w',
    getTasks sample_filters sample_store = (Returned l, w')
    /\ db w' = db sample_store
    /\ Permutation l
         (filter (satisfies (Some true)
                    (Some (days_from_civil 2026 1 10 * msPerDay))
                    (Some (days_from_civil 2026 1 31 * msPerDay)))
                 (db sample_store))
    /\ (forall t, In t l <->
                  In t (db sample_store)
                  /\ (forall b, Some true = Some b -> completed t = b)
                  /\ (forall d, Some (days_from_civil 2026 1 10 * msPerDay) = Some d ->
                                d <= date t)
                  /\ (forall d, Some (days_from_civil 2026 1 31 * msPerDay) = Some d ->
                                date t <= d))
    /\ StronglySorted sort_le l.
Proof.
  apply (getTasks_filters_and_orders sample_filters sample_store).
  - reflexivity.
  - reflexivity.
  - split; reflexivity.
  - split; reflexivity.
Defined.

Example getTasks_sample :
  fst (getTasks sample_filters sample_store)
  = Returned
      [ mkTaskDoc 3 "Buy groceries" (days_from_civil 2026 1 15 * msPerDay)
                  "" "" true 300;
        mkTaskDoc 2 "Call mom" (days_from_civil 2026 1 15 * msPerDay)
                  "" "" true 200;
        mkTaskDoc 1 "Pay the rent" (days_from_civil 2026 1 20 * msPerDay)
                  "" "" true 100 ].
Proof. vm_compute. reflexivity. Qed.

(** A draft with a padded title and neither notes nor advice, saved; and
    the collection after a run of [process] on an empty store. *)
Lemma persisted_tasks_well_formed_witness :
  (exists doc w',
      title doc <> "" /\ Z.abs (date doc) <= maxTime
      /\ valid_date
           (get_prop "date" [("title", VJson (JStr "  Buy milk "));
                             ("date", VDate (ValidDate 0))])
         = Some (date doc)
      /\ completed doc = false
      /\ (get_prop "notes" [("title", VJson (JStr "  Buy milk "));
                            ("date", VDate (ValidDate 0))] = VUndefined ->
          notes doc = "")
      /\ (get_prop "advice" [("title", VJson (JStr "  Buy milk "));
                             ("date", VDate (ValidDate 0))] = VUndefined ->
          advice doc = "")
      /\ db w' = (db (sample_world []) ++ [doc])%list)
  /\ (forall t,
         In t (db (run_op (Op_process "Remind me to study networking")
                          (sample_world [Returned says_task; Returned study_json;
                                         Returned "1. Start early."]))) ->
         title t <> "" /\ Z.abs (date t) <= maxTime).
Proof.
  destruct (persisted_tasks_well_formed (P := sample_platform)) as (H1 & _ & H3).
  split.
  - do 2 eexists. eapply H1. lazy. reflexivity.
  - apply H3. apply reach_op, reach_start. reflexivity.
Defined.

(** Two extraction answers, the second with a [completed] and an [advice]
    member more. *)
Lemma process_ignores_extra_fields_witness :
  let wa := set_completions [Returned says_task; Returned study_json;
                             Returned "1. Start early."] (sample_world []) in
  let wb := set_completions [Returned says_task; Returned study_json_extra;
                             Returned "1. Start early."] (sample_world []) in
  fst (process "Remind me to study networking" wa)
  = fst (process "Remind me to study networking" wb)
  /\ db (snd (process "Remind me to study networking" wa))
     = db (snd (process "Remind me to study networking" wb))
  /\ next_id (snd (process "Remind me to study networking" wa))
     = next_id (snd (process "Remind me to study networking" wb))
  /\ completions (snd (process "Remind me to study networking" wa))
     = completions (snd (process "Remind me to study networking" wb)).
Proof.
  eapply (process_ignores_extra_fields
            "Remind me to study networking" (sample_world [])
            says_task _ study_json study_json_extra [Returned "1. Start early."]).
  - reflexivity.
  - lazy. reflexivity.
  - discriminate.
  - reflexivity.
  - lazy. reflexivity.
  - reflexivity.
  - lazy. reflexivity.
  - reflexivity.
  - reflexivity.
  - reflexivity.
  - reflexivity.
Defined.

Example process_sample_extra_fields :
  db (snd (process "Remind me to study networking"
             (sample_world [Returned says_task; Returned study_json_extra;
                            Returned "1. Start early."])))
  = [mkTaskDoc 1 "Study networking" (days_from_civil 2026 2 1 * msPerDay)
               "1. Start early." "wants tips" false sample_now].
Proof. vm_compute. reflexivity. Qed.

(* ===================================================================== *)
(** ** Runs of the further properties *)
(* ===================================================================== *)

Lemma sample_store_fresh : ids_fresh sample_store.
Proof.
  split.
  - cbn. repeat constructor; cbn; intuition discriminate.
  - cbn. repeat constructor.
Qed.

(** The draft saved in the store of five tasks. *)
Lemma saveTask_then_findById_witness :
  exists doc w',
    saveTask milk_draft sample_store = (Returned doc, w')
    /\ (findById (_id doc) (db w') = Some doc
        /\ (forall id, id <> _id doc ->
                       findById id (db w') = findById id (db sample_store))
        /\ List.length (db w') = S (List.length (db sample_store))).
Proof.
  eexists _, _.
  match goal with |- ?A /\ _ => assert (E : A) by (lazy; reflexivity) end.
  split; [exact E|].
  exact (saveTask_then_findById _ _ _ _ E eq_refl).
Defined.

(** The open task 4 completed and renamed. *)
Lemma updateTask_updates_one_witness :
  exists t' w',
    updateTask 4 routing_update sample_store = (Returned t', w')
    /\ exists t,
        findById 4 (db sample_store) = Some t
        /\ _id t' = 4%nat /\ advice t' = advice t /\ createdAt t' = createdAt t
        /\ completed t' = true
        /\ notes t' = notes t
        /\ title t' = "Study routing"
        /\ date t' = date t
        /\ findById 4 (db w') = Some t'
        /\ (forall id, id <> 4%nat ->
                       findById id (db w') = findById id (db sample_store))
        /\ List.length (db w') = List.length (db sample_store).
Proof.
  eexists _, _.
  match goal with |- ?A /\ _ => assert (E : A) by (lazy; reflexivity) end.
  split; [exact E|].
  exact (updateTask_updates_one _ _ _ _ _ E).
Defined.

(** No record has the id 7; a title that is U+00A0 alone. *)
Lemma updateTask_fails_iff_witness :
  (exists e w',
      updateTask 7 routing_update sample_store = (Thrown e, w')
      /\ e = Error "Failed to update task" /\ db w' = db sample_store)
  /\ (exists e w',
         updateTask 4 (mkUpdates None (Some nbsp) None None) sample_store
         = (Thrown e, w')).
Proof.
  split.
  - destruct (updateTask_fails_iff 7 routing_update sample_store)
      as [[_ H1] H2].
    destruct H1 as (e & w' & E); [right; right; right; reflexivity|].
    exists e, w'. split; [exact E|exact (H2 e w' E)].
  - destruct (updateTask_fails_iff 4 (mkUpdates None (Some nbsp) None None)
                                   sample_store) as [[_ H1] _].
    apply H1. left. exists nbsp. split; [reflexivity|left; reflexivity].
Defined.

(** The task 2 deleted. *)
Lemma deleteTask_removes_one_witness :
  exists b w',
    deleteTask 2 sample_store = (Returned b, w')
    /\ b = true
    /\ S (List.length (db w')) = List.length (db sample_store)
    /\ findById 2 (db w') = None
    /\ fst (deleteTask 2 w') = Thrown (Error "Failed to delete task").
Proof.
  eexists _, _.
  match goal with |- ?A /\ _ => assert (E : A) by (lazy; reflexivity) end.
  split; [exact E|].
  destruct (deleteTask_removes_one _ _ _ _ E) as (Hb & _ & Hl & _ & _ & Hn).
  destruct (Hn (proj1 sample_store_fresh)) as (Hf & Hd).
  exact (conj Hb (conj Hl (conj Hf Hd))).
Defined.

(** No record has the id 7; the store that does not answer. *)
Lemma deleteTask_fails_iff_witness :
  (exists e w',
      deleteTask 7 sample_store = (Thrown e, w')
      /\ e = Error "Failed to delete task" /\ db w' = db sample_store)
  /\ (exists e w', deleteTask 2 sample_store_down = (Thrown e, w')).
Proof.
  split.
  - destruct (deleteTask_fails_iff 7 sample_store) as [[_ H1] H2].
    destruct H1 as (e & w' & E); [right; reflexivity|].
    exists e, w'. split; [exact E|exact (H2 e w' E)].
  - destruct (deleteTask_fails_iff 2 sample_store_down) as [[_ H1] _].
    apply H1. left. reflexivity.
Defined.

(** The draft saved, and the record deleted. *)
Lemma saveTask_then_deleteTask_witness :
  exists doc w1,
    saveTask milk_draft sample_store = (Returned doc, w1)
    /\ exists w2,
        deleteTask (_id doc) w1 = (Returned true, w2)
        /\ db w2 = db sample_store.
Proof.
  eexists _, _.
  match goal with |- ?A /\ _ => assert (E : A) by (lazy; reflexivity) end.
  split; [exact E|].
  exact (saveTask_then_deleteTask _ _ _ _ sample_store_fresh E).
Defined.

(** A message classified as a task while the store does not answer. *)
Lemma process_store_down_witness :
  exists r w',
    process "Remind me to study networking" sample_store_down = (Returned r, w')
    /\ db w' = db sample_store_down
    /\ isTask r <> Some true
    /\ (forall c w1,
           classify "Remind me to study networking" sample_store_down
           = (Returned c, w1) ->
           c <> JNull -> truthy (member "isTask" c) = true ->
           r = apology).
Proof.
  apply (process_store_down "Remind me to study networking" sample_store_down).
  reflexivity.
Defined.

(** The padded title is stored trimmed. *)
Lemma saveTask_title_trimmed_witness :
  exists doc w',
    saveTask milk_draft sample_store = (Returned doc, w')
    /\ exists s,
        castString (get_prop "title" milk_draft) = CastTo (Some s)
        /\ title doc = trim s
        /\ trimStart (title doc) = title doc /\ trimEnd (title doc) = title doc
        /\ title doc <> "" /\ (js_length (title doc) <= 200)%nat.
Proof.
  eexists _, _.
  match goal with |- ?A /\ _ => assert (E : A) by (lazy; reflexivity) end.
  split; [exact E|].
  exact (saveTask_title_trimmed _ _ _ _ E).
Defined.

(** A blank title. *)
Lemma saveTask_refuses_incomplete_witness :
  fst (saveTask blank_draft sample_store)
  = Thrown (Error "Failed to save task to database")
  /\ db (snd (saveTask blank_draft sample_store)) = db sample_store
  /\ next_id (snd (saveTask blank_draft sample_store)) = next_id sample_store.
Proof.
  apply (saveTask_refuses_incomplete blank_draft sample_store).
  right. right. left. exists "   ". split; reflexivity.
Defined.

(** An answer of the service, padded with a space and with U+00A0; a
    call that fails; and a title that is an object with a member named
    toString. *)
Lemma generateAdvice_trimmed_witness :
  (exists a w',
      generateAdvice (VJson (JStr "Buy milk"))
                     (sample_world [Returned nbsp_answer])
      = (Returned a, w')
      /\ a = "1. Check the fridge.")
  /\ (exists a w',
         generateAdvice (VJson (JStr "Buy milk"))
                        (sample_world [Thrown (Error "Request timed out.")])
         = (Returned a, w')
         /\ a = fallback_advice)
  /\ (exists a w',
         generateAdvice (VJson (JObj [("toString", JNum 1)]))
                        (sample_world [Returned nbsp_answer])
         = (Returned a, w')
         /\ a = fallback_advice
         /\ completions w' = [Returned nbsp_answer]).
Proof.
  split; [|split].
  - destruct (generateAdvice_trimmed
                (VJson (JStr "Buy milk"))
                (sample_world [Returned nbsp_answer]))
      as (a & w' & E & _ & _ & _ & H & _).
    exists a, w'. split; [exact E|].
    rewrite (proj1 (H nbsp_answer [] eq_refl eq_refl eq_refl)).
    vm_compute. reflexivity.
  - destruct (generateAdvice_trimmed
                (VJson (JStr "Buy milk"))
                (sample_world [Thrown (Error "Request timed out.")]))
      as (a & w' & E & _ & H & _).
    exists a, w'. split; [exact E|]. apply H. reflexivity.
  - destruct (generateAdvice_trimmed
                (VJson (JObj [("toString", JNum 1)]))
                (sample_world [Returned nbsp_answer]))
      as (a & w' & E & _ & _ & H & _).
    exists a, w'. split; [exact E|].
    destruct (H eq_refl) as (H1 & H2 & _). split; [exact H1|exact H2].
Defined.

(** The extraction of the sample answer. *)
Lemma extractTaskInfo_result_witness :
  exists taskInfo w',
    extractTaskInfo "Remind me to study networking"
                    (sample_world [Returned study_json])
    = (Returned taskInfo, w')
    /\ exists s rest j o,
        completions (sample_world [Returned study_json]) = Returned s :: rest
        /\ completions w' = rest
        /\ JSON_parse s = Some j /\ as_object j = Some o
        /\ get_prop "date" taskInfo = VDate (Date_new (get_prop "date" o))
        /\ (forall k, k <> "date" -> get_prop k taskInfo = get_prop k o)
        /\ db w' = db (sample_world [Returned study_json]).
Proof.
  eexists _, _.
  match goal with |- ?A /\ _ => assert (E : A) by (lazy; reflexivity) end.
  split; [exact E|].
  exact (extractTaskInfo_result _ _ _ _ E).
Defined.

(** The extraction fails: the service does not answer. *)
Lemma handleTask_throws_witness :
  exists e w',
    handleTask "Remind me to study networking"
               (sample_world [Thrown (Error "Request timed out.")])
    = (Thrown e, w')
    /\ ((e = Error "Failed to extract task information"
         \/ e = Error "Failed to save task to database")
        /\ db w' = db (sample_world [Thrown (Error "Request timed out.")])).
Proof.
  eexists _, _.
  match goal with |- ?A /\ _ => assert (E : A) by (lazy; reflexivity) end.
  split; [exact E|].
  exact (handleTask_throws _ _ _ _ E).
Defined.

(** At 09:30 on 2026-01-13 in UTC: an instant of the same day, and one of
    the next. *)
Lemma formatDate_today_iff_witness :
  fst (formatDate (ValidDate (days_from_civil 2026 1 13 * msPerDay + 72000000))
                  (sample_world []))
  = Returned "today"
  /\ fst (formatDate (ValidDate (days_from_civil 2026 1 14 * msPerDay + 1))
                     (sample_world []))
     = Returned "tomorrow".
Proof.
  split.
  - apply (formatDate_today_iff
             (days_from_civil 2026 1 13 * msPerDay + 72000000)
             (sample_world []));
      try (split; [reflexivity|vm_compute; discriminate]);
      [vm_compute; discriminate|reflexivity].
  - apply (formatDate_today_iff
             (days_from_civil 2026 1 14 * msPerDay + 1) (sample_world []));
      try (split; [reflexivity|vm_compute; discriminate]);
      [vm_compute; discriminate|reflexivity].
Defined.

(** A bound that is not a date. *)
Lemma getTasks_unreadable_bound_witness :
  fst (getTasks [("dateFrom", VJson (JStr "next week"))] sample_store)
  = Thrown (Error "Failed to retrieve tasks from database")
  /\ db (snd (getTasks [("dateFrom", VJson (JStr "next week"))] sample_store))
     = db sample_store.
Proof.
  apply (getTasks_unreadable_bound
           [("dateFrom", VJson (JStr "next week"))] sample_store).
  left. split; reflexivity.
Defined.

(** A filter whose only bound is the empty text. *)
Lemma getTasks_without_filter_witness :
  exists l w',
    getTasks [("dateFrom", VJson (JStr ""))] sample_store = (Returned l, w')
    /\ Permutation l (db sample_store) /\ StronglySorted sort_le l
    /\ db w' = db sample_store.
Proof.
  apply (getTasks_without_filter [("dateFrom", VJson (JStr ""))] sample_store);
    reflexivity.
Defined.

(** GET /tasks?completed=yes&dateFrom=2026-01-10&dateTo= . *)
Lemma tasks_route_lists_witness :
  exists l w',
    tasks_route [("completed", VJson (JStr "yes"));
                 ("dateFrom", VJson (JStr "2026-01-10"));
                 ("dateTo", VJson (JStr ""))] sample_store
    = (Returned (mkHttp 200 (Body_tasks l (List.length l))), w')
    /\ Permutation l
         (filter (satisfies (Some false)
                            (Some (days_from_civil 2026 1 10 * msPerDay)) None)
                 (db sample_store))
    /\ StronglySorted sort_le l
    /\ db w' = db sample_store.
Proof.
  apply (tasks_route_lists
           [("completed", VJson (JStr "yes"));
            ("dateFrom", VJson (JStr "2026-01-10"));
            ("dateTo", VJson (JStr ""))]
           sample_store
           (Some (days_from_civil 2026 1 10 * msPerDay)) None).
  - reflexivity.
  - split; reflexivity.
  - reflexivity.
Defined.

(** A body with a key that no update may set, a body that completes the
    task 4, and one for an id that no record has. *)
Lemma patch_route_validates_witness :
  patch_route 4 (Some (mkPatchBody routing_update ["advice"])) sample_store
  = (Returned (mkHttp 400 (Body_invalid_updates
                             "Invalid updates"
                             ["completed"; "title"; "date"; "notes"])),
     sample_store)
  /\ (exists t w',
         patch_route 4 (Some (mkPatchBody routing_update [])) sample_store
         = (Returned (mkHttp 200 (Body_updated "Task updated successfully" t)),
            w')
         /\ title t = "Study routing" /\ completed t = true)
  /\ fst (patch_route 7 (Some (mkPatchBody routing_update [])) sample_store)
     = Returned (mkHttp 500 (Body_error "Failed to update task" None)).
Proof.
  split; [|split].
  - apply (patch_route_validates 4 (mkPatchBody routing_update ["advice"])
                                 sample_store).
    exists "advice". split; [left; reflexivity|reflexivity].
  - destruct (patch_route_validates 4 (mkPatchBody routing_update [])
                                    sample_store) as (_ & H & _).
    rewrite (H eq_refl). eexists _, _. split; [lazy; reflexivity|].
    split; reflexivity.
  - destruct (patch_route_validates 7 (mkPatchBody routing_update [])
                                    sample_store) as (_ & _ & H & _).
    apply H; [reflexivity|discriminate|reflexivity|reflexivity].
Defined.

(** The task 2 deleted through the route, and an id that no record has. *)
Lemma delete_route_status_witness :
  (exists r w',
      delete_route 2 sample_store = (Returned r, w')
      /\ status r = 200%nat
      /\ db w' = remove_doc 2 (db sample_store))
  /\ (exists r w',
         delete_route 7 sample_store = (Returned r, w')
         /\ r = mkHttp 500 (Body_error "Failed to delete task" None)
         /\ db w' = db sample_store).
Proof.
  split.
  - destruct (delete_route_status 2 sample_store)
      as (r & w' & E & H1 & H2 & _).
    exists r, w'. split; [exact E|].
    assert (S200 : status r = 200%nat)
      by (apply H1; split; [reflexivity|discriminate]).
    split; [exact S200|exact (proj2 (H2 S200))].
  - destruct (delete_route_status 7 sample_store)
      as (r & w' & E & H1 & _ & H3).
    exists r, w'. split; [exact E|].
    apply H3. intros S200. apply H1 in S200. destruct S200 as (_ & K).
    apply K. reflexivity.
Defined.

(** Groq asked for with its key. *)
Lemma initializeAI_returns_iff_witness :
  fst (AIConfig.initializeAI (groq_env (Some "gsk-test")) AIConfig.initial)
  = Returned tt
  /\ exists c,
      AIConfig.aiClient
        (snd (AIConfig.initializeAI (groq_env (Some "gsk-test")) AIConfig.initial))
      = Some c
      /\ AIConfig.apiKey c = "gsk-test"
      /\ AIConfig.baseURL c = Some "https://api.groq.com/openai/v1".
Proof.
  destruct (initializeAI_returns_iff (groq_env (Some "gsk-test")) AIConfig.initial)
    as [[_ H1] H2].
  assert (R : fst (AIConfig.initializeAI (groq_env (Some "gsk-test"))
                                         AIConfig.initial) = Returned tt)
    by (apply H1; right; split; reflexivity).
  split; [exact R|].
  destruct (H2 R) as (c & Hc & _ & _ & Hk & Hu & _).
  exists c. split; [exact Hc|]. split.
  - cbn in Hk. congruence.
  - apply Hu. reflexivity.
Defined.

(** Groq asked for without its key, over a client of OpenAI. *)
Lemma initializeAI_failure_keeps_client_witness :
  exists e st',
    AIConfig.initializeAI (groq_env None) openai_state = (Thrown e, st')
    /\ AIConfig.aiClient st' = AIConfig.aiClient openai_state
    /\ AIConfig.currentProvider st' = Some "groq"
    /\ AIConfig.model (groq_env None) st' = "llama-3.3-70b-versatile".
Proof.
  eexists _, _.
  match goal with |- ?A /\ _ => assert (E : A) by (lazy; reflexivity) end.
  split; [exact E|].
  destruct (initializeAI_failure_keeps_client _ _ _ _ E) as (H1 & H2 & H3).
  split; [exact H1|]. split; [exact H2|]. exact (H3 eq_refl).
Defined.

(** An answer that is JSON, one that is not, and no answer. *)
Lemma classify_outcomes_witness :
  fst (classify "How are you?" (sample_world [Returned says_no_task]))
  = Returned (JObj [("isTask", JBool false); ("confidence", JNum (8 # 10))])
  /\ fst (classify "How are you?" (sample_world [Returned "not sure"]))
     = Returned (JObj [("isTask", JBool false); ("confidence", JNum 0)])
  /\ fst (classify "How are you?" (sample_world []))
     = Returned (JObj [("isTask", JBool false); ("confidence", JNum 0)]).
Proof.
  split; [|split].
  - destruct (classify_outcomes "How are you?"
                                (sample_world [Returned says_no_task]))
      as (c & w' & E & _ & _ & _ & H).
    rewrite E, (H says_no_task [] eq_refl eq_refl). reflexivity.
  - destruct (classify_outcomes "How are you?"
                                (sample_world [Returned "not sure"]))
      as (c & w' & E & _ & _ & _ & H).
    rewrite E, (H "not sure" [] eq_refl eq_refl). reflexivity.
  - destruct (classify_outcomes "How are you?" (sample_world []))
      as (c & w' & E & _ & _ & H & _).
    rewrite E, (H eq_refl). reflexivity.
Defined.

(** An answer with a space at its end, and no answer. *)
Lemma handleConversation_outcomes_witness :
  (exists r w',
      handleConversation "How are you?" (sample_world [Returned "Fine. "])
      = (Returned r, w')
      /\ message r = "Fine. " /\ isTask r = Some false)
  /\ (exists r w',
         handleConversation "How are you?" (sample_world []) = (Returned r, w')
         /\ message r
            = "Hello! I'm your task assistant. I can help you remember things and manage your tasks. Try saying something like 'Remind me to study tomorrow'!").
Proof.
  split.
  - destruct (handleConversation_outcomes "How are you?"
                                          (sample_world [Returned "Fine. "]))
      as (r & w' & E & Hi & _ & _ & _ & _ & H).
    exists r, w'. split; [exact E|].
    split; [exact (H "Fine. " [] eq_refl eq_refl)|exact Hi].
  - destruct (handleConversation_outcomes "How are you?" (sample_world []))
      as (r & w' & E & _ & _ & _ & _ & H & _).
    exists r, w'. split; [exact E|exact (H eq_refl)].
Defined.
